(** * process_data.py: pairing, decoding and writing of capture sessions

    A shallow embedding of [src/process_data.py].  The script is glue over
    the Python run time, [os], [pathlib], [json], PyAV ([av]) and OpenCV
    ([cv2]).  The library calls it makes are embedded first, each from the
    documented behaviour of the library (CPython 3, default interpreter
    mode, so [assert] statements are executed; POSIX paths); the four
    functions of the script follow, line by line. *)

From Stdlib Require Import ZArith String Ascii List Floats.
From Stdlib Require Import Decimal DecimalString DecimalNat.
From stdpp Require Import base gmap sets list strings.

Set Warnings "-register-all,-clear-no-such-hyp".

(** ** Python strings *)

Module PyStr.

(** [a + b] *)
Fixpoint concat (a b : string) : string :=
  match a with
  | "" => b
  | String c a' => String c (concat a' b)
  end.

(** [s.startswith(pre)] *)
Fixpoint startswith (pre s : string) : bool :=
  match pre with
  | "" => true
  | String c pre' =>
      match s with
      | "" => false
      | String x s' => Ascii.eqb x c && startswith pre' s'
      end
  end.

(** [s[n:]] *)
Fixpoint drop (n : nat) (s : string) {struct s} : string :=
  match s with
  | "" => ""
  | String _ s' =>
      match n with
      | O => s
      | S k => drop k s'
      end
  end.

(** [s[:n]] *)
Fixpoint take (n : nat) (s : string) {struct s} : string :=
  match s with
  | "" => ""
  | String c s' =>
      match n with
      | O => ""
      | S k => String c (take k s')
      end
  end.

(** [s.rfind(c)] for a one-character needle; [None] is Python's [-1]. *)
Fixpoint rfind (c : ascii) (s : string) : option nat :=
  match s with
  | "" => None
  | String x s' =>
      match rfind c s' with
      | Some i => Some (S i)
      | None => if Ascii.eqb x c then Some 0 else None
      end
  end.

(** [s.endswith(c)] for a one-character suffix. *)
Fixpoint endswith (c : ascii) (s : string) : bool :=
  match s with
  | "" => false
  | String x "" => Ascii.eqb x c
  | String _ s' => endswith c s'
  end.

(** [s.rstrip(c)]: drop every trailing [c]. *)
Fixpoint rstrip (c : ascii) (s : string) : string :=
  match s with
  | "" => ""
  | String x s' =>
      match rstrip c s' with
      | "" => if Ascii.eqb x c then "" else String x ""
      | r => String x r
      end
  end.

(** [s == c * len(s)] *)
Fixpoint all_char (c : ascii) (s : string) : bool :=
  match s with
  | "" => true
  | String x s' => Ascii.eqb x c && all_char c s'
  end.

(** [s.split(c)] for a one-character separator. *)
Fixpoint split (c : ascii) (s : string) : list string :=
  match s with
  | "" => [""]
  | String x s' =>
      if Ascii.eqb x c then "" :: split c s'
      else match split c s' with
           | [] => [String x ""]
           | w :: ws => String x w :: ws
           end
  end.

(** [s.replace(old, new)] for a non-empty [old]: the occurrences of [old]
    are found left to right and do not overlap.  [skip] counts the
    characters of a match that are still to be passed over. *)
Fixpoint replace_from (old new : string) (skip : nat) (s : string) : string :=
  match s with
  | "" => ""
  | String x s' =>
      match skip with
      | S k => replace_from old new k s'
      | O =>
          if startswith old s
          then concat new (replace_from old new (String.length old - 1) s')
          else String x (replace_from old new 0 s')
      end
  end.

Definition replace (s old new : string) : string := replace_from old new 0 s.

(** A formatted string literal, as the pieces it is made of. *)
Definition fstring (parts : list string) : string :=
  fold_right concat "" parts.

(** [str(n)] for a non-negative integer. *)
Definition of_nat (n : nat) : string := NilEmpty.string_of_uint (Nat.to_uint n).

(** [n] printed on at least two digits, as [%d], [%I] and [%M] of
    [strftime] do. *)
Definition of_nat_02 (n : nat) : string :=
  if n <? 10 then concat "0" (of_nat n) else of_nat n.

End PyStr.

(** ** [posixpath] and [pathlib] *)

Module PosixPath.
Import PyStr.

(** [os.path.join(a, b)] *)
Definition join (a b : string) : string :=
  if startswith "/" b then b
  else if (String.eqb a "") || endswith "/"%char a then concat a b
  else concat a (concat "/" b).

(** [os.path.split(p)] *)
Definition split (p : string) : string * string :=
  let i := match rfind "/"%char p with Some k => S k | None => 0 end in
  let head := take i p in
  let tail := drop i p in
  let head :=
    if negb (String.eqb head "") && negb (all_char "/"%char head)
    then rstrip "/"%char head else head in
  (head, tail).

(** [Path(p).name]: the last component of [p]; empty components and [.]
    components are not components of a path. *)
Definition name (p : string) : string :=
  let parts :=
    List.filter (fun c => negb (String.eqb c "") && negb (String.eqb c "."))
      (PyStr.split "/"%char p) in
  List.last parts "".

(** [Path(p).stem]: the name without its last suffix ([pathlib] up to
    Python 3.13: a leading dot and a trailing dot start no suffix). *)
Definition stem (p : string) : string :=
  let name := name p in
  match rfind "."%char name with
  | Some i =>
      if (0 <? i) && (i <? String.length name - 1) then take i name else name
  | None => name
  end.

End PosixPath.

(** ** Python values, exceptions and operators *)

Module Py.

(** The objects the script handles: what [json.load] returns ([None],
    [bool], [int], [float], [str], [list], [dict] with string keys in
    insertion order), and the modules and functions its names are bound
    to. *)
Inductive pyval : Type :=
| VNone
| VBool (b : bool)
| VInt (z : Z)
| VFloat (f : float)
| VStr (s : string)
| VList (l : list pyval)
| VDict (d : list (string * pyval))
| VModule (name : string)
| VFunction (name : string).

Inductive exn : Type :=
| NameError (name : string)
| AssertionError
| KeyError (key : pyval)
| IndexError
| TypeError
| OverflowError
| RecursionError
| FileNotFoundError (path : string)
| FileExistsError (path : string)
| NotADirectoryError (path : string)
| IsADirectoryError (path : string)
| JSONDecodeError
| InvalidDataError
| CvError.

(** The outcome of evaluating an expression or running a statement. *)
Inductive Res (A : Type) : Type :=
| Ok (a : A)
| Raise (e : exn).
Arguments Ok {A} a.
Arguments Raise {A} e.

Definition res_bind {A B} (r : Res A) (k : A -> Res B) : Res B :=
  match r with
  | Ok a => k a
  | Raise e => Raise e
  end.

#[global] Instance Res_ret : MRet Res := fun A a => Ok a.
#[global] Instance Res_bind : MBind Res := fun A B k r => res_bind r k.

(** *** Numbers *)

Inductive num : Type :=
| NInt (z : Z)
| NFloat (f : float).

(** [bool] is a subclass of [int]. *)
Definition as_num (v : pyval) : option num :=
  match v with
  | VBool b => Some (NInt (if b then 1 else 0))
  | VInt z => Some (NInt z)
  | VFloat f => Some (NFloat f)
  | _ => None
  end.

(** [float(z)]: rounded to nearest, ties to even; an integer beyond the
    range of a double has no float. *)
Definition float_of_Z (z : Z) : option float :=
  match binary_normalize prec emax z 0 false with
  | S754_infinity _ => None
  | sf => Some (SF2Prim sf)
  end.

Definition to_float (n : num) : Res float :=
  match n with
  | NFloat f => Ok f
  | NInt z =>
      match float_of_Z z with
      | Some f => Ok f
      | None => Raise OverflowError
      end
  end.

(** Python compares an [int] with a [float] exactly; [None] when the
    float is a NaN. *)
Definition Z_compare_float (z : Z) (f : float) : option comparison :=
  match Prim2SF f with
  | S754_nan => None
  | S754_infinity s => Some (if s then Gt else Lt)
  | S754_zero _ => Some (z ?= 0)%Z
  | S754_finite s m e =>
      let v := if s then Z.neg m else Z.pos m in
      Some (if (0 <=? e)%Z then (z ?= v * 2 ^ e)%Z
            else (z * 2 ^ (- e) ?= v)%Z)
  end.

(** [a + b] *)
Definition py_add (a b : pyval) : Res pyval :=
  match as_num a, as_num b with
  | Some (NInt x), Some (NInt y) => Ok (VInt (x + y))
  | Some x, Some y =>
      res_bind (to_float x) (fun fx =>
      res_bind (to_float y) (fun fy =>
      Ok (VFloat (fx + fy)%float)))
  | _, _ =>
      match a, b with
      | VStr s, VStr t => Ok (VStr (PyStr.concat s t))
      | VList s, VList t => Ok (VList (s ++ t))
      | _, _ => Raise TypeError
      end
  end.

(** [a - b] *)
Definition py_sub (a b : pyval) : Res pyval :=
  match as_num a, as_num b with
  | Some (NInt x), Some (NInt y) => Ok (VInt (x - y))
  | Some x, Some y =>
      res_bind (to_float x) (fun fx =>
      res_bind (to_float y) (fun fy =>
      Ok (VFloat (fx - fy)%float)))
  | _, _ => Raise TypeError
  end.

(** [abs(a)] *)
Definition py_abs (a : pyval) : Res pyval :=
  match as_num a with
  | Some (NInt x) => Ok (VInt (Z.abs x))
  | Some (NFloat f) => Ok (VFloat (PrimFloat.abs f))
  | None => Raise TypeError
  end.

(** [a < c] and [a > c] for a float literal [c]: an object that is not a
    number does not compare with a float. *)
Definition py_lt (a : pyval) (c : float) : Res bool :=
  match as_num a with
  | Some (NInt x) =>
      Ok (match Z_compare_float x c with Some Lt => true | _ => false end)
  | Some (NFloat f) => Ok (PrimFloat.ltb f c)
  | None => Raise TypeError
  end.

Definition py_gt (a : pyval) (c : float) : Res bool :=
  match as_num a with
  | Some (NInt x) =>
      Ok (match Z_compare_float x c with Some Gt => true | _ => false end)
  | Some (NFloat f) => Ok (PrimFloat.ltb c f)
  | None => Raise TypeError
  end.

(** *** Subscription *)

(** The position an index [z] denotes in a sequence of length [n];
    negative indices count from the end. *)
Definition seq_index (n : nat) (z : Z) : option nat :=
  if ((0 <=? z) && (z <? Z.of_nat n))%Z then Some (Z.to_nat z)
  else if ((- Z.of_nat n <=? z) && (z <? 0))%Z then Some (Z.to_nat (Z.of_nat n + z))
  else None.

Fixpoint dict_get (d : list (string * pyval)) (k : string) : option pyval :=
  match d with
  | [] => None
  | (k', v) :: d' => if String.eqb k' k then Some v else dict_get d' k
  end.

Definition list_item (l : list pyval) (z : Z) : Res pyval :=
  match seq_index (length l) z with
  | Some i =>
      match nth_error l i with
      | Some v => Ok v
      | None => Raise IndexError
      end
  | None => Raise IndexError
  end.

Definition str_item (s : string) (z : Z) : Res pyval :=
  match seq_index (String.length s) z with
  | Some i =>
      match String.get i s with
      | Some c => Ok (VStr (String c EmptyString))
      | None => Raise IndexError
      end
  | None => Raise IndexError
  end.

(** [obj[key]] *)
Definition py_getitem (obj key : pyval) : Res pyval :=
  match obj with
  | VDict d =>
      match key with
      | VStr k =>
          match dict_get d k with
          | Some v => Ok v
          | None => Raise (KeyError key)
          end
      | VList _ | VDict _ => Raise TypeError
      | _ => Raise (KeyError key)
      end
  | VList l =>
      match key with
      | VInt z => list_item l z
      | VBool b => list_item l (if b then 1 else 0)
      | _ => Raise TypeError
      end
  | VStr s =>
      match key with
      | VInt z => str_item s z
      | VBool b => str_item s (if b then 1 else 0)
      | _ => Raise TypeError
      end
  | _ => Raise TypeError
  end.

(** [assert b] *)
Definition py_assert (b : bool) : Res unit :=
  if b then Ok tt else Raise AssertionError.

(** *** Names *)

(** The names bound in the module when [main] runs: the imports and the
    [def]s of the script, under the names the interpreter sets. *)
Definition module_globals : list (string * pyval) :=
  [ ("__name__", VStr "__main__"); ("__doc__", VNone);
    ("__package__", VNone); ("__spec__", VNone);
    ("json", VModule "json"); ("av", VModule "av");
    ("np", VModule "numpy"); ("glob", VModule "glob");
    ("os", VModule "os"); ("Path", VFunction "pathlib.Path");
    ("datetime", VFunction "datetime.datetime"); ("cv", VModule "cv2");
    ("re", VModule "re"); ("load_json", VFunction "load_json");
    ("load_video", VFunction "load_video");
    ("get_paired_data", VFunction "get_paired_data");
    ("main", VFunction "main") ].

(** The names of the [builtins] module. *)
Definition builtin_names : list string :=
  [ "abs"; "aiter"; "all"; "anext"; "any"; "ascii"; "bin"; "bool";
    "breakpoint"; "bytearray"; "bytes"; "callable"; "chr"; "classmethod";
    "compile"; "complex"; "copyright"; "credits"; "delattr"; "dict"; "dir";
    "divmod"; "enumerate"; "eval"; "exec"; "exit"; "filter"; "float";
    "format"; "frozenset"; "getattr"; "globals"; "hasattr"; "hash"; "help";
    "hex"; "id"; "input"; "int"; "isinstance"; "issubclass"; "iter"; "len";
    "license"; "list"; "locals"; "map"; "max"; "memoryview"; "min"; "next";
    "object"; "oct"; "open"; "ord"; "pow"; "print"; "property"; "quit";
    "range"; "repr"; "reversed"; "round"; "set"; "setattr"; "slice";
    "sorted"; "staticmethod"; "str"; "sum"; "super"; "tuple"; "type";
    "vars"; "zip"; "__import__"; "__build_class__"; "__debug__";
    "Ellipsis"; "NotImplemented";
    "ArithmeticError"; "AssertionError"; "AttributeError"; "BaseException";
    "BaseExceptionGroup"; "BlockingIOError"; "BrokenPipeError";
    "BufferError"; "BytesWarning"; "ChildProcessError";
    "ConnectionAbortedError"; "ConnectionError"; "ConnectionRefusedError";
    "ConnectionResetError"; "DeprecationWarning"; "EOFError";
    "EncodingWarning"; "EnvironmentError"; "Exception"; "ExceptionGroup";
    "FileExistsError"; "FileNotFoundError"; "FloatingPointError";
    "FutureWarning"; "GeneratorExit"; "IOError"; "ImportError";
    "ImportWarning"; "IndentationError"; "IndexError"; "InterruptedError";
    "IsADirectoryError"; "KeyError"; "KeyboardInterrupt"; "LookupError";
    "MemoryError"; "ModuleNotFoundError"; "NameError";
    "NotADirectoryError"; "NotImplementedError"; "OSError";
    "OverflowError"; "PendingDeprecationWarning"; "PermissionError";
    "ProcessLookupError"; "RecursionError"; "ReferenceError";
    "ResourceWarning"; "RuntimeError"; "RuntimeWarning";
    "StopAsyncIteration"; "StopIteration"; "SyntaxError"; "SyntaxWarning";
    "SystemError"; "SystemExit"; "TabError"; "TimeoutError"; "TypeError";
    "UnboundLocalError"; "UnicodeDecodeError"; "UnicodeEncodeError";
    "UnicodeError"; "UnicodeTranslateError"; "UnicodeWarning";
    "UserWarning"; "ValueError"; "Warning"; "ZeroDivisionError" ].

(** Reading a name that is not local to the function: the module's
    globals, then the built-ins, then [NameError]. *)
Definition load_global (name : string) : Res pyval :=
  match dict_get module_globals name with
  | Some v => Ok v
  | None =>
      if existsb (String.eqb name) builtin_names
      then Ok (VFunction name)
      else Raise (NameError name)
  end.

End Py.

(** ** [numpy] arrays of pixels, PyAV frames, OpenCV transforms *)

Module Np.

(** One element of an [H x W x 3] array of [uint8]: its three channel
    values, in memory order. *)
Definition pixel : Type := Byte.byte * Byte.byte * Byte.byte.

(** An [H x W x 3] array, as its [H] rows of [W] pixels. *)
Definition ndarray : Type := list (list pixel).

(** [a.shape] *)
Definition shape (a : ndarray) : nat * nat * nat :=
  (length a, length (hd [] a), 3).

(** [str(a.shape)], what [print(a.shape)] writes. *)
Definition shape_str (a : ndarray) : string :=
  let '(h, w, c) := shape a in
  PyStr.fstring
    ["("; PyStr.of_nat h; ", "; PyStr.of_nat w; ", "; PyStr.of_nat c; ")"].

(** [a] has [h] rows of [w] pixels each, as every array has. *)
Definition rect (h w : nat) (a : ndarray) : Prop :=
  length a = h /\ Forall (fun row => length row = w) a.

End Np.

Module Av.
Import Py Np.

(** A decoded [av.VideoFrame]: its dimensions (libav decodes no frame
    without pixels), its presentation time in seconds ([None] when the
    stream carries none) and, for every row and column, the colour
    libswscale gives the pixel in the [rgb24] format. *)
Record VideoFrame : Type := {
  height : positive;
  width : positive;
  time : option float;
  rgb24 : nat -> nat -> pixel
}.

(** [frame.time] *)
Definition frame_time (frame : VideoFrame) : pyval :=
  match time frame with
  | Some t => VFloat t
  | None => VNone
  end.

(** [frame.to_ndarray(format="rgb24")] *)
Definition to_ndarray (frame : VideoFrame) : ndarray :=
  map (fun i => map (fun j => rgb24 frame i j) (seq 0 (Pos.to_nat (width frame))))
      (seq 0 (Pos.to_nat (height frame))).

(** A video stream, as decoding finds it: the frames the decoder yields,
    in decode order, and whether the data that follow them fail the
    decoder. *)
Record stream : Type := {
  decoded : list VideoFrame;
  broken : bool
}.

(** An opened container, as far as the script looks into it: its first
    video stream, when it has one. *)
Definition container : Type := option stream.

(** A container whose first video stream decodes into [frames], to its
    end. *)
Definition video (frames : list VideoFrame) : container :=
  Some {| decoded := frames; broken := false |}.

(** [container.decode(video=0)], when the iteration starts: a container
    without a video stream has no stream of index 0. *)
Definition decode (c : container) : Res stream :=
  match c with
  | Some s => Ok s
  | None => Raise IndexError
  end.

End Av.

Module Cv.
Import Py Np.

Definition black : pixel := (Byte.x00, Byte.x00, Byte.x00).

(** [src[i, j]] *)
Definition px (src : ndarray) (i j : nat) : pixel :=
  nth j (nth i src []) black.

(** [src.empty()] *)
Definition empty (src : ndarray) : bool :=
  (length src =? 0) || (length (hd [] src) =? 0).

Definition swap_rb (p : pixel) : pixel :=
  let '(c0, c1, c2) := p in (c2, c1, c0).

(** [cv.COLOR_BGR2RGB] and [cv.COLOR_RGB2BGR] are the same code, 4. *)
Inductive ColorConversionCode : Type := COLOR_BGR2RGB.
Definition COLOR_RGB2BGR : ColorConversionCode := COLOR_BGR2RGB.

(** [cv.cvtColor(src, code)]: the first and third channel of every pixel
    change places; an empty source fails the function's assertion. *)
Definition cvtColor (src : ndarray) (code : ColorConversionCode) : Res ndarray :=
  if empty src then Raise CvError
  else match code with
       | COLOR_BGR2RGB => Ok (map (map swap_rb) src)
       end.

(** [cv.transpose(src)]: row [j] of the result is column [j] of [src]. *)
Definition transpose (src : ndarray) : ndarray :=
  map (fun j => map (fun row => nth j row black) src)
      (seq 0 (length (hd [] src))).

(** [cv.flip(src, flipCode)]: 0 reverses the order of the rows, a
    positive code reverses every row, a negative code does both. *)
Definition flip (src : ndarray) (flipCode : Z) : ndarray :=
  if (flipCode =? 0)%Z then rev src
  else if (0 <? flipCode)%Z then map (@rev pixel) src
  else rev (map (@rev pixel) src).

Inductive RotateFlags : Type :=
| ROTATE_90_CLOCKWISE
| ROTATE_180
| ROTATE_90_COUNTERCLOCKWISE.

(** [cv.rotate(src, rotateCode)], as OpenCV computes it. *)
Definition rotate (src : ndarray) (rotateCode : RotateFlags) : ndarray :=
  match rotateCode with
  | ROTATE_90_CLOCKWISE => flip (transpose src) 1
  | ROTATE_180 => flip src (-1)
  | ROTATE_90_COUNTERCLOCKWISE => flip (transpose src) 0
  end.

End Cv.

(** ** The world the script runs in *)

Module Os.
Import Py.

(** What a directory holds under a name. *)
Inductive entry : Type :=
| EDir
| EFile (content : string).

#[global] Instance entry_eq_dec : EqDecision entry.
Proof. solve_decision. Defined.

(** The wall clock, to the minute. *)
Record datetime : Type := {
  year : nat;
  month : nat;
  day : nat;
  hour : nat;
  minute : nat
}.

(** The file system is a table of directories: the absolute path of
    every directory is mapped to the entries of that directory.  The
    process has a current directory, [w_cwd], an absolute path as
    [os.getcwd()] gives it; a relative path names what the kernel finds
    from there.  The script builds every path with [os.path.join] from
    constants and names without slashes: once made absolute, a path has
    no dot component and no doubled slash, and any two paths that name one
    file are the same string. *)
Record World : Type := {
  w_fs : gmap string (gmap string entry);
  w_cwd : string;
  w_stdout : list string;
  w_now : datetime
}.

Definition set_fs (fs : gmap string (gmap string entry)) (w : World) : World :=
  {| w_fs := fs; w_cwd := w_cwd w; w_stdout := w_stdout w; w_now := w_now w |}.

(** The absolute path of what [p] names for a process in the directory
    [cwd]: [p] itself when it is absolute, [p] joined to [cwd] when it is
    relative.  The empty path is taken for [cwd], as [os.path.join] and
    [os.path.abspath] take it; [main] hands it to no system call. *)
Definition abspath (cwd p : string) : string :=
  if String.eqb p "" then cwd else PosixPath.join cwd p.

(** A statement runs in a world and leaves a world, with a value or an
    exception. *)
Definition M (A : Type) : Type := World -> Res A * World.

#[global] Instance M_ret : MRet M := fun A a w => (Ok a, w).

#[global] Instance M_bind : MBind M := fun A B k m w =>
  match m w with
  | (Ok a, w') => k a w'
  | (Raise e, w') => (Raise e, w')
  end.

Definition raise {A} (e : exn) : M A := fun w => (Raise e, w).

(** Evaluating an expression that has no effect. *)
Definition eval {A} (r : Res A) : M A := fun w => (r, w).

(** [try: m  except: h] *)
Definition try_except {A} (m : M A) (h : exn -> M A) : M A := fun w =>
  match m w with
  | (Ok a, w') => (Ok a, w')
  | (Raise e, w') => h e w'
  end.

(** [for x in l: body x] *)
Fixpoint for_each {A} (l : list A) (body : A -> M unit) : M unit :=
  match l with
  | [] => mret tt
  | x :: l' => body x ;; for_each l' body
  end.

(** [for x in l: acc = body acc x], for a loop that builds a value. *)
Fixpoint for_fold {A S} (l : list A) (acc : S) (body : S -> A -> M S) : M S :=
  match l with
  | [] => mret acc
  | x :: l' => acc' ← body acc x; for_fold l' acc' body
  end.

(** [enumerate(l)] *)
Definition enumerate {A} (l : list A) : list (nat * A) :=
  combine (seq 0 (length l)) l.

(** [print(s)] *)
Definition print (s : string) : M unit := fun w =>
  (Ok tt, {| w_fs := w_fs w; w_cwd := w_cwd w;
             w_stdout := w_stdout w ++ [s]; w_now := w_now w |}).

Definition month_abbr (m : nat) : string :=
  nth (m - 1)
    ["Jan"; "Feb"; "Mar"; "Apr"; "May"; "Jun";
     "Jul"; "Aug"; "Sep"; "Oct"; "Nov"; "Dec"] "".

(** [datetime.now().strftime("%d_%b_%Y_%I.%M")] *)
Definition now_strftime : M string := fun w =>
  let t := w_now w in
  let h12 := if hour t mod 12 =? 0 then 12 else hour t mod 12 in
  (Ok (PyStr.fstring
         [PyStr.of_nat_02 (day t); "_"; month_abbr (month t); "_";
          PyStr.of_nat (year t); "_"; PyStr.of_nat_02 h12; ".";
          PyStr.of_nat_02 (minute t)]),
   w).

(** The entry an absolute path names in its parent directory. *)
Definition lookup_entry (fs : gmap string (gmap string entry)) (p : string)
  : option entry :=
  let '(head, tail) := PosixPath.split p in
  tbl ← fs !! head; tbl !! tail.

(** The table is that of a file system: every directory whose path has a
    last component is entered, as a directory, in the directory its path
    is split from. *)
Definition wf_fs (fs : gmap string (gmap string entry)) : bool :=
  bool_decide
    (map_Forall
       (fun p _ => (PosixPath.split p).2 = "" \/ lookup_entry fs p = Some EDir)
       fs).

(** [os.path.isdir(p)] *)
Definition isdir (p : string) : M bool := fun w =>
  (Ok (bool_decide (is_Some (w_fs w !! abspath (w_cwd w) p))), w).

(** [os.path.exists(p)] *)
Definition path_exists (p : string) : M bool := fun w =>
  (Ok (bool_decide (is_Some (w_fs w !! abspath (w_cwd w) p))
       || bool_decide (is_Some (lookup_entry (w_fs w) (abspath (w_cwd w) p)))),
   w).

(** [os.listdir(p)]: the names of the entries, in no particular order. *)
Definition listdir (p : string) : M (list string) := fun w =>
  match w_fs w !! abspath (w_cwd w) p with
  | Some tbl => (Ok (elements (dom tbl)), w)
  | None =>
      match lookup_entry (w_fs w) (abspath (w_cwd w) p) with
      | Some _ => (Raise (NotADirectoryError p), w)
      | None => (Raise (FileNotFoundError p), w)
      end
  end.

(** [os.mkdir(p)] *)
Definition mkdir (p : string) : M unit := fun w =>
  let fs := w_fs w in
  let '(head, tail) := PosixPath.split (abspath (w_cwd w) p) in
  if bool_decide (is_Some (fs !! abspath (w_cwd w) p))
     || bool_decide (is_Some (lookup_entry fs (abspath (w_cwd w) p)))
  then (Raise (FileExistsError p), w)
  else
    match fs !! head with
    | Some tbl =>
        if String.eqb tail "" then (Raise (FileNotFoundError p), w)
        else (Ok tt,
              set_fs (<[abspath (w_cwd w) p := ∅]>
                        (<[head := <[tail := EDir]> tbl]> fs)) w)
    | None => (Raise (FileNotFoundError p), w)
    end.

(** [os.makedirs(name, exist_ok=exist_ok)], as [os.py] defines it.  The
    recursion is on the head of the path, which is shorter than the
    path; [fuel] bounds its depth. *)
Fixpoint makedirs_rec (fuel : nat) (name : string) (exist_ok : bool) : M unit :=
  match fuel with
  | O => raise RecursionError
  | S fuel' =>
      let '(head, tail) := PosixPath.split name in
      let '(head, tail) :=
        if String.eqb tail "" then PosixPath.split head else (head, tail) in
      head_exists ← path_exists head;
      done ←
        (if negb (String.eqb head "") && negb (String.eqb tail "")
            && negb head_exists
         then
           try_except (makedirs_rec fuel' head exist_ok)
             (fun e => match e with
                       | FileExistsError _ => mret tt
                       | _ => raise e
                       end) ;;
           mret (String.eqb tail ".")
         else mret false);
      if done : bool then mret tt
      else
        try_except (mkdir name)
          (fun e =>
             is_dir ← isdir name;
             if negb exist_ok || negb is_dir then raise e else mret tt)
  end.

Definition makedirs (name : string) (exist_ok : bool) : M unit :=
  makedirs_rec (S (String.length name)) name exist_ok.

(** Can a file be created or truncated at [p]?  If so: the directory it
    lies in, its name there, and the entries of that directory. *)
Definition writable (w : World) (p : string)
  : Res (string * string * gmap string entry) :=
  let '(head, tail) := PosixPath.split (abspath (w_cwd w) p) in
  if bool_decide (is_Some (w_fs w !! abspath (w_cwd w) p))
  then Raise (IsADirectoryError p)
  else
    match w_fs w !! head with
    | None => Raise (FileNotFoundError p)
    | Some tbl =>
        match tbl !! tail with
        | Some EDir => Raise (IsADirectoryError p)
        | _ =>
            if String.eqb tail "" then Raise (FileNotFoundError p)
            else Ok (head, tail, tbl)
        end
    end.

(** [with open(p, 'w') as f: f.write(content)] *)
Definition write_file (p content : string) : M unit := fun w =>
  match writable w p with
  | Ok (head, tail, tbl) =>
      (Ok tt, set_fs (<[head := <[tail := EFile content]> tbl]> (w_fs w)) w)
  | Raise e => (Raise e, w)
  end.

(** [with open(p, 'r') as f: f.read()] *)
Definition read_file (p : string) : M string := fun w =>
  if bool_decide (is_Some (w_fs w !! abspath (w_cwd w) p))
  then (Raise (IsADirectoryError p), w)
  else
    match lookup_entry (w_fs w) (abspath (w_cwd w) p) with
    | Some (EFile content) => (Ok content, w)
    | Some EDir => (Raise (IsADirectoryError p), w)
    | None => (Raise (FileNotFoundError p), w)
    end.

End Os.

(** ** A small world to run the script in *)

Module Sample.
Import Py Np Av Cv Os.

Definition dq : string := String (Ascii.ascii_of_nat 34) EmptyString.

(** [json.dumps] on the values that need no escape and hold no float. *)
Fixpoint json_dumps (v : pyval) : string :=
  match v with
  | VNone => "null"
  | VBool b => if b then "true" else "false"
  | VInt z => NilEmpty.string_of_int (Z.to_int z)
  | VFloat _ => "NaN"
  | VStr s => PyStr.fstring [dq; s; dq]
  | VList l =>
      PyStr.fstring
        ["[";
         (fix items (l : list pyval) : string :=
            match l with
            | [] => ""
            | x :: l' =>
                match l' with
                | [] => json_dumps x
                | _ => PyStr.fstring [json_dumps x; ", "; items l']
                end
            end) l;
         "]"]
  | VDict d =>
      PyStr.fstring
        ["{";
         (fix items (d : list (string * pyval)) : string :=
            match d with
            | [] => ""
            | (k, x) :: d' =>
                match d' with
                | [] => PyStr.fstring [dq; k; dq; ": "; json_dumps x]
                | _ => PyStr.fstring [dq; k; dq; ": "; json_dumps x; ", "; items d']
                end
            end) d;
         "}"]
  | VModule _ | VFunction _ => "null"
  end.

(** A calibration record of two frames, with whole-second timestamps. *)
Definition calibration : pyval :=
  VDict [("sessionStartTime", VInt 100);
         ("frames", VList [VDict [("timestamp", VInt 100)];
                           VDict [("timestamp", VInt 101)]])].

Definition calibration_text : string :=
  PyStr.fstring
    ["{"; dq; "sessionStartTime"; dq; ": 100, "; dq; "frames"; dq; ": [{";
     dq; "timestamp"; dq; ": 100}, {"; dq; "timestamp"; dq; ": 101}]}"].

(** [json.loads] on the one text of this world. *)
Definition json_loads (text : string) : option pyval :=
  if String.eqb text calibration_text then Some calibration else None.

Definition colour (i j : nat) : pixel :=
  (Byte.x10, if i =? 0 then Byte.x20 else Byte.x21,
   if j =? 0 then Byte.x30 else Byte.x31).

(** A clip of two frames, two rows of three pixels each, one second
    apart. *)
Definition clip : list VideoFrame :=
  [ {| height := 2; width := 3; time := Some 0%float; rgb24 := colour |};
    {| height := 2; width := 3; time := Some 1%float; rgb24 := colour |} ].

Definition av_decode (bytes : string) : option container :=
  if String.eqb bytes "clip" then Some (video clip) else None.

(** A stand-in for the PNG encoder: the dimensions, then the samples. *)
Definition png_encode (img : ndarray) : string :=
  PyStr.fstring
    [PyStr.of_nat (length img); "x"; PyStr.of_nat (length (hd [] img)); ":";
     String.string_of_list_byte
       (flat_map (fun row => flat_map (fun '(a, b, c) => [a; b; c]) row) img)].

(** A directory that holds a calibration file and a video. *)
Definition documents : gmap string entry :=
  <["a.json" := EFile calibration_text]> {["a.mov" := EFile "clip"]}.

(** The same, with the calibration file under its longer name. *)
Definition documents_suffix : gmap string entry :=
  <["a_calibration.json" := EFile calibration_text]> {["a.mov" := EFile "clip"]}.

(** A calibration record whose second timestamp is four seconds late. *)
Definition calibration_late : pyval :=
  VDict [("sessionStartTime", VInt 100);
         ("frames", VList [VDict [("timestamp", VInt 100)];
                           VDict [("timestamp", VInt 105)]])].

Definition clock : datetime :=
  {| year := 2026; month := 2; day := 19; hour := 22; minute := 17 |}.

(** The current directory, [/work], holds the directory [data], with the
    files [docs], and an empty directory [out]. *)
Definition world (docs : gmap string entry) : World :=
  {| w_fs :=
       <["/" := {["work" := EDir]}]>
         (<["/work" := <["data" := EDir]> {["out" := EDir]}]>
            (<["/work/data" := docs]> {["/work/out" := ∅]}));
     w_cwd := "/work";
     w_stdout := [];
     w_now := clock |}.

End Sample.

(** ** The script *)

Section Script.
Import Py Np Av Cv Os.

(** The codecs behind [json], [av] and [cv.imwrite]: the script uses
    them as black boxes on the contents of files. *)
Variable json_loads : string -> option pyval.
Variable json_dumps : pyval -> string.
Variable av_decode : string -> option container.
Variable png_encode : ndarray -> string.

Set Default Proof Using "Type".

(** [json.load(fin)] on an open file holding [text]. *)
Definition json_load (text : string) : M pyval :=
  match json_loads text with
  | Some js => mret js
  | None => raise JSONDecodeError
  end.

(** [av.open(fp)] *)
Definition av_open (fp : string) : M container :=
  bytes ← read_file fp;
  match av_decode bytes with
  | Some container => mret container
  | None => raise InvalidDataError
  end.

(** [cv.imwrite(path, img)] for a [.png] path: an empty image fails an
    assertion; a file that cannot be written makes the call return
    [False]. *)
Definition imwrite (path : string) (img : ndarray) : M bool := fun w =>
  if Cv.empty img then (Raise CvError, w)
  else
    match writable w path with
    | Ok (head, tail, tbl) =>
        (Ok true,
         set_fs (<[head := <[tail := EFile (png_encode img)]> tbl]> (w_fs w)) w)
    | Raise _ => (Ok false, w)
    end.

(** lines 11-14 *)
Definition load_json (fp : string) : M pyval :=
  text ← read_file fp;
  js ← json_load text;
  mret js.

Definition tolerance : float := 0x1.0624dd2f1a9fcp-10%float.    (* 1e-3 *)
Definition separation : float := 0x1.47ae147ae147bp-7%float.    (* 1e-2 *)

(** [calibration_data['frames'][i]['timestamp']] *)
Definition frame_timestamp (calibration_data : pyval) (i : Z) : Res pyval :=
  frames ← py_getitem calibration_data (VStr "frames");
  entry ← py_getitem frames (VInt i);
  py_getitem entry (VStr "timestamp").

(** lines 32-35: the checks made on a frame when calibration data is
    given. *)
Definition check_frame (calibration_data start_time : pyval)
    (idx : nat) (frame : VideoFrame) : Res unit :=
  abs_ts ← py_add (frame_time frame) start_time;
  (* line 33 *)
  ts ← frame_timestamp calibration_data (Z.of_nat idx);
  d ← py_sub abs_ts ts;
  a ← py_abs d;
  c ← py_lt a tolerance;
  py_assert c ;;
  (* line 34 *)
  timestamps ← load_global "timestamps";
  t ← py_getitem timestamps (VInt (Z.of_nat idx));
  ts ← frame_timestamp calibration_data (Z.of_nat idx + 1);
  d ← py_sub t ts;
  a ← py_abs d;
  c ← py_gt a separation;
  py_assert c ;;
  (* line 35 *)
  timestamps ← load_global "timestamps";
  t ← py_getitem timestamps (VInt (Z.of_nat idx));
  ts ← frame_timestamp calibration_data (Z.of_nat idx - 1);
  d ← py_sub t ts;
  a ← py_abs d;
  c ← py_gt a separation;
  py_assert c.

(** The distance line 33 measures for a frame: between its presentation
    time plus the start of the session, and the timestamp the calibration
    data records under its index. *)
Definition deviation (calibration_data : pyval) (idx : nat)
    (frame : VideoFrame) : Res pyval :=
  start_time ← py_getitem calibration_data (VStr "sessionStartTime");
  abs_ts ← py_add (frame_time frame) start_time;
  ts ← frame_timestamp calibration_data (Z.of_nat idx);
  d ← py_sub abs_ts ts;
  py_abs d.

(** The frame is off its recorded timestamp by more than the tolerance. *)
Definition deviates (calibration_data : pyval) (idx : nat)
    (frame : VideoFrame) : Prop :=
  exists a, deviation calibration_data idx frame = Ok a /\
            py_gt a tolerance = Ok true.

(** The frame is within the tolerance of its recorded timestamp. *)
Definition matches (calibration_data : pyval) (idx : nat)
    (frame : VideoFrame) : Prop :=
  exists a, deviation calibration_data idx frame = Ok a /\
            py_lt a tolerance = Ok true.

(** What a call of [load_video] leaves on the standard output: the shape
    of the first frame, when there is one. *)
Definition printed_shape (frames : list VideoFrame) (w : World) : World :=
  match frames with
  | [] => w
  | frame :: _ =>
      {| w_fs := w_fs w;
         w_cwd := w_cwd w;
         w_stdout := w_stdout w ++ [shape_str (to_ndarray frame)];
         w_now := w_now w |}
  end.

(** The exceptions the checks of lines 32-35 can raise. *)
Definition check_error (e : exn) : bool :=
  match e with
  | AssertionError | NameError _ | KeyError _ | IndexError | TypeError
  | OverflowError => true
  | _ => false
  end.

(** Every exception [m] can raise satisfies [P]. *)
Definition raises_only {A} (P : exn -> Prop) (m : M A) : Prop :=
  forall w e w', m w = (Raise e, w') -> P e.

Definition is_not_None (v : pyval) : bool :=
  match v with
  | VNone => false
  | _ => true
  end.

(** lines 21-35: the body of the loop over the decoded frames; [rgb] is
    the list built so far. *)
Definition decode_frame (calibration_data start_time : pyval)
    (rgb : list ndarray) (item : nat * VideoFrame) : M (list ndarray) :=
  let '(idx, frame) := item in
  let frame_rgb := to_ndarray frame in
  let rgb := rgb ++ [frame_rgb] in
  (if idx =? 0 then print (shape_str frame_rgb) else mret tt) ;;
  (if is_not_None calibration_data
   then eval (check_frame calibration_data start_time idx frame)
   else mret tt) ;;
  mret rgb.

(** lines 16-37.  [start_time] is bound only when calibration data is
    given, and read only then.  The loop of line 21 draws the frames from
    the decoder one by one: it ends when the stream does, or with the
    error of the decoder on data it cannot decode. *)
Definition load_video (fp : string) (calibration_data : pyval)
  : M (list ndarray) :=
  container ← av_open fp;
  start_time ←
    (if is_not_None calibration_data
     then eval (py_getitem calibration_data (VStr "sessionStartTime"))
     else mret VNone);
  let rgb := [] in
  stream ← eval (decode container);
  rgb ← for_fold (enumerate (decoded stream)) rgb
          (decode_frame calibration_data start_time);
  (if broken stream then raise InvalidDataError else mret tt) ;;
  mret rgb.

(** lines 42-45: the base name an entry of the directory gives. *)
Definition base_name (fp : string) : string :=
  let name := PosixPath.stem fp in
  PyStr.replace name "_calibration" "".

(** line 48: the pair of paths built for a base name. *)
Definition pair_of (root_dir video_ext name : string) : string * string :=
  (PosixPath.join root_dir (PyStr.fstring [name; ".json"]),
   PosixPath.join root_dir (PyStr.fstring [name; "."; video_ext])).

(** lines 39-48.  The list comprehension runs over the set in the order
    Python iterates it, which is not specified; [elements] is one such
    order. *)
Definition get_paired_data (root_dir video_ext : string)
  : M (list (string * string)) :=
  let names : gset string := ∅ in
  entries ← listdir root_dir;
  let names := foldl (fun names fp => names ∪ {[base_name fp]}) names entries in
  mret (map (pair_of root_dir video_ext) (elements names)).

(** The default of the parameter [video_ext]. *)
Definition default_video_ext : string := "mp4".

(** lines 70-71: the image line 72 writes for a frame. *)
Definition written_image (frame : ndarray) : Res ndarray :=
  frame ← cvtColor frame COLOR_RGB2BGR;
  mret (rotate frame ROTATE_90_CLOCKWISE).

(** The way back from a written image: the opposite rotation, then the
    opposite change of channel order. *)
Definition restored_image (img : ndarray) : Res ndarray :=
  cvtColor (rotate img ROTATE_90_COUNTERCLOCKWISE) COLOR_BGR2RGB.

(** lines 68-72: the body of the loop that writes the frames. *)
Definition write_frame (video_outdir : string) (item : nat * ndarray) : M unit :=
  let '(idx, frame) := item in
  let frame_path := PosixPath.join video_outdir (PyStr.fstring [PyStr.of_nat idx; ".png"]) in
  frame ← eval (cvtColor frame COLOR_RGB2BGR);
  let frame := rotate frame ROTATE_90_CLOCKWISE in
  imwrite frame_path frame ;;
  mret tt.

(** lines 56-72: the body of the loop over the pairs. *)
Definition process_pair (outdir : string) (item : nat * (string * string))
  : M unit :=
  let '(idx, (calibration_fp, video_fp)) := item in
  calibration_json ← load_json calibration_fp;
  video_rgb ← load_video video_fp VNone;
  let video_outdir := PosixPath.join outdir (PyStr.fstring ["video_"; PyStr.of_nat idx]) in
  makedirs video_outdir true ;;
  write_file (PosixPath.join video_outdir "calibration.json")
    (json_dumps calibration_json) ;;
  for_each (enumerate video_rgb) (write_frame video_outdir).

(** The directory of the pair of index [idx], the name of the file of the
    frame of index [idx], and the image written for a decoded frame. *)
Definition video_dir (outdir : string) (idx : nat) : string :=
  PosixPath.join outdir (PyStr.concat "video_" (PyStr.of_nat idx)).

Definition frame_file (idx : nat) : string :=
  PyStr.concat (PyStr.of_nat idx) ".png".

Definition image_of (frame : VideoFrame) : ndarray :=
  rotate (map (map swap_rb) (to_ndarray frame)) ROTATE_90_CLOCKWISE.

(** The entries of a directory after the frames have been written into
    it, the first of them under the index [k]. *)
Fixpoint write_all (k : nat) (frames : list VideoFrame)
    (tbl : gmap string entry) : gmap string entry :=
  match frames with
  | [] => tbl
  | frame :: frames' =>
      write_all (S k) frames'
        (<[frame_file k := EFile (png_encode (image_of frame))]> tbl)
  end.

Definition root_dir : string :=
  "/Users/elizabethterveen/Desktop/lpwm.ExInt-Capture-2 2026-02-19 10:17.24.843.xcappdata/AppData/Documents".

(** lines 51-72 *)
Definition main : M unit :=
  stamp ← now_strftime;
  let outdir := PosixPath.join "parsed_videos" stamp in
  makedirs outdir true ;;
  data_pairs ← get_paired_data root_dir "mov";
  for_each (enumerate data_pairs) (process_pair outdir).

(** lines 56-72 as they read when line 58 hands calibration data to
    [load_video]: [supplied] gives, from the record of the pair, what is
    handed over.  The loop of [main] hands over nothing: its body is
    [process_pair_with (fun _ => VNone)]. *)
Definition process_pair_with (supplied : pyval -> pyval) (outdir : string)
    (item : nat * (string * string)) : M unit :=
  let '(idx, (calibration_fp, video_fp)) := item in
  calibration_json ← load_json calibration_fp;
  video_rgb ← load_video video_fp (supplied calibration_json);
  let video_outdir := PosixPath.join outdir (PyStr.fstring ["video_"; PyStr.of_nat idx]) in
  makedirs video_outdir true ;;
  write_file (PosixPath.join video_outdir "calibration.json")
    (json_dumps calibration_json) ;;
  for_each (enumerate video_rgb) (write_frame video_outdir).

(** The exceptions of a failed timestamp check: the [AssertionError] of
    lines 33-35 and the [NameError] of the name they read. *)
Definition timestamp_error (e : exn) : bool :=
  match e with
  | AssertionError | NameError _ => true
  | _ => false
  end.

Definition not_timestamp_error (e : exn) : Prop := timestamp_error e = false.

(** The statement [m], run in a current directory whose path ends in no
    slash, stays there and, whatever its outcome, changes no directory but
    the current one and those whose absolute path begins with that of
    [parsed_videos] in it. *)
Definition writes_below_parsed_videos {A} (m : M A) : Prop :=
  forall w r w',
    PyStr.endswith "/"%char (w_cwd w) = false ->
    m w = (r, w') ->
    w_cwd w' = w_cwd w /\
    forall dir,
      dir <> w_cwd w ->
      PyStr.startswith (PosixPath.join (w_cwd w) "parsed_videos") dir = false ->
      w_fs w' !! dir = w_fs w !! dir.

(** More of the small world: a decoder that also knows a clip of one
    frame, a clip without frames, a file without a video stream and a clip
    whose data fail the decoder after the first frame; a directory with
    such files and a file that is not JSON; and a file system that holds
    the input directory of [main]. *)
Definition sample_av_decode (bytes : string) : option container :=
  if String.eqb bytes "clip" then Some (video Sample.clip)
  else if String.eqb bytes "short" then Some (video (take 1 Sample.clip))
  else if String.eqb bytes "empty" then Some (video [])
  else if String.eqb bytes "audio" then Some None
  else if String.eqb bytes "cut"
  then Some (Some {| decoded := take 1 Sample.clip; broken := true |})
  else None.

Definition sample_files : gmap string entry :=
  <["a.json" := EFile Sample.calibration_text]>
    (<["a.mov" := EFile "clip"]>
       (<["short.mov" := EFile "short"]>
          (<["empty.mov" := EFile "empty"]>
             (<["b.json" := EFile "not json"]>
                (<["c.json" := EFile Sample.calibration_text]> ∅))))).

Definition sample_session : gmap string entry :=
  <[PyStr.concat "take7" (PyStr.concat "_calibration" ".json") :=
      EFile Sample.calibration_text]>
    {[PyStr.concat "take7" (PyStr.concat "." "mov") := EFile "clip"]}.

Definition sample_roots : World :=
  {| w_fs := <["/" := {["work" := EDir]}]> {["/work" := ∅]};
     w_cwd := "/work";
     w_stdout := [];
     w_now := Sample.clock |}.

Definition sample_home : World :=
  set_fs (w_fs (makedirs root_dir true sample_roots).2) sample_roots.

Definition sample_home_files : World :=
  set_fs
    (w_fs (write_file (PosixPath.join root_dir "a.mov") "clip"
       (write_file (PosixPath.join root_dir "a.json") Sample.calibration_text
          sample_home).2).2)
    sample_roots.

(** A record whose first timestamp is four seconds late, a directory
    that holds it as [off.json], and a [json.loads] that reads its
    text. *)
Definition sample_calibration_off : pyval :=
  VDict [("sessionStartTime", VInt 100);
         ("frames", VList [VDict [("timestamp", VInt 104)];
                           VDict [("timestamp", VInt 101)]])].

Definition sample_json_loads (text : string) : option pyval :=
  if String.eqb text (Sample.json_dumps sample_calibration_off)
  then Some sample_calibration_off
  else Sample.json_loads text.

Definition sample_files_off : gmap string entry :=
  <["off.json" := EFile (Sample.json_dumps sample_calibration_off)]> sample_files.

(** The input directory with three sessions: [a], whose video has no
    video stream, [b] and [c]. *)
Definition sample_home_mixed : World :=
  set_fs
    (w_fs (write_file (PosixPath.join root_dir "c.mov") "short"
      (write_file (PosixPath.join root_dir "c.json") Sample.calibration_text
      (write_file (PosixPath.join root_dir "b.mov") "clip"
      (write_file (PosixPath.join root_dir "b.json") Sample.calibration_text
      (write_file (PosixPath.join root_dir "a.mov") "audio"
      (write_file (PosixPath.join root_dir "a.json") Sample.calibration_text
         sample_home).2).2).2).2).2).2)
    sample_roots.


Definition sample_morning : World :=
  {| w_fs := ∅; w_cwd := "/work"; w_stdout := [];
     w_now := {| year := 2026; month := 2; day := 19; hour := 10; minute := 17 |} |}.

Definition sample_evening : World :=
  {| w_fs := ∅; w_cwd := "/work"; w_stdout := [];
     w_now := {| year := 2026; month := 2; day := 19; hour := 22; minute := 17 |} |}.

(** ** Pairing *)

Lemma names_foldl (f : string -> string) (l : list string) (X : gset string) :
  foldl (fun names fp => names ∪ {[f fp]}) X l = X ∪ list_to_set (f <$> l).
Proof.
  clear. revert X. induction l as [|fp l IH]; intros X; simpl.
  - set_solver.
  - rewrite IH. set_solver.
Qed.

(** The set of base names [get_paired_data] collects from a directory. *)
Lemma get_paired_data_names (root_dir video_ext : string) (w : World)
    (tbl : gmap string entry) :
  w_fs w !! abspath (w_cwd w) root_dir = Some tbl ->
  get_paired_data root_dir video_ext w =
    (Ok (map (pair_of root_dir video_ext)
           (elements (list_to_set (base_name <$> elements (dom tbl)) : gset string))),
     w).
Proof.
  intros Hdir. unfold get_paired_data, listdir, mbind, M_bind, mret, M_ret.
  rewrite Hdir, names_foldl. by rewrite (left_id_L ∅ (∪)).
Qed.

Lemma in_base_names (tbl : gmap string entry) (name : string) :
  name ∈ (list_to_set (base_name <$> elements (dom tbl)) : gset string) <->
  exists fp, fp ∈ dom tbl /\ name = base_name fp.
Proof.
  rewrite elem_of_list_to_set, list_elem_of_fmap.
  split; intros (fp & H1 & H2); exists fp.
  - split; [by apply elem_of_elements | done].
  - split; [done | by apply elem_of_elements].
Qed.

Lemma concat_empty_r (s : string) : PyStr.concat s "" = s.
Proof. induction s as [|c s IH]; simpl; [done | by f_equal]. Qed.

Lemma pair_of_paths (root_dir video_ext name : string) :
  pair_of root_dir video_ext name =
    (PosixPath.join root_dir (PyStr.concat name ".json"),
     PosixPath.join root_dir (PyStr.concat name (PyStr.concat "." video_ext))).
Proof. unfold pair_of, PyStr.fstring. simpl. by rewrite concat_empty_r. Qed.

(** C4: a directory that holds exactly [a.json] and [a.mov] gives exactly
    one pair, the paths of these two files in the directory. *)
Theorem pairing_json_mov (root_dir : string) (w : World) (c1 c2 : string) :
  w_fs w !! abspath (w_cwd w) root_dir =
    Some (<["a.json" := EFile c1]> {["a.mov" := EFile c2]}) ->
  get_paired_data root_dir "mov" w =
    (Ok [(PosixPath.join root_dir "a.json", PosixPath.join root_dir "a.mov")], w).
Proof.
  intros Hdir. rewrite (get_paired_data_names _ _ _ _ Hdir).
  replace (list_to_set _ : gset string) with ({["a"]} : gset string).
  - by rewrite elements_singleton.
  - apply set_eq. intros name. rewrite in_base_names, elem_of_singleton.
    rewrite dom_insert_L, dom_singleton_L. split.
    + intros ->. exists "a.json". split; [set_solver | reflexivity].
    + intros (fp & Hfp & ->).
      apply elem_of_union in Hfp as [->%elem_of_singleton | ->%elem_of_singleton];
        reflexivity.
Qed.

(** C5: with [a_calibration.json] in the place of [a.json] the result is
    the same: the suffix is taken off the stem, and the pair names
    [a.json]. *)
Theorem pairing_calibration_suffix (root_dir : string) (w : World) (c1 c2 : string) :
  w_fs w !! abspath (w_cwd w) root_dir =
    Some (<["a_calibration.json" := EFile c1]> {["a.mov" := EFile c2]}) ->
  get_paired_data root_dir "mov" w =
    (Ok [(PosixPath.join root_dir "a.json", PosixPath.join root_dir "a.mov")], w).
Proof.
  intros Hdir. rewrite (get_paired_data_names _ _ _ _ Hdir).
  replace (list_to_set _ : gset string) with ({["a"]} : gset string).
  - by rewrite elements_singleton.
  - apply set_eq. intros name. rewrite in_base_names, elem_of_singleton.
    rewrite dom_insert_L, dom_singleton_L. split.
    + intros ->. exists "a.mov". split; [set_solver | reflexivity].
    + intros (fp & Hfp & ->).
      apply elem_of_union in Hfp as [->%elem_of_singleton | ->%elem_of_singleton];
        reflexivity.
Qed.

(** C6: whatever a directory holds, pairing gives, for each base name its
    entries give and for no other name, the pair of paths built from the
    name; what the directory holds under these paths plays no part. *)
Theorem pairing_builds_paths (root_dir video_ext : string) (w : World)
    (tbl : gmap string entry) :
  w_fs w !! abspath (w_cwd w) root_dir = Some tbl ->
  exists pairs,
    get_paired_data root_dir video_ext w = (Ok pairs, w) /\
    length pairs = size (list_to_set (base_name <$> elements (dom tbl)) : gset string) /\
    forall p, p ∈ pairs <->
      exists fp, fp ∈ dom tbl /\
        p = (PosixPath.join root_dir (PyStr.concat (base_name fp) ".json"),
             PosixPath.join root_dir
               (PyStr.concat (base_name fp) (PyStr.concat "." video_ext))).
Proof.
  intros Hdir. eexists. split; [by apply get_paired_data_names|].
  split; [by rewrite length_map|].
  intros p. rewrite list_elem_of_fmap. split.
  - intros (name & -> & Hname). apply elem_of_elements, in_base_names in Hname.
    destruct Hname as (fp & Hfp & ->). exists fp. by rewrite pair_of_paths.
  - intros (fp & Hfp & ->). exists (base_name fp).
    split; [by rewrite pair_of_paths|].
    apply elem_of_elements, in_base_names. by exists fp.
Qed.

(** ** Images *)

Lemma nth_map_lt {A B} (f : A -> B) (l : list A) (i : nat) (d : A) (d' : B) :
  i < length l -> nth i (map f l) d' = f (nth i l d).
Proof.
  intros Hi. rewrite (nth_indep _ d' (f d)) by (by rewrite length_map).
  apply map_nth.
Qed.

Lemma rect_row (h w : nat) (a : ndarray) (i : nat) :
  rect h w a -> i < h -> length (nth i a []) = w.
Proof.
  intros [Hlen Hrows] Hi. rewrite Forall_forall in Hrows.
  apply Hrows, list_elem_of_In, nth_In. lia.
Qed.

Lemma rect_hd (h w : nat) (a : ndarray) :
  rect h w a -> 0 < h -> length (hd [] a) = w.
Proof.
  intros Hr Hh. pose proof (rect_row h w a 0 Hr Hh) as H.
  by destruct a.
Qed.

Lemma rect_shape (h w : nat) (a : ndarray) :
  rect h w a -> 0 < h -> shape a = (h, w, 3).
Proof.
  intros Hr Hh. unfold shape. rewrite (rect_hd h w a Hr Hh).
  by destruct Hr as [-> _].
Qed.

Lemma rect_nonempty (h w : nat) (a : ndarray) :
  rect h w a -> 0 < h -> 0 < w -> Cv.empty a = false.
Proof.
  intros Hr Hh Hw. unfold Cv.empty. rewrite (rect_hd h w a Hr Hh).
  destruct Hr as [-> _].
  apply orb_false_intro; apply Nat.eqb_neq; lia.
Qed.

(** Two arrays of one shape with the same pixels are the same array. *)
Lemma rect_ext (h w : nat) (a b : ndarray) :
  rect h w a -> rect h w b ->
  (forall i j, i < h -> j < w -> px a i j = px b i j) ->
  a = b.
Proof.
  intros Ha Hb Hpx.
  apply (nth_ext _ _ [] []); [destruct Ha, Hb; congruence|].
  intros i Hi. assert (i < h) as Hi' by (destruct Ha; lia).
  apply (nth_ext _ _ black black).
  - by rewrite (rect_row h w a), (rect_row h w b).
  - intros j Hj. rewrite (rect_row h w a) in Hj by done. by apply Hpx.
Qed.

Lemma to_ndarray_rect (frame : VideoFrame) :
  rect (Pos.to_nat (height frame)) (Pos.to_nat (width frame)) (to_ndarray frame).
Proof.
  unfold to_ndarray. split.
  - by rewrite length_map, length_seq.
  - apply Forall_forall. intros row Hrow%list_elem_of_In%in_map_iff.
    destruct Hrow as (i & <- & _). by rewrite length_map, length_seq.
Qed.

Lemma swap_rect (h w : nat) (a : ndarray) :
  rect h w a -> rect h w (map (map swap_rb) a).
Proof.
  intros [Hlen Hrows]. split; [by rewrite length_map|].
  apply Forall_forall. intros row Hrow%list_elem_of_In%in_map_iff.
  destruct Hrow as (r & <- & Hr). rewrite length_map.
  rewrite Forall_forall in Hrows. by apply Hrows, list_elem_of_In.
Qed.

Lemma swap_swap (a : ndarray) : map (map swap_rb) (map (map swap_rb) a) = a.
Proof.
  rewrite map_map. rewrite <- (map_id a) at 2. apply map_ext. intros row.
  rewrite map_map. rewrite <- (map_id row) at 2. apply map_ext.
  by intros [[c0 c1] c2].
Qed.

Lemma transpose_rect (h w : nat) (a : ndarray) :
  rect h w a -> 0 < h -> rect w h (transpose a).
Proof.
  intros Hr Hh. unfold transpose. rewrite (rect_hd h w a Hr Hh). split.
  - by rewrite length_map, length_seq.
  - apply Forall_forall. intros row Hrow%list_elem_of_In%in_map_iff.
    destruct Hrow as (j & <- & _). rewrite length_map. by destruct Hr.
Qed.

Lemma px_transpose (h w : nat) (a : ndarray) (i j : nat) :
  rect h w a -> i < w -> j < h -> px (transpose a) i j = px a j i.
Proof.
  intros Hr Hi Hj. assert (0 < h) as Hh by lia.
  unfold px, transpose. rewrite (rect_hd h w a Hr Hh).
  rewrite (nth_map_lt _ _ _ 0) by (by rewrite length_seq).
  rewrite seq_nth by done. simpl.
  rewrite (nth_map_lt _ _ _ []) by (destruct Hr; lia). done.
Qed.

Lemma rev_rect (h w : nat) (a : ndarray) : rect h w a -> rect h w (rev a).
Proof.
  intros [Hlen Hrows]. split; [by rewrite length_rev|].
  apply Forall_forall. intros row Hrow%list_elem_of_In%in_rev.
  rewrite Forall_forall in Hrows. by apply Hrows, list_elem_of_In.
Qed.

Lemma px_rev (h w : nat) (a : ndarray) (i j : nat) :
  rect h w a -> i < h -> px (rev a) i j = px a (h - S i) j.
Proof.
  intros [Hlen _] Hi. unfold px. rewrite rev_nth by lia. by rewrite Hlen.
Qed.

Lemma map_rev_rect (h w : nat) (a : ndarray) :
  rect h w a -> rect h w (map (@rev pixel) a).
Proof.
  intros [Hlen Hrows]. split; [by rewrite length_map|].
  apply Forall_forall. intros row Hrow%list_elem_of_In%in_map_iff.
  destruct Hrow as (r & <- & Hr). rewrite length_rev.
  rewrite Forall_forall in Hrows. by apply Hrows, list_elem_of_In.
Qed.

Lemma px_map_rev (h w : nat) (a : ndarray) (i j : nat) :
  rect h w a -> i < h -> j < w -> px (map (@rev pixel) a) i j = px a i (w - S j).
Proof.
  intros Hr Hi Hj. unfold px.
  rewrite (nth_map_lt _ _ _ []) by (destruct Hr; lia).
  pose proof (rect_row h w a i Hr Hi) as Hrow.
  rewrite rev_nth by lia. by rewrite Hrow.
Qed.

Lemma rotate_cw_rect (h w : nat) (a : ndarray) :
  rect h w a -> 0 < h -> rect w h (rotate a ROTATE_90_CLOCKWISE).
Proof. intros Hr Hh. simpl. unfold flip. simpl. by apply map_rev_rect, transpose_rect. Qed.

Lemma rotate_ccw_rect (h w : nat) (a : ndarray) :
  rect h w a -> 0 < h -> rect w h (rotate a ROTATE_90_COUNTERCLOCKWISE).
Proof. intros Hr Hh. simpl. unfold flip. simpl. by apply rev_rect, transpose_rect. Qed.

(** Pixel [(i, j)] of the image turned clockwise is pixel [(h-1-j, i)] of
    the source. *)
Lemma px_rotate_cw (h w : nat) (a : ndarray) (i j : nat) :
  rect h w a -> i < w -> j < h ->
  px (rotate a ROTATE_90_CLOCKWISE) i j = px a (h - S j) i.
Proof.
  intros Hr Hi Hj. simpl. unfold flip. simpl.
  rewrite (px_map_rev w h) by (done || apply transpose_rect; (done || lia)).
  apply (px_transpose h w); (done || lia).
Qed.

(** Pixel [(i, j)] of the image turned counter-clockwise is pixel
    [(j, w-1-i)] of the source. *)
Lemma px_rotate_ccw (h w : nat) (a : ndarray) (i j : nat) :
  rect h w a -> i < w -> j < h ->
  px (rotate a ROTATE_90_COUNTERCLOCKWISE) i j = px a j (w - S i).
Proof.
  intros Hr Hi Hj. simpl. unfold flip. simpl.
  rewrite (px_rev w h) by (done || apply transpose_rect; (done || lia)).
  apply (px_transpose h w); (done || lia).
Qed.

Lemma rotate_ccw_cw (h w : nat) (a : ndarray) :
  rect h w a -> 0 < h -> 0 < w ->
  rotate (rotate a ROTATE_90_CLOCKWISE) ROTATE_90_COUNTERCLOCKWISE = a.
Proof.
  intros Hr Hh Hw. apply (rect_ext h w); [|done|].
  - by apply rotate_ccw_rect; [apply rotate_cw_rect|].
  - intros i j Hi Hj.
    rewrite (px_rotate_ccw w h) by (done || by apply rotate_cw_rect).
    rewrite (px_rotate_cw h w) by (done || lia).
    f_equal. lia.
Qed.

Lemma written_image_ok (h w : nat) (frame : ndarray) :
  rect h w frame -> 0 < h -> 0 < w ->
  written_image frame =
    Ok (rotate (map (map swap_rb) frame) ROTATE_90_CLOCKWISE).
Proof.
  intros Hr Hh Hw. unfold written_image, cvtColor.
  by rewrite (rect_nonempty h w).
Qed.

(** C3: the image written for a decoded frame, turned back and with its
    channels swapped back, is the decoded frame. *)
Theorem write_transform_invertible (frame : VideoFrame) :
  exists img,
    written_image (to_ndarray frame) = Ok img /\
    restored_image img = Ok (to_ndarray frame).
Proof.
  pose proof (to_ndarray_rect frame) as Hr.
  set (h := Pos.to_nat (height frame)) in *.
  set (w := Pos.to_nat (width frame)) in *.
  assert (0 < h) as Hh by (unfold h; lia).
  assert (0 < w) as Hw by (unfold w; lia).
  eexists. split; [by apply (written_image_ok h w)|].
  unfold restored_image.
  rewrite (rotate_ccw_cw h w) by (done || by apply swap_rect).
  unfold cvtColor. rewrite (rect_nonempty h w) by (done || by apply swap_rect).
  by rewrite swap_swap.
Qed.

(** C10: a decoded frame of [H] rows and [W] columns is written as an
    image of [W] rows and [H] columns. *)
Theorem written_image_transposed (frame : VideoFrame) :
  shape (to_ndarray frame) =
    (Pos.to_nat (height frame), Pos.to_nat (width frame), 3) /\
  exists img,
    written_image (to_ndarray frame) = Ok img /\
    shape img = (Pos.to_nat (width frame), Pos.to_nat (height frame), 3) /\
    forall video_outdir idx,
      write_frame video_outdir (idx, to_ndarray frame) =
        (imwrite
           (PosixPath.join video_outdir
              (PyStr.concat (PyStr.of_nat idx) ".png")) img ;;
         mret tt).
Proof.
  pose proof (to_ndarray_rect frame) as Hr.
  set (h := Pos.to_nat (height frame)) in *.
  set (w := Pos.to_nat (width frame)) in *.
  assert (0 < h) as Hh by (unfold h; lia).
  assert (0 < w) as Hw by (unfold w; lia).
  split; [by apply rect_shape|].
  eexists. split; [by apply (written_image_ok h w)|]. split.
  - apply rect_shape; [|done]. by apply rotate_cw_rect; [apply swap_rect|].
  - intros video_outdir idx. unfold write_frame, cvtColor.
    rewrite (rect_nonempty h w) by done. reflexivity.
Qed.

(** ** Decoding *)

Ltac unfold_M :=
  unfold mbind, M_bind, mret, M_ret, Res_bind, Res_ret, res_bind, eval, raise in *.

Lemma av_open_world (fp : string) (w : World) : (av_open fp w).2 = w.
Proof.
  unfold av_open, read_file. unfold_M.
  repeat (case_match; simplify_eq; simpl; try done).
Qed.

Lemma av_open_ok (fp : string) (w : World) (c : container) :
  (av_open fp w).1 = Ok c -> av_open fp w = (Ok c, w).
Proof.
  intros H. pose proof (av_open_world fp w) as Hw.
  destruct (av_open fp w) as [r w']. simpl in *. congruence.
Qed.

(** Without calibration data a frame past the first is decoded and
    nothing else happens. *)
Lemma decode_rest_none (start_time : pyval) (frames : list VideoFrame)
    (k : nat) (rgb : list ndarray) (w : World) :
  0 < k ->
  for_fold (combine (seq k (length frames)) frames) rgb
    (decode_frame VNone start_time) w =
  (Ok (rgb ++ map to_ndarray frames), w).
Proof.
  revert k rgb. induction frames as [|frame frames IH]; intros k rgb Hk; simpl.
  - by rewrite app_nil_r.
  - unfold_M. destruct (Nat.eqb_neq k 0) as [_ ->]; [|lia]. simpl.
    rewrite IH by lia. by rewrite <- app_assoc.
Qed.

Lemma decode_all_none (start_time : pyval) (frames : list VideoFrame) (w : World) :
  for_fold (enumerate frames) [] (decode_frame VNone start_time) w =
  (Ok (map to_ndarray frames), printed_shape frames w).
Proof.
  destruct frames as [|frame frames]; [done|].
  unfold enumerate. simpl. unfold_M. unfold print. simpl.
  by rewrite decode_rest_none by lia.
Qed.

(** [load_video] without calibration data: the exception of [av.open],
    the [IndexError] of a container without a video stream, or the frames
    of the stream, with the error of the decoder after them when the
    stream is broken. *)
Lemma load_video_none (fp : string) (w : World) :
  load_video fp VNone w =
    match av_open fp w with
    | (Ok (Some s), w') =>
        (if broken s then Raise InvalidDataError
         else Ok (map to_ndarray (decoded s)),
         printed_shape (decoded s) w')
    | (Ok None, w') => (Raise IndexError, w')
    | (Raise e, w') => (Raise e, w')
    end.
Proof.
  unfold load_video. unfold_M.
  destruct (av_open fp w) as [[[s|]|e] w']; [|done..].
  simpl. rewrite decode_all_none. by destruct (broken s).
Qed.

Lemma load_video_none_video (fp : string) (w : World) (frames : list VideoFrame) :
  av_open fp w = (Ok (video frames), w) ->
  load_video fp VNone w = (Ok (map to_ndarray frames), printed_shape frames w).
Proof. intros Hopen. by rewrite load_video_none, Hopen. Qed.

Lemma printed_shape_fs (frames : list VideoFrame) (w : World) :
  w_fs (printed_shape frames w) = w_fs w.
Proof. by destruct frames. Qed.

Lemma printed_shape_cwd (frames : list VideoFrame) (w : World) :
  w_cwd (printed_shape frames w) = w_cwd w.
Proof. by destruct frames. Qed.

(** C7: a video of [N] frames is decoded into [N] arrays, in the order of
    the frames, each of the height and width of its frame and of three
    channels. *)
Theorem load_video_frames (fp : string) (w : World) (frames : list VideoFrame) :
  (av_open fp w).1 = Ok (video frames) ->
  exists rgb w',
    load_video fp VNone w = (Ok rgb, w') /\
    length rgb = length frames /\
    forall i frame, frames !! i = Some frame ->
      rgb !! i = Some (to_ndarray frame) /\
      shape (to_ndarray frame) =
        (Pos.to_nat (height frame), Pos.to_nat (width frame), 3).
Proof.
  intros Hopen%av_open_ok. exists (map to_ndarray frames), (printed_shape frames w).
  split; [by apply load_video_none_video|].
  split; [by rewrite length_map|].
  intros i frame Hi. split.
  - change (map to_ndarray frames) with (to_ndarray <$> frames).
    by rewrite list_lookup_fmap, Hi.
  - apply rect_shape; [apply to_ndarray_rect | lia].
Qed.

Lemma load_timestamps : load_global "timestamps" = Raise (NameError "timestamps").
Proof. reflexivity. Qed.

(** The checks of a frame never pass: the name [timestamps] of line 34 is
    bound nowhere. *)
Lemma check_frame_raises (calibration_data start_time : pyval) (idx : nat)
    (frame : VideoFrame) :
  exists e, check_frame calibration_data start_time idx frame = Raise e /\
            check_error e = true.
Proof.
  unfold check_frame. unfold_M.
  destruct (py_add _ _) as [abs_ts|e] eqn:Hadd.
  2:{ exists e. split; [done|]. unfold py_add in Hadd. unfold_M.
      unfold to_float in Hadd. repeat case_match; by simplify_eq. }
  destruct (frame_timestamp _ _) as [ts|e] eqn:Hts.
  2:{ exists e. split; [done|]. unfold frame_timestamp in Hts. unfold_M.
      unfold py_getitem, list_item, str_item in Hts.
      repeat case_match; by simplify_eq. }
  destruct (py_sub _ _) as [d|e] eqn:Hsub.
  2:{ exists e. split; [done|]. unfold py_sub in Hsub. unfold_M.
      unfold to_float in Hsub. repeat case_match; by simplify_eq. }
  destruct (py_abs _) as [a|e] eqn:Habs.
  2:{ exists e. split; [done|]. unfold py_abs in Habs.
      repeat case_match; by simplify_eq. }
  destruct (py_lt _ _) as [c|e] eqn:Hlt.
  2:{ exists e. split; [done|]. unfold py_lt in Hlt.
      repeat case_match; by simplify_eq. }
  destruct c; simpl; eauto.
Qed.

(** When line 33 passes, line 34 raises [NameError]. *)
Lemma check_frame_name_error (calibration_data start_time : pyval) (idx : nat)
    (frame : VideoFrame) :
  py_getitem calibration_data (VStr "sessionStartTime") = Ok start_time ->
  matches calibration_data idx frame ->
  check_frame calibration_data start_time idx frame = Raise (NameError "timestamps").
Proof.
  intros Hst (a & Hdev & Hlt). unfold deviation in Hdev. rewrite Hst in Hdev.
  unfold check_frame. unfold_M.
  destruct (py_add _ _) as [abs_ts|e]; [|done].
  destruct (frame_timestamp _ _) as [ts|e]; [|done].
  destruct (py_sub _ _) as [d|e]; [|done].
  rewrite Hdev, Hlt. reflexivity.
Qed.

(** When the distance of line 33 is not below the tolerance, line 33
    raises [AssertionError]. *)
Lemma check_frame_assertion (calibration_data start_time : pyval) (idx : nat)
    (frame : VideoFrame) (a : pyval) :
  py_getitem calibration_data (VStr "sessionStartTime") = Ok start_time ->
  deviation calibration_data idx frame = Ok a ->
  py_lt a tolerance = Ok false ->
  check_frame calibration_data start_time idx frame = Raise AssertionError.
Proof.
  intros Hst Hdev Hlt. unfold deviation in Hdev. rewrite Hst in Hdev.
  unfold check_frame. unfold_M.
  destruct (py_add _ _) as [abs_ts|e]; [|done].
  destruct (frame_timestamp _ _) as [ts|e]; [|done].
  destruct (py_sub _ _) as [d|e]; [|done].
  rewrite Hdev, Hlt. reflexivity.
Qed.

Lemma py_getitem_error (obj key : pyval) (e : exn) :
  py_getitem obj key = Raise e -> check_error e = true.
Proof.
  unfold py_getitem, list_item, str_item. intros H.
  repeat case_match; by simplify_eq.
Qed.

Lemma is_not_None_true (v : pyval) : v <> VNone -> is_not_None v = true.
Proof. by destruct v. Qed.

(** With calibration data, the outcome of the first frame is the outcome
    of the call. *)
Lemma load_video_first_frame (fp : string) (calibration_data start_time : pyval)
    (w : World) (s : stream) (frame : VideoFrame) (frames : list VideoFrame)
    (e : exn) :
  calibration_data <> VNone ->
  av_open fp w = (Ok (Some s), w) ->
  decoded s = frame :: frames ->
  py_getitem calibration_data (VStr "sessionStartTime") = Ok start_time ->
  check_frame calibration_data start_time 0 frame = Raise e ->
  load_video fp calibration_data w = (Raise e, printed_shape [frame] w).
Proof.
  intros Hcal%is_not_None_true Hopen Hdec Hst He. unfold load_video. unfold_M.
  rewrite Hopen, Hcal, Hst. cbn [decode]. rewrite Hdec.
  unfold enumerate. simpl. unfold_M. rewrite Hcal, He. reflexivity.
Qed.

(** With calibration data, the first frame ends the decoding with an
    exception of the checks; nothing but the standard output has changed
    by then. *)
Lemma load_video_checked (fp : string) (calibration_data : pyval) (w : World)
    (s : stream) (frame : VideoFrame) (frames : list VideoFrame) :
  calibration_data <> VNone ->
  av_open fp w = (Ok (Some s), w) ->
  decoded s = frame :: frames ->
  exists e w',
    load_video fp calibration_data w = (Raise e, w') /\
    check_error e = true /\ w_fs w' = w_fs w /\
    (matches calibration_data 0 frame -> e = NameError "timestamps").
Proof.
  intros Hcal Hopen Hdec.
  destruct (py_getitem calibration_data (VStr "sessionStartTime"))
    as [start_time|e] eqn:Hst.
  - destruct (check_frame_raises calibration_data start_time 0 frame)
      as (e & He & Hce).
    exists e, (printed_shape [frame] w).
    split; [by apply (load_video_first_frame _ _ start_time _ s _ frames)|].
    split; [done|]. split; [done|].
    intros Hm. rewrite (check_frame_name_error _ _ _ _ Hst Hm) in He. congruence.
  - exists e, w. split.
    { unfold load_video. unfold_M.
      by rewrite Hopen, (is_not_None_true _ Hcal), Hst. }
    split; [by eapply py_getitem_error|].
    split; [done|]. intros (a & Hdev & _). unfold deviation in Hdev.
    rewrite Hst in Hdev. done.
Qed.

Lemma read_file_world (p : string) (w : World) : (read_file p w).2 = w.
Proof. unfold read_file. repeat (case_match; simplify_eq; simpl; try done). Qed.

Lemma load_json_world (fp : string) (w : World) : (load_json fp w).2 = w.
Proof.
  unfold load_json, json_load. unfold_M.
  pose proof (read_file_world fp w) as Hw.
  destruct (read_file fp w) as [[text|e] w']; simpl in *; subst; [|done].
  by destruct (json_loads text).
Qed.

Lemma load_json_ok (fp : string) (w : World) (js : pyval) :
  (load_json fp w).1 = Ok js -> load_json fp w = (Ok js, w).
Proof.
  intros H. pose proof (load_json_world fp w) as Hw.
  destruct (load_json fp w) as [r w']. simpl in *. congruence.
Qed.

(** *** Above the tolerance is not below it *)

Lemma compare_cont_opp (p q : positive) :
  Pos.compare_cont Eq q p = CompOpp (Pos.compare_cont Eq p q).
Proof. by rewrite (Pos.compare_cont_antisym p q Eq). Qed.

Lemma SFltb_asym (x y : spec_float) : SFltb x y = true -> SFltb y x = false.
Proof.
  unfold SFltb, SFcompare.
  destruct x as [sx|sx| |sx mx ex], y as [sy|sy| |sy my ey];
    try (by destruct sx); try (by destruct sy); try (by destruct sx, sy);
    try done.
  destruct sx, sy; try done;
    rewrite (Z.compare_antisym ex ey), (compare_cont_opp mx my);
    destruct (ex ?= ey)%Z; simpl; try done;
    by destruct (Pos.compare_cont Eq mx my).
Qed.

(** A number above a float is not below it. *)
Lemma py_gt_not_lt (a : pyval) (c : float) :
  py_gt a c = Ok true -> py_lt a c = Ok false.
Proof.
  unfold py_gt, py_lt. destruct (as_num a) as [[x|f]|]; [| |done].
  - intros [= H]. f_equal. by destruct (Z_compare_float x c) as [[| |]|].
  - intros [= H]. f_equal. rewrite FloatAxioms.ltb_spec in *.
    by apply SFltb_asym.
Qed.

(** Calibration data by which a frame is off its timestamp is calibration
    data, with a start of the session. *)
Lemma deviates_start_time (calibration_data : pyval) (idx : nat)
    (frame : VideoFrame) :
  deviates calibration_data idx frame ->
  calibration_data <> VNone /\
  exists start_time,
    py_getitem calibration_data (VStr "sessionStartTime") = Ok start_time.
Proof.
  intros (a & Hdev & _). unfold deviation in Hdev. unfold_M.
  destruct (py_getitem calibration_data (VStr "sessionStartTime"))
    as [start_time|e] eqn:Hst; [|done].
  split; [by intros ->|]. by exists start_time.
Qed.

Lemma process_pair_supplies_none (outdir : string)
    (item : nat * (string * string)) :
  process_pair outdir item = process_pair_with (fun _ => VNone) outdir item.
Proof. reflexivity. Qed.

(** C1: when calibration data is handed to [load_video] and a frame of the
    video is off its recorded timestamp by more than the tolerance,
    [load_video] raises, no later than at that frame: at the first frame,
    with [AssertionError] when that is the frame that is off.  The file
    system is then as it was, and the loop body of lines 56-72, when it
    hands the record of the pair to [load_video], ends with that exception
    in that world: for that pair no directory is made and no file is
    written. *)
Theorem deviating_frame_raises (outdir : string) (i : nat)
    (calibration_fp fp : string) (calibration_data : pyval) (w : World)
    (frames : list VideoFrame) (idx : nat) (frame : VideoFrame) :
  (load_json calibration_fp w).1 = Ok calibration_data ->
  (av_open fp w).1 = Ok (video frames) ->
  frames !! idx = Some frame ->
  deviates calibration_data idx frame ->
  exists e w',
    load_video fp calibration_data w = (Raise e, w') /\
    (idx = 0 -> e = AssertionError) /\
    w_fs w' = w_fs w /\
    forall supplied,
      supplied calibration_data = calibration_data ->
      process_pair_with supplied outdir (i, (calibration_fp, fp)) w =
        (Raise e, w').
Proof.
  intros Hjson%load_json_ok Hopen%av_open_ok Hidx Hdev.
  destruct (deviates_start_time _ _ _ Hdev) as (Hcal & start_time & Hst).
  destruct frames as [|frame0 frames]; [done|].
  destruct (check_frame_raises calibration_data start_time 0 frame0)
    as (e & He & _).
  pose proof (load_video_first_frame fp calibration_data start_time w _
                frame0 frames e Hcal Hopen eq_refl Hst He) as Hload.
  exists e, (printed_shape [frame0] w).
  split; [done|]. split; [|split; [done|]].
  - intros ->. simpl in Hidx. injection Hidx as ->.
    destruct Hdev as (a & Hdev & Hgt%py_gt_not_lt).
    rewrite (check_frame_assertion _ _ _ _ a Hst Hdev Hgt) in He. congruence.
  - intros supplied Hsupplied. unfold process_pair_with. unfold_M.
    by rewrite Hjson, Hsupplied, Hload.
Qed.

(** C2: with calibration data and at least one frame, [load_video]
    raises; when every frame is within the tolerance of its recorded
    timestamp, what it raises is the [NameError] of [timestamps]. *)
Theorem load_video_with_calibration_raises (fp : string)
    (calibration_data : pyval) (w : World) (frames : list VideoFrame) :
  calibration_data <> VNone ->
  (av_open fp w).1 = Ok (video frames) ->
  frames <> [] ->
  (exists e w', load_video fp calibration_data w = (Raise e, w')) /\
  ((forall idx frame, frames !! idx = Some frame ->
      matches calibration_data idx frame) ->
   exists w', load_video fp calibration_data w =
                (Raise (NameError "timestamps"), w')).
Proof.
  intros Hcal Hopen%av_open_ok Hne.
  destruct frames as [|frame0 frames]; [done|].
  destruct (load_video_checked fp calibration_data w _ frame0 frames Hcal Hopen
              eq_refl)
    as (e & w' & Hload & _ & _ & Hname).
  split; [by exists e, w'|].
  intros Hall. exists w'. rewrite Hload. f_equal. f_equal.
  apply Hname, (Hall 0). done.
Qed.

(** ** The exceptions of [main] *)

Lemma raises_only_ret {A} (P : exn -> Prop) (a : A) : raises_only P (mret a).
Proof. intros w e w' H. unfold_M. by simplify_eq. Qed.

Lemma raises_only_bind {A B} (P : exn -> Prop) (m : M A) (k : A -> M B) :
  raises_only P m -> (forall a, raises_only P (k a)) ->
  raises_only P (m ≫= k).
Proof.
  intros Hm Hk w e w' H. unfold_M.
  destruct (m w) as [[a|e0] w0] eqn:Hmw.
  - by eapply Hk.
  - simplify_eq. by eapply Hm.
Qed.

Lemma raises_only_try {A} (P : exn -> Prop) (m : M A) (h : exn -> M A) :
  (forall e, P e -> raises_only P (h e)) -> raises_only P m ->
  raises_only P (try_except m h).
Proof.
  intros Hh Hm w e w' H. unfold try_except in H.
  destruct (m w) as [[a|e0] w0] eqn:Hmw; [by simplify_eq|].
  eapply Hh; [|done]. by eapply Hm.
Qed.

Lemma raises_only_for_each {A} (P : exn -> Prop) (l : list A) (body : A -> M unit) :
  (forall x, raises_only P (body x)) -> raises_only P (for_each l body).
Proof.
  intros Hbody. induction l as [|x l IH]; simpl.
  - apply raises_only_ret.
  - apply raises_only_bind; [apply Hbody | by intros _].
Qed.

Lemma mkdir_raises (p : string) : raises_only not_timestamp_error (mkdir p).
Proof.
  intros w e w' H. unfold mkdir in H.
  repeat case_match; by simplify_eq.
Qed.

Lemma makedirs_rec_raises (fuel : nat) (name : string) (exist_ok : bool) :
  raises_only not_timestamp_error (makedirs_rec fuel name exist_ok).
Proof.
  revert name. induction fuel as [|fuel IH]; intros name; cbn [makedirs_rec].
  - intros w e w' Hr. unfold raise in Hr. by simplify_eq.
  - destruct (PosixPath.split name) as [head tail].
    destruct (if String.eqb tail "" then PosixPath.split head else (head, tail))
      as [head' tail'].
    apply raises_only_bind.
    { intros w e w' H. unfold path_exists in H. by simplify_eq. }
    intros head_exists. apply raises_only_bind.
    + case_match; [|apply raises_only_ret].
      apply raises_only_bind; [|intros; apply raises_only_ret].
      apply raises_only_try; [|apply IH].
      intros e He.
      destruct e; intros w e' w' Hr; unfold raise in Hr; by simplify_eq.
    + intros [|]; [apply raises_only_ret|].
      apply raises_only_try; [|apply mkdir_raises].
      intros e He. apply raises_only_bind.
      { intros w e' w' H. unfold isdir in H. by simplify_eq. }
      intros is_dir. case_match; [|apply raises_only_ret].
      intros w e' w' Hr. unfold raise in Hr. by simplify_eq.
Qed.

Lemma read_file_raises (p : string) : raises_only not_timestamp_error (read_file p).
Proof.
  intros w e w' H. unfold read_file in H.
  repeat case_match; by simplify_eq.
Qed.

Lemma load_json_raises (fp : string) : raises_only not_timestamp_error (load_json fp).
Proof.
  unfold load_json. apply raises_only_bind; [apply read_file_raises|].
  intros text. apply raises_only_bind; [|intros; apply raises_only_ret].
  unfold json_load. case_match; [apply raises_only_ret|].
  intros w e w' Hr. unfold raise in Hr. by simplify_eq.
Qed.

Lemma av_open_raises (fp : string) : raises_only not_timestamp_error (av_open fp).
Proof.
  unfold av_open. apply raises_only_bind; [apply read_file_raises|].
  intros bytes. case_match; [apply raises_only_ret|].
  intros w e w' Hr. unfold raise in Hr. by simplify_eq.
Qed.

Lemma load_video_none_raises (fp : string) :
  raises_only not_timestamp_error (load_video fp VNone).
Proof.
  intros w e w' H. rewrite load_video_none in H.
  destruct (av_open fp w) as [[[s|]|e0] w0] eqn:Hopen.
  - destruct (broken s); by simplify_eq.
  - by simplify_eq.
  - simplify_eq. by eapply av_open_raises.
Qed.

Lemma write_file_raises (p content : string) :
  raises_only not_timestamp_error (write_file p content).
Proof.
  intros w e w' H. unfold write_file, writable in H.
  repeat case_match; by simplify_eq.
Qed.

Lemma write_frame_raises (video_outdir : string) (item : nat * ndarray) :
  raises_only not_timestamp_error (write_frame video_outdir item).
Proof.
  destruct item as [idx frame]. unfold write_frame.
  apply raises_only_bind.
  - intros w e w' H. unfold eval, cvtColor in H. repeat case_match; by simplify_eq.
  - intros img. apply raises_only_bind; [|intros; apply raises_only_ret].
    intros w e w' H. unfold imwrite in H. repeat case_match; by simplify_eq.
Qed.

Lemma process_pair_raises (outdir : string) (item : nat * (string * string)) :
  raises_only not_timestamp_error (process_pair outdir item).
Proof.
  destruct item as [idx [calibration_fp video_fp]]. unfold process_pair.
  apply raises_only_bind; [apply load_json_raises|]. intros calibration_json.
  apply raises_only_bind; [apply load_video_none_raises|]. intros video_rgb.
  apply raises_only_bind; [apply makedirs_rec_raises|]. intros _.
  apply raises_only_bind; [apply write_file_raises|]. intros _.
  apply raises_only_for_each, write_frame_raises.
Qed.

Lemma get_paired_data_raises (root video_ext : string) :
  raises_only not_timestamp_error (get_paired_data root video_ext).
Proof.
  unfold get_paired_data. apply raises_only_bind; [|intros; apply raises_only_ret].
  intros w e w' H. unfold listdir in H. repeat case_match; by simplify_eq.
Qed.

(** [main] raises no exception of a failed timestamp check. *)
Lemma main_raises : raises_only not_timestamp_error main.
Proof.
  unfold main. apply raises_only_bind.
  { intros w e w' H. unfold now_strftime in H. by simplify_eq. }
  intros stamp. apply raises_only_bind; [apply makedirs_rec_raises|].
  intros _. apply raises_only_bind; [apply get_paired_data_raises|].
  intros data_pairs. apply raises_only_for_each, process_pair_raises.
Qed.

(** ** Strings and paths *)

Lemma length_concat (a b : string) :
  String.length (PyStr.concat a b) = String.length a + String.length b.
Proof. induction a as [|c a IH]; simpl; [done | by rewrite IH]. Qed.

Lemma concat_assoc (a b c : string) :
  PyStr.concat (PyStr.concat a b) c = PyStr.concat a (PyStr.concat b c).
Proof. induction a as [|x a IH]; simpl; [done | by rewrite IH]. Qed.

Lemma concat_inv_tail (a b c : string) :
  PyStr.concat a c = PyStr.concat b c -> a = b.
Proof.
  revert b. induction a as [|x a IH]; intros [|y b] H; simpl in *.
  - done.
  - apply (f_equal String.length) in H. simpl in H.
    rewrite length_concat in H. lia.
  - apply (f_equal String.length) in H. simpl in H.
    rewrite length_concat in H. lia.
  - injection H as -> H. f_equal. by apply IH.
Qed.

Lemma rfind_concat (c : ascii) (a b : string) :
  PyStr.rfind c a = None -> PyStr.rfind c b = None ->
  PyStr.rfind c (PyStr.concat a b) = None.
Proof.
  intros Ha Hb. induction a as [|x a IH]; simpl in *; [done|].
  destruct (PyStr.rfind c a); [done|].
  rewrite IH by done. by destruct (Ascii.eqb x c).
Qed.

(** The last [c] of [a + c + b] is the one written, when [b] has none. *)
Lemma rfind_concat_sep (c : ascii) (a b : string) :
  PyStr.rfind c b = None ->
  PyStr.rfind c (PyStr.concat a (String c b)) = Some (String.length a).
Proof.
  intros Hb. induction a as [|x a IH]; simpl.
  - by rewrite Hb, Ascii.eqb_refl.
  - by rewrite IH.
Qed.

Lemma take_concat (a b : string) :
  PyStr.take (String.length a) (PyStr.concat a b) = a.
Proof. induction a as [|x a IH]; simpl; [by destruct b | by rewrite IH]. Qed.

Lemma take_concat_S (a : string) (c : ascii) (b : string) :
  PyStr.take (S (String.length a)) (PyStr.concat a (String c b)) =
  PyStr.concat a (String c "").
Proof. induction a as [|x a IH]; simpl; [by destruct b | by rewrite IH]. Qed.

Lemma drop_concat_S (a : string) (c : ascii) (b : string) :
  PyStr.drop (S (String.length a)) (PyStr.concat a (String c b)) = b.
Proof. induction a as [|x a IH]; simpl; [by destruct b | by rewrite IH]. Qed.

Lemma endswith_concat (c : ascii) (a b : string) :
  b <> "" -> PyStr.endswith c (PyStr.concat a b) = PyStr.endswith c b.
Proof.
  intros Hb. induction a as [|x a IH]; simpl; [done|].
  rewrite IH. destruct (PyStr.concat a b) eqn:E; [|done].
  destruct a, b; simpl in E; done.
Qed.

Lemma rfind_none_endswith (c : ascii) (s : string) :
  PyStr.rfind c s = None -> PyStr.endswith c s = false.
Proof.
  induction s as [|x s IH]; simpl; [done|].
  destruct (PyStr.rfind c s); [done|]. intros H.
  destruct (Ascii.eqb x c) eqn:E; [done|].
  destruct s; [done | by apply IH].
Qed.

Lemma rstrip_id (c : ascii) (s : string) :
  PyStr.endswith c s = false -> PyStr.rstrip c s = s.
Proof.
  induction s as [|x s IH]; simpl; [done|].
  destruct s as [|y s].
  - simpl. by intros ->.
  - intros H. rewrite IH by done. done.
Qed.

Lemma rstrip_concat_sep (c : ascii) (s : string) :
  PyStr.endswith c s = false ->
  PyStr.rstrip c (PyStr.concat s (String c "")) = s.
Proof.
  induction s as [|x s IH]; simpl.
  - by rewrite Ascii.eqb_refl.
  - destruct s as [|y s].
    + simpl. rewrite Ascii.eqb_refl. by intros ->.
    + intros H. rewrite IH by done. done.
Qed.

Lemma all_char_concat_false (c : ascii) (s t : string) :
  s <> "" -> PyStr.endswith c s = false ->
  PyStr.all_char c (PyStr.concat s t) = false.
Proof.
  induction s as [|x s IH]; simpl; [done|]. intros _.
  destruct s as [|y s].
  - intros ->. done.
  - intros H. rewrite IH by done. apply andb_false_r.
Qed.

Lemma startswith_slash (b : string) :
  PyStr.rfind "/"%char b = None -> PyStr.startswith "/" b = false.
Proof.
  destruct b as [|x b]; [done|]. simpl.
  destruct (PyStr.rfind "/"%char b); [done|].
  by destruct (Ascii.eqb x "/"%char).
Qed.

(** [os.path.split] undoes [os.path.join] of a directory and a name. *)
Lemma split_join (d n : string) :
  PyStr.endswith "/"%char d = false ->
  PyStr.rfind "/"%char n = None ->
  PosixPath.split (PosixPath.join d n) = (d, n).
Proof.
  intros Hd Hn. unfold PosixPath.join.
  rewrite (startswith_slash n Hn), Hd, orb_false_r.
  destruct d as [|x d].
  - simpl. unfold PosixPath.split. rewrite Hn. simpl. by destruct n.
  - change (String.eqb (String x d) "") with false. cbv iota.
    set (dir := String x d) in *. change (PyStr.concat "/" n) with (String "/"%char n).
    unfold PosixPath.split. rewrite rfind_concat_sep by done.
    rewrite take_concat_S, drop_concat_S.
    rewrite all_char_concat_false by done.
    assert (String.eqb (PyStr.concat dir (String "/"%char "")) "" = false) as ->
      by (unfold dir; reflexivity).
    cbn [negb andb]. by rewrite rstrip_concat_sep.
Qed.

(** Decimal numerals hold digits only. *)
Lemma of_nat_no_char (c : ascii) (n : nat) :
  (forall d, In d ["0"; "1"; "2"; "3"; "4"; "5"; "6"; "7"; "8"; "9"]%char -> d <> c) ->
  PyStr.rfind c (PyStr.of_nat n) = None.
Proof.
  intros Hc. unfold PyStr.of_nat. generalize (Nat.to_uint n). intros u.
  assert (forall d, In d ["0"; "1"; "2"; "3"; "4"; "5"; "6"; "7"; "8"; "9"]%char ->
                    Ascii.eqb d c = false) as Hd.
  { intros d Hin. apply Ascii.eqb_neq. by apply Hc. }
  induction u; cbn [NilEmpty.string_of_uint PyStr.rfind]; [done|..];
    rewrite IHu, Hd; try done; simpl; tauto.
Qed.

Lemma of_nat_no_slash (n : nat) : PyStr.rfind "/"%char (PyStr.of_nat n) = None.
Proof.
  apply of_nat_no_char. intros d Hd. simpl in Hd.
  repeat (destruct Hd as [<-|Hd]; [done|]). done.
Qed.

Lemma of_nat_inj (i j : nat) : PyStr.of_nat i = PyStr.of_nat j -> i = j.
Proof.
  unfold PyStr.of_nat. intros H.
  apply (f_equal NilEmpty.uint_of_string) in H.
  rewrite !NilEmpty.usu in H. injection H as H.
  by apply Unsigned.to_uint_inj.
Qed.

Lemma png_name_inj (i j : nat) :
  PyStr.concat (PyStr.of_nat i) ".png" = PyStr.concat (PyStr.of_nat j) ".png" ->
  i = j.
Proof. by intros H%concat_inv_tail%of_nat_inj. Qed.

Lemma png_name_not_json (i : nat) :
  PyStr.concat (PyStr.of_nat i) ".png" <> "calibration.json".
Proof.
  intros H. apply (f_equal (PyStr.endswith "g"%char)) in H.
  rewrite endswith_concat in H by done. done.
Qed.

Lemma png_name_no_slash (i : nat) :
  PyStr.rfind "/"%char (PyStr.concat (PyStr.of_nat i) ".png") = None.
Proof. apply rfind_concat; [apply of_nat_no_slash | done]. Qed.

Lemma video_name_no_slash (i : nat) :
  PyStr.rfind "/"%char (PyStr.concat "video_" (PyStr.of_nat i)) = None.
Proof. apply rfind_concat; [done | apply of_nat_no_slash]. Qed.

Lemma join_endswith (d n : string) :
  n <> "" -> PyStr.rfind "/"%char n = None ->
  PyStr.endswith "/"%char (PosixPath.join d n) = false.
Proof.
  intros Hne Hn. unfold PosixPath.join. rewrite (startswith_slash n Hn).
  destruct (_ || _).
  - rewrite endswith_concat by done. by apply rfind_none_endswith.
  - rewrite endswith_concat by done. simpl.
    destruct n; [done|]. by apply rfind_none_endswith.
Qed.

Lemma concat_nonempty_r (a b : string) : b <> "" -> PyStr.concat a b <> "".
Proof.
  intros Hb H. apply (f_equal String.length) in H.
  rewrite length_concat in H. destruct b; simpl in H; [done | lia].
Qed.

Lemma eqb_concat_nonempty (a b : string) :
  b <> "" -> String.eqb (PyStr.concat a b) "" = false.
Proof. intros Hb. by apply String.eqb_neq, concat_nonempty_r. Qed.

(** [os.path.join] of three parts, the last of them relative, can be
    made in either order. *)
Lemma join_assoc (a b c : string) :
  b <> "" -> PyStr.startswith "/" c = false ->
  PosixPath.join a (PosixPath.join b c) = PosixPath.join (PosixPath.join a b) c.
Proof.
  intros Hb Hc. destruct b as [|x b]; [done|]. clear Hb.
  set (B := String x b).
  assert (B <> "") as HB by done.
  assert (PosixPath.join B c =
          PyStr.concat B (if PyStr.endswith "/"%char B then c
                          else PyStr.concat "/" c)) as Hbc.
  { unfold PosixPath.join. rewrite Hc.
    change (String.eqb B "") with false. cbn [orb].
    by destruct (PyStr.endswith "/"%char B). }
  rewrite Hbc.
  destruct (Ascii.eqb x "/"%char) eqn:Hx.
  - assert (PosixPath.join a B = B) as ->.
    { unfold PosixPath.join, B. cbn [PyStr.startswith]. by rewrite Hx. }
    rewrite Hbc. unfold PosixPath.join at 1. unfold B at 1.
    cbn [PyStr.concat PyStr.startswith]. by rewrite Hx.
  - assert (PyStr.startswith "/" B = false) as HBrel.
    { unfold B. cbn [PyStr.startswith]. by rewrite Hx. }
    unfold PosixPath.join. rewrite Hc, HBrel.
    assert (forall t, PyStr.startswith "/" (PyStr.concat B t) = false) as ->.
    { intros t. unfold B. cbn [PyStr.concat PyStr.startswith]. by rewrite Hx. }
    destruct (String.eqb a "" || PyStr.endswith "/"%char a).
    + rewrite eqb_concat_nonempty by done. rewrite endswith_concat by done.
      cbn [orb]. destruct (PyStr.endswith "/"%char B); by rewrite concat_assoc.
    + rewrite eqb_concat_nonempty by done.
      rewrite endswith_concat by done.
      change (PyStr.concat "/" B) with (String "/"%char B).
      change (PyStr.endswith "/"%char (String "/"%char B))
        with (PyStr.endswith "/"%char B).
      cbn [orb].
      destruct (PyStr.endswith "/"%char B); by rewrite !concat_assoc.
Qed.

Lemma join_nonempty (d n : string) : n <> "" -> PosixPath.join d n <> "".
Proof.
  intros Hn. unfold PosixPath.join.
  destruct (PyStr.startswith "/" n); [done|].
  destruct (_ || _); apply concat_nonempty_r; [done|]. by destruct n.
Qed.

(** The absolute path of a name in a directory is the name in the
    absolute path of the directory. *)
Lemma abspath_join (cwd d n : string) :
  PyStr.rfind "/"%char n = None -> n <> "" ->
  abspath cwd (PosixPath.join d n) = PosixPath.join (abspath cwd d) n.
Proof.
  intros Hn Hne. pose proof (startswith_slash n Hn) as Hrel. unfold abspath.
  assert (String.eqb (PosixPath.join d n) "" = false) as ->
    by (by apply String.eqb_neq, join_nonempty).
  destruct d as [|x d].
  - cbn [String.eqb]. unfold PosixPath.join at 2. by rewrite Hrel.
  - change (String.eqb (String x d) "") with false. cbv iota.
    by apply join_assoc.
Qed.

Lemma abspath_absolute (cwd p : string) :
  PyStr.startswith "/" p = true -> abspath cwd p = p.
Proof.
  intros Hp. unfold abspath, PosixPath.join. rewrite Hp. by destruct p.
Qed.

(** A path whose absolute path ends in no slash ends in none. *)
Lemma endswith_abspath (cwd d : string) :
  PyStr.endswith "/"%char (abspath cwd d) = false ->
  PyStr.endswith "/"%char d = false.
Proof.
  unfold abspath. destruct d as [|x d]; [done|].
  change (String.eqb (String x d) "") with false. cbv iota.
  unfold PosixPath.join. destruct (PyStr.startswith "/" (String x d)); [done|].
  destruct (_ || _).
  - by rewrite endswith_concat.
  - rewrite endswith_concat by done.
    change (PyStr.concat "/" (String x d)) with (String "/"%char (String x d)).
    done.
Qed.

(** ** Writing *)

Lemma wf_fs_dir (fs : gmap string (gmap string entry)) (p : string)
    (tbl : gmap string entry) :
  wf_fs fs = true -> fs !! p = Some tbl ->
  (PosixPath.split p).2 = "" \/ lookup_entry fs p = Some EDir.
Proof.
  intros Hwf%bool_decide_eq_true Hp. by apply (Hwf p tbl).
Qed.

(** In a file system, a directory holds no directory that is not entered
    in it. *)
Lemma no_dir_below (fs : gmap string (gmap string entry)) (d n : string) :
  wf_fs fs = true ->
  PyStr.endswith "/"%char d = false ->
  PyStr.rfind "/"%char n = None -> n <> "" ->
  (forall tbl, fs !! d = Some tbl -> tbl !! n <> Some EDir) ->
  fs !! PosixPath.join d n = None.
Proof.
  intros Hwf Hd Hn Hne Hentry.
  destruct (fs !! PosixPath.join d n) as [tbl'|] eqn:Hp; [|done].
  destruct (wf_fs_dir fs _ _ Hwf Hp) as [Htail|Hdir].
  - rewrite split_join in Htail by done. done.
  - unfold lookup_entry in Hdir. rewrite split_join in Hdir by done.
    destruct (fs !! d) as [tbl|] eqn:Hfd; simpl in Hdir; [|done].
    by destruct (Hentry tbl).
Qed.

Lemma join_longer (d n : string) :
  PyStr.rfind "/"%char n = None -> n <> "" ->
  String.length d < String.length (PosixPath.join d n).
Proof.
  intros Hn Hne. unfold PosixPath.join. rewrite (startswith_slash n Hn).
  destruct (_ || _); rewrite !length_concat; destruct n; simpl; done || lia.
Qed.

Lemma join_neq (d n : string) :
  PyStr.rfind "/"%char n = None -> n <> "" -> PosixPath.join d n <> d.
Proof.
  intros Hn Hne Heq. pose proof (join_longer d n Hn Hne) as Hlen.
  rewrite Heq in Hlen. lia.
Qed.

(** One level of [os.makedirs], whatever fuel is left: a name that is new
    in a directory that exists.  [D] is the absolute path of the
    directory. *)
Lemma makedirs_rec_fresh (fuel : nat) (d n D : string) (w : World)
    (tbl : gmap string entry) :
  abspath (w_cwd w) d = D ->
  PyStr.endswith "/"%char D = false ->
  PyStr.rfind "/"%char n = None -> n <> "" ->
  w_fs w !! D = Some tbl ->
  tbl !! n = None ->
  w_fs w !! PosixPath.join D n = None ->
  makedirs_rec (S fuel) (PosixPath.join d n) true w =
    (Ok tt,
     set_fs (<[PosixPath.join D n := ∅]> (<[D := <[n := EDir]> tbl]> (w_fs w))) w).
Proof.
  intros HD Hd Hn Hne Hdir Hfresh Hnew.
  assert (PyStr.endswith "/"%char d = false) as Hraw
    by (apply (endswith_abspath (w_cwd w)); by rewrite HD).
  assert (abspath (w_cwd w) (PosixPath.join d n) = PosixPath.join D n) as Hres
    by (rewrite abspath_join by done; by rewrite HD).
  assert (String.eqb n "" = false) as Hnb by (by apply String.eqb_neq).
  cbn [makedirs_rec]. rewrite split_join, Hnb by done.
  unfold_M. unfold path_exists, try_except, mkdir.
  rewrite HD, Hdir. rewrite bool_decide_eq_true_2 by eauto.
  cbn [orb negb andb]. rewrite andb_false_r.
  rewrite Hres, split_join by done. rewrite Hnew.
  unfold lookup_entry. rewrite split_join by done. rewrite Hdir. simpl.
  rewrite Hfresh.
  rewrite !bool_decide_eq_false_2 by (by intros [? ?]).
  simpl. by rewrite Hnb.
Qed.

(** [os.makedirs] of a name that is new in a directory that exists. *)
Lemma makedirs_fresh (d n D : string) (w : World) (tbl : gmap string entry) :
  abspath (w_cwd w) d = D ->
  PyStr.endswith "/"%char D = false ->
  PyStr.rfind "/"%char n = None -> n <> "" ->
  w_fs w !! D = Some tbl ->
  tbl !! n = None ->
  w_fs w !! PosixPath.join D n = None ->
  makedirs (PosixPath.join d n) true w =
    (Ok tt,
     set_fs (<[PosixPath.join D n := ∅]> (<[D := <[n := EDir]> tbl]> (w_fs w))) w).
Proof. unfold makedirs. apply makedirs_rec_fresh. Qed.

(** [os.makedirs] with [exist_ok] on a directory that exists. *)
Lemma makedirs_existing (d n D : string) (w : World)
    (tbl old : gmap string entry) :
  abspath (w_cwd w) d = D ->
  PyStr.endswith "/"%char D = false ->
  PyStr.rfind "/"%char n = None -> n <> "" ->
  w_fs w !! D = Some tbl ->
  w_fs w !! PosixPath.join D n = Some old ->
  makedirs (PosixPath.join d n) true w = (Ok tt, w).
Proof.
  intros HD Hd Hn Hne Hdir Hold.
  assert (PyStr.endswith "/"%char d = false) as Hraw
    by (apply (endswith_abspath (w_cwd w)); by rewrite HD).
  assert (abspath (w_cwd w) (PosixPath.join d n) = PosixPath.join D n) as Hres
    by (rewrite abspath_join by done; by rewrite HD).
  assert (String.eqb n "" = false) as Hnb by (by apply String.eqb_neq).
  unfold makedirs. cbn [makedirs_rec]. rewrite split_join, Hnb by done.
  unfold_M. unfold path_exists, try_except, mkdir, isdir.
  rewrite HD, Hdir. rewrite bool_decide_eq_true_2 by eauto.
  cbn [orb negb andb]. rewrite andb_false_r.
  rewrite Hres, split_join by done. rewrite Hold.
  rewrite bool_decide_eq_true_2 by eauto. cbn [orb negb].
  rewrite Hres, Hold. rewrite bool_decide_eq_true_2 by eauto. reflexivity.
Qed.

Lemma frame_file_nonempty (i : nat) : frame_file i <> "".
Proof.
  unfold frame_file. intros H. apply (f_equal String.length) in H.
  rewrite length_concat in H. simpl in H. lia.
Qed.

Lemma image_of_written (frame : VideoFrame) :
  written_image (to_ndarray frame) = Ok (image_of frame) /\
  Cv.empty (image_of frame) = false.
Proof.
  pose proof (to_ndarray_rect frame) as Hr.
  set (h := Pos.to_nat (height frame)) in *.
  set (w := Pos.to_nat (width frame)) in *.
  assert (0 < h) as Hh by (unfold h; lia).
  assert (0 < w) as Hw by (unfold w; lia).
  split; [by apply (written_image_ok h w)|].
  apply (rect_nonempty w h); [|done..].
  by apply rotate_cw_rect; [apply swap_rect|].
Qed.

Lemma write_frame_decoded (vd : string) (k : nat) (frame : VideoFrame) :
  write_frame vd (k, to_ndarray frame) =
    (imwrite (PosixPath.join vd (frame_file k)) (image_of frame) ;; mret tt).
Proof.
  unfold write_frame, cvtColor.
  rewrite (rect_nonempty _ _ _ (to_ndarray_rect frame)) by lia.
  reflexivity.
Qed.

(** Where a file of a directory is written: [D] is the absolute path of
    the directory [vd]. *)
Lemma writable_in (vd D name : string) (w : World) (tbl : gmap string entry) :
  abspath (w_cwd w) vd = D ->
  PyStr.endswith "/"%char D = false ->
  PyStr.rfind "/"%char name = None -> name <> "" ->
  w_fs w !! D = Some tbl ->
  w_fs w !! PosixPath.join D name = None ->
  tbl !! name <> Some EDir ->
  writable w (PosixPath.join vd name) = Ok (D, name, tbl).
Proof.
  intros HD Hd Hname Hne Htbl Hnodir Hentry.
  unfold writable. rewrite abspath_join, HD by done.
  rewrite split_join by done.
  rewrite Hnodir, Htbl. rewrite bool_decide_eq_false_2 by (by intros [? ?]).
  apply String.eqb_neq in Hne as ->.
  by destruct (tbl !! name) as [[|c]|].
Qed.

(** The loop of lines 68-72, run in a directory that exists: every frame
    is written into it, and nothing else changes. *)
Lemma write_frames_from (vd D : string) (frames : list VideoFrame) (k : nat)
    (w : World) (tbl : gmap string entry) :
  abspath (w_cwd w) vd = D ->
  PyStr.endswith "/"%char D = false ->
  w_fs w !! D = Some tbl ->
  (forall i, w_fs w !! PosixPath.join D (frame_file i) = None) ->
  (forall i, tbl !! frame_file i <> Some EDir) ->
  for_each (combine (seq k (length frames)) (map to_ndarray frames))
    (write_frame vd) w =
  (Ok tt, set_fs (<[D := write_all k frames tbl]> (w_fs w)) w).
Proof.
  revert k w tbl. induction frames as [|frame frames IH];
    intros k w tbl HD Hvd Htbl Hnodir Hfile.
  - simpl. unfold_M. rewrite insert_id by done. by destruct w.
  - cbn [length seq map combine for_each write_all].
    rewrite write_frame_decoded. unfold_M. unfold imwrite.
    destruct (image_of_written frame) as [_ ->].
    rewrite (writable_in vd D (frame_file k) w tbl);
      [|done|done|apply png_name_no_slash|apply frame_file_nonempty
       |done|apply Hnodir|apply Hfile].
    rewrite IH with (tbl := <[frame_file k := EFile (png_encode (image_of frame))]> tbl).
    + simpl. by rewrite insert_insert_eq.
    + done.
    + done.
    + simpl. apply lookup_insert_eq.
    + intros i. simpl. rewrite lookup_insert_ne; [apply Hnodir|].
      intros Heq. symmetry in Heq. revert Heq.
      apply join_neq; [apply png_name_no_slash | apply frame_file_nonempty].
    + intros i. destruct (decide (frame_file k = frame_file i)) as [<-|Hneq].
      * by rewrite lookup_insert_eq.
      * rewrite lookup_insert_ne by done. apply Hfile.
Qed.

Lemma write_all_keep (name : string) (k : nat) (frames : list VideoFrame)
    (tbl : gmap string entry) :
  (forall i, k <= i -> name <> frame_file i) ->
  write_all k frames tbl !! name = tbl !! name.
Proof.
  revert k tbl. induction frames as [|frame frames IH]; intros k tbl Hname; simpl.
  - done.
  - rewrite IH by (intros i Hi; apply Hname; lia).
    apply lookup_insert_ne. intros Heq. by apply (Hname k).
Qed.

Lemma write_all_lookup (k i : nat) (frames : list VideoFrame) (frame : VideoFrame)
    (tbl : gmap string entry) :
  frames !! i = Some frame ->
  write_all k frames tbl !! frame_file (k + i) =
    Some (EFile (png_encode (image_of frame))).
Proof.
  revert k i tbl. induction frames as [|frame0 frames IH]; intros k i tbl Hi.
  - done.
  - destruct i as [|i]; simpl in *.
    + simplify_eq. rewrite Nat.add_0_r. rewrite write_all_keep.
      * apply lookup_insert_eq.
      * intros j Hj Heq%png_name_inj. lia.
    + replace (k + S i) with (S k + i) by lia. by apply IH.
Qed.

Lemma write_all_size (k : nat) (frames : list VideoFrame)
    (tbl : gmap string entry) :
  (forall i, k <= i -> tbl !! frame_file i = None) ->
  size (write_all k frames tbl) = size tbl + length frames.
Proof.
  revert k tbl. induction frames as [|frame frames IH]; intros k tbl Hnew; simpl.
  - lia.
  - rewrite IH.
    + rewrite map_size_insert_None by (by apply Hnew). lia.
    + intros i Hi. rewrite lookup_insert_ne; [apply Hnew; lia|].
      intros Heq%png_name_inj. lia.
Qed.

Lemma write_file_in (vd D name content : string) (w : World)
    (tbl : gmap string entry) :
  abspath (w_cwd w) vd = D ->
  PyStr.endswith "/"%char D = false ->
  PyStr.rfind "/"%char name = None -> name <> "" ->
  w_fs w !! D = Some tbl ->
  w_fs w !! PosixPath.join D name = None ->
  tbl !! name <> Some EDir ->
  write_file (PosixPath.join vd name) content w =
    (Ok tt, set_fs (<[D := <[name := EFile content]> tbl]> (w_fs w)) w).
Proof.
  intros HD Hvd Hname Hne Htbl Hnodir Hentry.
  unfold write_file. by rewrite (writable_in vd D name w tbl).
Qed.

Lemma read_file_in (vd D name content : string) (w : World)
    (tbl : gmap string entry) :
  abspath (w_cwd w) vd = D ->
  PyStr.endswith "/"%char D = false ->
  PyStr.rfind "/"%char name = None -> name <> "" ->
  w_fs w !! D = Some tbl ->
  w_fs w !! PosixPath.join D name = None ->
  tbl !! name = Some (EFile content) ->
  read_file (PosixPath.join vd name) w = (Ok content, w).
Proof.
  intros HD Hvd Hname Hne Htbl Hnodir Hentry.
  unfold read_file, lookup_entry. rewrite abspath_join, HD by done.
  rewrite split_join by done.
  rewrite Hnodir, Htbl. rewrite bool_decide_eq_false_2 by (by intros [? ?]).
  simpl. by rewrite Hentry.
Qed.

Lemma video_dir_fstring (outdir : string) (idx : nat) :
  PosixPath.join outdir (PyStr.fstring ["video_"; PyStr.of_nat idx]) =
  video_dir outdir idx.
Proof. unfold video_dir, PyStr.fstring. simpl. by rewrite concat_empty_r. Qed.

Lemma video_dir_endswith (outdir : string) (idx : nat) :
  PyStr.endswith "/"%char (video_dir outdir idx) = false.
Proof. apply join_endswith; [done | apply video_name_no_slash]. Qed.

(** The absolute path of the directory of a pair. *)
Lemma abspath_video_dir (cwd outdir : string) (idx : nat) :
  abspath cwd (video_dir outdir idx) =
  PosixPath.join (abspath cwd outdir) (PyStr.concat "video_" (PyStr.of_nat idx)).
Proof. apply abspath_join; [apply video_name_no_slash | done]. Qed.

(** A pair whose calibration file loads and whose video decodes, processed
    into a directory that is new in the output directory: what its
    directory holds afterwards. *)
Lemma process_pair_fresh (outdir : string) (idx : nat)
    (calibration_fp video_fp : string) (w : World)
    (calibration_json : pyval) (frames : list VideoFrame)
    (tbl : gmap string entry) :
  wf_fs (w_fs w) = true ->
  PyStr.endswith "/"%char (abspath (w_cwd w) outdir) = false ->
  w_fs w !! abspath (w_cwd w) outdir = Some tbl ->
  tbl !! PyStr.concat "video_" (PyStr.of_nat idx) = None ->
  (load_json calibration_fp w).1 = Ok calibration_json ->
  (av_open video_fp w).1 = Ok (video frames) ->
  exists w' out,
    process_pair outdir (idx, (calibration_fp, video_fp)) w = (Ok tt, w') /\
    w_fs w' !! abspath (w_cwd w) (video_dir outdir idx) = Some out /\
    size out = length frames + 1 /\
    out !! "calibration.json" = Some (EFile (json_dumps calibration_json)) /\
    (forall i frame, frames !! i = Some frame ->
       exists img,
         written_image (to_ndarray frame) = Ok img /\
         out !! frame_file i = Some (EFile (png_encode img))) /\
    read_file (PosixPath.join (video_dir outdir idx) "calibration.json") w' =
      (Ok (json_dumps calibration_json), w').
Proof.
  intros Hwf Hout Hdir Hfresh Hjson%load_json_ok Hopen%av_open_ok.
  rewrite abspath_video_dir.
  set (OD := abspath (w_cwd w) outdir) in *.
  set (name := PyStr.concat "video_" (PyStr.of_nat idx)) in *.
  set (VD := PosixPath.join OD name).
  set (text := json_dumps calibration_json).
  set (w1 := printed_shape frames w).
  assert (w_fs w1 = w_fs w) as Hfs1 by apply printed_shape_fs.
  assert (w_cwd w1 = w_cwd w) as Hcwd1 by apply printed_shape_cwd.
  pose proof (video_name_no_slash idx) as Hname. fold name in Hname.
  assert (name <> "") as Hname_ne by done.
  assert (PyStr.endswith "/"%char VD = false) as Hvd by (by apply join_endswith).
  assert (abspath (w_cwd w) (video_dir outdir idx) = VD) as Hres
    by apply abspath_video_dir.
  assert (w_fs w !! VD = None) as Hvd_new.
  { apply no_dir_below; try done. intros tbl' Htbl'.
    rewrite Hdir in Htbl'. injection Htbl' as <-. by rewrite Hfresh. }
  assert (forall n, PyStr.rfind "/"%char n = None -> n <> "" ->
                    w_fs w !! PosixPath.join VD n = None) as Hbelow.
  { intros n Hn Hn_ne. apply no_dir_below; try done.
    intros tbl' Htbl'. by rewrite Hvd_new in Htbl'. }
  set (fs2 := <[VD := ∅]> (<[OD := <[name := EDir]> tbl]> (w_fs w))).
  assert (forall n, PyStr.rfind "/"%char n = None -> n <> "" ->
                    fs2 !! PosixPath.join VD n = None) as Hbelow2.
  { intros n Hn Hn_ne. unfold fs2.
    rewrite lookup_insert_ne by (symmetry; by apply join_neq).
    rewrite lookup_insert_ne; [by apply Hbelow|].
    intros Heq. pose proof (join_longer VD n Hn Hn_ne) as H1.
    pose proof (join_longer OD name Hname Hname_ne) as H2.
    fold VD in H2. rewrite <- Heq in H1. lia. }
  set (out0 := <["calibration.json" := EFile text]> (∅ : gmap string entry)).
  set (out := write_all 0 frames out0).
  exists (set_fs (<[VD := out]> (<[VD := out0]> fs2))
            (set_fs (<[VD := out0]> fs2) (set_fs fs2 w1))), out.
  assert (out !! "calibration.json" = Some (EFile text)) as Hcal.
  { unfold out. rewrite write_all_keep; [apply lookup_insert_eq|].
    intros i _ Heq. by apply (png_name_not_json i). }
  split; [|split; [|split; [|split; [|split]]]].
  - unfold process_pair. unfold_M.
    rewrite Hjson, (load_video_none_video _ _ _ Hopen).
    rewrite video_dir_fstring. fold w1.
    unfold video_dir at 1. fold name.
    rewrite (makedirs_fresh outdir name OD w1 tbl);
      [|by rewrite Hcwd1|done|done|done|by rewrite Hfs1|done|by rewrite Hfs1].
    fold VD. rewrite Hfs1. fold fs2.
    rewrite (write_file_in (video_dir outdir idx) VD "calibration.json" text _ ∅);
      try done.
    + unfold enumerate. rewrite length_map.
      rewrite (write_frames_from (video_dir outdir idx) VD frames 0 _ out0);
        try done.
      * simpl. by rewrite Hcwd1.
      * simpl. apply lookup_insert_eq.
      * intros i. simpl.
        rewrite lookup_insert_ne
          by (symmetry; apply join_neq;
              [apply png_name_no_slash | apply frame_file_nonempty]).
        apply Hbelow2; [apply png_name_no_slash | apply frame_file_nonempty].
      * intros i. unfold out0.
        rewrite lookup_insert_ne by (symmetry; apply png_name_not_json).
        by rewrite lookup_empty.
    + simpl. by rewrite Hcwd1.
    + simpl. apply lookup_insert_eq.
    + simpl. by apply Hbelow2.
  - simpl. apply lookup_insert_eq.
  - unfold out. rewrite write_all_size.
    + unfold out0. rewrite map_size_insert_None by done.
      rewrite map_size_empty. lia.
    + intros i _. unfold out0.
      rewrite lookup_insert_ne by (symmetry; apply png_name_not_json).
      by rewrite lookup_empty.
  - done.
  - intros i frame Hi. exists (image_of frame).
    split; [apply image_of_written|].
    unfold out. by apply (write_all_lookup 0 i).
  - rewrite (read_file_in (video_dir outdir idx) VD "calibration.json" text _ out);
      try done.
    + simpl. by rewrite Hcwd1.
    + simpl. apply lookup_insert_eq.
    + simpl.
      rewrite !lookup_insert_ne by (symmetry; by apply join_neq).
      by apply Hbelow2.
Qed.


(** ** More on decoding with calibration data *)

(** X1: calibration data that is a dictionary without the key
    [sessionStartTime] makes [load_video] raise [KeyError] once the
    container is open, before any frame is decoded: nothing is printed. *)
Theorem load_video_missing_start_time (fp : string) (d : list (string * pyval))
    (w : World) (c : container) :
  (av_open fp w).1 = Ok c ->
  dict_get d "sessionStartTime" = None ->
  load_video fp (VDict d) w = (Raise (KeyError (VStr "sessionStartTime")), w).
Proof.
  intros Hopen%av_open_ok Hkey. unfold load_video. unfold_M.
  rewrite Hopen. simpl. by rewrite Hkey.
Qed.


(** X3: with calibration data, a first frame whose distance to its
    recorded timestamp is not below the tolerance (a NaN included) makes
    [load_video] raise [AssertionError], after the shape of the frame has
    been printed. *)
Theorem load_video_first_frame_off (fp : string) (calibration_data : pyval)
    (w : World) (frame : VideoFrame) (frames : list VideoFrame) (a : pyval) :
  calibration_data <> VNone ->
  (av_open fp w).1 = Ok (video (frame :: frames)) ->
  deviation calibration_data 0 frame = Ok a ->
  py_lt a tolerance = Ok false ->
  load_video fp calibration_data w =
    (Raise AssertionError, printed_shape [frame] w).
Proof.
  intros Hcal Hopen%av_open_ok Hdev Hlt.
  destruct (py_getitem calibration_data (VStr "sessionStartTime"))
    as [start_time|e] eqn:Hst.
  - apply (load_video_first_frame fp calibration_data start_time w
             {| decoded := frame :: frames; broken := false |} frame frames);
      try done.
    by apply (check_frame_assertion _ _ _ _ a).
  - unfold deviation in Hdev. by rewrite Hst in Hdev.
Qed.

(** X4: with calibration data, what [load_video] does is decided by the
    first frame: two videos that start with the same frame end in the
    same exception and the same world, whatever frames follow. *)
Theorem load_video_first_frame_decides (fp1 fp2 : string)
    (calibration_data : pyval) (w : World) (frame : VideoFrame)
    (frames1 frames2 : list VideoFrame) :
  calibration_data <> VNone ->
  (av_open fp1 w).1 = Ok (video (frame :: frames1)) ->
  (av_open fp2 w).1 = Ok (video (frame :: frames2)) ->
  load_video fp1 calibration_data w = load_video fp2 calibration_data w.
Proof.
  intros Hcal Hopen1%av_open_ok Hopen2%av_open_ok.
  destruct (py_getitem calibration_data (VStr "sessionStartTime"))
    as [start_time|e] eqn:Hst.
  - destruct (check_frame_raises calibration_data start_time 0 frame)
      as (e & He & _).
    rewrite (load_video_first_frame fp1 _ _ _ _ _ frames1 e Hcal Hopen1 eq_refl
               Hst He).
    by rewrite (load_video_first_frame fp2 _ _ _ _ _ frames2 e Hcal Hopen2
                  eq_refl Hst He).
  - unfold load_video. unfold_M.
    by rewrite Hopen1, Hopen2, (is_not_None_true _ Hcal), Hst.
Qed.

(** ** Failures before anything is written *)

Lemma read_file_missing (d D n : string) (w : World) (tbl : gmap string entry) :
  abspath (w_cwd w) d = D ->
  wf_fs (w_fs w) = true ->
  PyStr.endswith "/"%char D = false ->
  PyStr.rfind "/"%char n = None -> n <> "" ->
  w_fs w !! D = Some tbl ->
  tbl !! n = None ->
  read_file (PosixPath.join d n) w =
    (Raise (FileNotFoundError (PosixPath.join d n)), w).
Proof.
  intros HD Hwf Hd Hn Hne Hdir Hentry.
  assert (w_fs w !! PosixPath.join D n = None) as Hnodir.
  { apply no_dir_below; try done. intros tbl' Htbl'.
    rewrite Hdir in Htbl'. injection Htbl' as <-. by rewrite Hentry. }
  unfold read_file, lookup_entry. rewrite abspath_join, HD by done.
  rewrite split_join by done.
  rewrite Hnodir, Hdir. rewrite bool_decide_eq_false_2 by (by intros [? ?]).
  simpl. by rewrite Hentry.
Qed.

Lemma json_name_no_slash (name : string) :
  PyStr.rfind "/"%char name = None ->
  PyStr.rfind "/"%char (PyStr.concat name ".json") = None.
Proof. intros Hname. by apply rfind_concat. Qed.

(** X5: for a base name whose [.json] file is not in the directory, the
    pair built by the pairing makes the loop of [main] raise
    [FileNotFoundError] for the path of that file, with the world as it
    was: no video is decoded and no output directory is made. *)
Theorem process_pair_missing_calibration (outdir root video_ext name : string)
    (idx : nat) (w : World) (tbl : gmap string entry) :
  wf_fs (w_fs w) = true ->
  PyStr.endswith "/"%char (abspath (w_cwd w) root) = false ->
  PyStr.rfind "/"%char name = None ->
  w_fs w !! abspath (w_cwd w) root = Some tbl ->
  tbl !! PyStr.concat name ".json" = None ->
  process_pair outdir (idx, pair_of root video_ext name) w =
    (Raise (FileNotFoundError (PosixPath.join root (PyStr.concat name ".json"))), w).
Proof.
  intros Hwf Hroot Hname Hdir Hentry. rewrite pair_of_paths.
  unfold process_pair, load_json. unfold_M.
  rewrite (read_file_missing root _ _ w tbl eq_refl); try done.
  - by apply json_name_no_slash.
  - by apply concat_nonempty_r.
Qed.

(** X6: when the calibration file of a pair loads but the directory holds
    no video under the base name, the loop of [main] raises
    [FileNotFoundError] for the path of the video, with the world as it
    was: no output directory is made and no calibration is written. *)
Theorem process_pair_missing_video (outdir root video_ext name : string)
    (idx : nat) (w : World) (tbl : gmap string entry) (calibration_json : pyval) :
  wf_fs (w_fs w) = true ->
  PyStr.endswith "/"%char (abspath (w_cwd w) root) = false ->
  PyStr.rfind "/"%char name = None ->
  PyStr.rfind "/"%char video_ext = None ->
  w_fs w !! abspath (w_cwd w) root = Some tbl ->
  (load_json (PosixPath.join root (PyStr.concat name ".json")) w).1 =
    Ok calibration_json ->
  tbl !! PyStr.concat name (PyStr.concat "." video_ext) = None ->
  process_pair outdir (idx, pair_of root video_ext name) w =
    (Raise (FileNotFoundError
              (PosixPath.join root (PyStr.concat name (PyStr.concat "." video_ext)))),
     w).
Proof.
  intros Hwf Hroot Hname Hext Hdir Hjson%load_json_ok Hentry.
  rewrite pair_of_paths. unfold process_pair. unfold_M.
  rewrite Hjson, load_video_none. unfold av_open. unfold_M.
  rewrite (read_file_missing root _ _ w tbl eq_refl); try done.
  - apply rfind_concat; [done|]. by apply (rfind_concat _ ".").
  - by apply concat_nonempty_r.
Qed.


(** ** The frames on disk *)

(** X8: a frame whose file cannot be written, because the directory is
    not there or because its name is that of a directory, is dropped:
    the body of the loop ends without an exception and the world is as it
    was. *)
Theorem write_frame_unwritable (vd : string) (idx : nat) (frame : VideoFrame)
    (w : World) :
  PyStr.endswith "/"%char (abspath (w_cwd w) vd) = false ->
  (w_fs w !! abspath (w_cwd w) vd = None \/
   exists tbl, w_fs w !! abspath (w_cwd w) vd = Some tbl /\
               tbl !! frame_file idx = Some EDir) ->
  write_frame vd (idx, to_ndarray frame) w = (Ok tt, w).
Proof.
  intros Hvd Hcase. rewrite write_frame_decoded. unfold_M. unfold imwrite.
  destruct (image_of_written frame) as [_ ->].
  unfold writable.
  rewrite abspath_join by (apply png_name_no_slash || apply frame_file_nonempty).
  rewrite split_join by (done || apply png_name_no_slash).
  destruct (bool_decide _); [done|].
  destruct Hcase as [-> | (tbl & -> & ->)]; done.
Qed.

Lemma concat_inv_head (a b c : string) :
  PyStr.concat a b = PyStr.concat a c -> b = c.
Proof. induction a as [|x a IH]; simpl; [done|]. intros [= H]. by apply IH. Qed.

Lemma join_inj (d x y : string) :
  PyStr.rfind "/"%char x = None -> PyStr.rfind "/"%char y = None ->
  PosixPath.join d x = PosixPath.join d y -> x = y.
Proof.
  intros Hx Hy. unfold PosixPath.join.
  rewrite (startswith_slash x Hx), (startswith_slash y Hy).
  destruct (_ || _).
  - apply concat_inv_head.
  - intros H%concat_inv_head. by apply (concat_inv_head "/").
Qed.

(** X9: the pairs of one run are written to different directories, the
    frames of one pair to different files, and no frame to the file of the
    calibration record. *)
Theorem output_paths_distinct :
  (forall outdir i j, video_dir outdir i = video_dir outdir j -> i = j) /\
  (forall vd i j,
     PosixPath.join vd (frame_file i) = PosixPath.join vd (frame_file j) ->
     i = j) /\
  (forall vd i,
     PosixPath.join vd (frame_file i) <> PosixPath.join vd "calibration.json").
Proof.
  split; [|split].
  - intros outdir i j H. unfold video_dir in H.
    apply join_inj in H; [|apply video_name_no_slash..].
    by apply concat_inv_head, of_nat_inj in H.
  - intros vd i j H.
    apply join_inj in H; [|apply png_name_no_slash..]. by apply png_name_inj.
  - intros vd i H.
    apply join_inj in H; [|apply png_name_no_slash | done].
    by apply (png_name_not_json i).
Qed.

Lemma px_swap (h w : nat) (a : ndarray) (i j : nat) :
  rect h w a -> i < h -> j < w ->
  px (map (map swap_rb) a) i j = swap_rb (px a i j).
Proof.
  intros Hr Hi Hj. unfold px.
  rewrite (nth_map_lt _ _ _ []) by (destruct Hr; lia).
  rewrite (nth_map_lt _ _ _ black); [done|].
  by rewrite (rect_row h w a).
Qed.

Lemma px_to_ndarray (frame : VideoFrame) (i j : nat) :
  i < Pos.to_nat (height frame) -> j < Pos.to_nat (width frame) ->
  px (to_ndarray frame) i j = rgb24 frame i j.
Proof.
  intros Hi Hj. unfold px, to_ndarray.
  rewrite (nth_map_lt _ _ _ 0) by (by rewrite length_seq).
  rewrite (nth_map_lt _ _ _ 0) by (by rewrite length_seq).
  by rewrite !seq_nth.
Qed.

(** X10: the image written for a frame of [H] rows and [W] columns has, in
    row [i] and column [j], the colour the frame has in row [H-1-j] and
    column [i], with its first and third channel exchanged. *)
Theorem written_image_pixels (frame : VideoFrame) :
  exists img,
    written_image (to_ndarray frame) = Ok img /\
    forall i j,
      i < Pos.to_nat (width frame) -> j < Pos.to_nat (height frame) ->
      px img i j = swap_rb (rgb24 frame (Pos.to_nat (height frame) - 1 - j) i).
Proof.
  exists (image_of frame). split; [apply image_of_written|].
  intros i j Hi Hj. unfold image_of.
  pose proof (to_ndarray_rect frame) as Hr.
  rewrite (px_rotate_cw (Pos.to_nat (height frame)) (Pos.to_nat (width frame)))
    by (done || by apply swap_rect).
  rewrite (px_swap _ _ _ _ _ Hr) by lia.
  rewrite px_to_ndarray by lia. do 2 f_equal. lia.
Qed.

(** ** The name of the output directory *)

(** X11: the stamp in the name of the output directory tells the hour on
    a twelve-hour clock, without the half of the day: two runs twelve
    hours apart, in the same minute of the hour, get the same stamp, and
    so the same output directory. *)
Theorem stamp_twelve_hours_apart (w1 w2 : World) :
  year (w_now w2) = year (w_now w1) ->
  month (w_now w2) = month (w_now w1) ->
  day (w_now w2) = day (w_now w1) ->
  minute (w_now w2) = minute (w_now w1) ->
  hour (w_now w2) = hour (w_now w1) + 12 ->
  (now_strftime w2).1 = (now_strftime w1).1.
Proof.
  intros Hy Hm Hd Hmin Hh.
  assert (hour (w_now w2) mod 12 = hour (w_now w1) mod 12) as Hmod.
  { rewrite Hh.
    replace (hour (w_now w1) + 12) with (hour (w_now w1) + 1 * 12) by lia.
    apply Nat.Div0.mod_add. }
  unfold now_strftime. cbn [fst]. by rewrite Hy, Hm, Hd, Hmin, Hmod.
Qed.

(** ** Running again into a directory that is there *)

Lemma write_all_keep_range (name : string) (k : nat) (frames : list VideoFrame)
    (tbl : gmap string entry) :
  (forall i, k <= i < k + length frames -> name <> frame_file i) ->
  write_all k frames tbl !! name = tbl !! name.
Proof.
  revert k tbl. induction frames as [|frame frames IH]; intros k tbl Hname; simpl.
  - done.
  - rewrite IH by (intros i Hi; apply Hname; simpl; lia).
    apply lookup_insert_ne. intros Heq. apply (Hname k); [simpl; lia | done].
Qed.

(** X12: a pair processed into a directory that is already there, left by
    an earlier run and holding files only, is processed without an
    exception: the calibration file and the files of its [N] frames are
    replaced, and every other entry, the frames of a longer earlier video
    among them, stays as it was. *)
Theorem process_pair_overwrites (outdir : string) (idx : nat)
    (calibration_fp video_fp : string) (w : World)
    (calibration_json : pyval) (frames : list VideoFrame)
    (tbl old : gmap string entry) :
  wf_fs (w_fs w) = true ->
  PyStr.endswith "/"%char (abspath (w_cwd w) outdir) = false ->
  w_fs w !! abspath (w_cwd w) outdir = Some tbl ->
  w_fs w !! abspath (w_cwd w) (video_dir outdir idx) = Some old ->
  (forall name, old !! name <> Some EDir) ->
  (load_json calibration_fp w).1 = Ok calibration_json ->
  (av_open video_fp w).1 = Ok (video frames) ->
  exists w' out,
    process_pair outdir (idx, (calibration_fp, video_fp)) w = (Ok tt, w') /\
    w_fs w' !! abspath (w_cwd w) (video_dir outdir idx) = Some out /\
    out !! "calibration.json" = Some (EFile (json_dumps calibration_json)) /\
    (forall i frame, frames !! i = Some frame ->
       exists img,
         written_image (to_ndarray frame) = Ok img /\
         out !! frame_file i = Some (EFile (png_encode img))) /\
    (forall name,
       name <> "calibration.json" ->
       (forall i, i < length frames -> name <> frame_file i) ->
       out !! name = old !! name).
Proof.
  intros Hwf Hout Hdir Hold Hfiles Hjson%load_json_ok Hopen%av_open_ok.
  pose proof (abspath_video_dir (w_cwd w) outdir idx) as Hres.
  rewrite Hres in Hold |- *.
  set (OD := abspath (w_cwd w) outdir) in *.
  set (name := PyStr.concat "video_" (PyStr.of_nat idx)) in *.
  set (VD := PosixPath.join OD name) in *.
  set (text := json_dumps calibration_json).
  set (w1 := printed_shape frames w).
  assert (w_fs w1 = w_fs w) as Hfs1 by apply printed_shape_fs.
  assert (w_cwd w1 = w_cwd w) as Hcwd1 by apply printed_shape_cwd.
  pose proof (video_name_no_slash idx) as Hname. fold name in Hname.
  assert (name <> "") as Hname_ne by done.
  assert (PyStr.endswith "/"%char VD = false) as Hvd by (by apply join_endswith).
  assert (forall n, PyStr.rfind "/"%char n = None -> n <> "" ->
                    w_fs w !! PosixPath.join VD n = None) as Hbelow.
  { intros n Hn Hn_ne. apply no_dir_below; try done.
    intros tbl' Htbl'. rewrite Hold in Htbl'. injection Htbl' as <-.
    apply Hfiles. }
  set (out0 := <["calibration.json" := EFile text]> old).
  set (out := write_all 0 frames out0).
  exists (set_fs (<[VD := out]> (<[VD := out0]> (w_fs w)))
            (set_fs (<[VD := out0]> (w_fs w)) w1)), out.
  split; [|split; [|split; [|split]]].
  - unfold process_pair. unfold_M.
    rewrite Hjson, (load_video_none_video _ _ _ Hopen).
    rewrite video_dir_fstring. fold w1. unfold video_dir at 1. fold name.
    rewrite (makedirs_existing outdir name OD w1 tbl old);
      [|by rewrite Hcwd1|done|done|done|by rewrite Hfs1|by rewrite Hfs1].
    rewrite (write_file_in (video_dir outdir idx) VD "calibration.json" text _ old);
      try done.
    + rewrite Hfs1. unfold enumerate. rewrite length_map.
      rewrite (write_frames_from (video_dir outdir idx) VD frames 0 _ out0);
        try done.
      * simpl. by rewrite Hcwd1.
      * simpl. apply lookup_insert_eq.
      * intros i. simpl.
        rewrite lookup_insert_ne
          by (symmetry; apply join_neq;
              [apply png_name_no_slash | apply frame_file_nonempty]).
        apply Hbelow; [apply png_name_no_slash | apply frame_file_nonempty].
      * intros i. unfold out0.
        rewrite lookup_insert_ne by (symmetry; apply png_name_not_json).
        apply Hfiles.
    + by rewrite Hcwd1.
    + by rewrite Hfs1.
    + rewrite Hfs1. by apply Hbelow.
  - simpl. apply lookup_insert_eq.
  - unfold out. rewrite write_all_keep; [apply lookup_insert_eq|].
    intros i _ Heq. by apply (png_name_not_json i).
  - intros i frame Hi. exists (image_of frame).
    split; [apply image_of_written|].
    unfold out. by apply (write_all_lookup 0 i).
  - intros name' Hcal Hframes. unfold out.
    rewrite write_all_keep_range by (intros i Hi; apply Hframes; lia).
    unfold out0. by rewrite lookup_insert_ne.
Qed.

(** ** The loop over the pairs *)

Lemma for_each_app {A} (l1 l2 : list A) (body : A -> M unit) (w : World) :
  for_each (l1 ++ l2) body w =
    match for_each l1 body w with
    | (Ok _, w1) => for_each l2 body w1
    | (Raise e, w1) => (Raise e, w1)
    end.
Proof.
  revert w. induction l1 as [|x l1 IH]; intros w; simpl; [done|].
  unfold_M. destruct (body x w) as [[[]|e] w0]; [apply IH | done].
Qed.

Lemma enumerate_app {A} (l1 l2 : list A) :
  enumerate (l1 ++ l2) =
    enumerate l1 ++ combine (seq (0 + length l1) (length l2)) l2.
Proof.
  unfold enumerate. generalize 0.
  induction l1 as [|x l1 IH]; intros k; simpl.
  - by rewrite Nat.add_0_r.
  - rewrite IH. by rewrite Nat.add_succ_r.
Qed.

Lemma get_paired_data_world (root video_ext : string) (w : World) :
  (get_paired_data root video_ext w).2 = w.
Proof.
  unfold get_paired_data, listdir. unfold_M.
  repeat (case_match; simplify_eq; simpl; try done).
Qed.

(** X13: [main] handles no exception: when the output directory of the
    run has been made and the pair of some index raises, after the pairs
    before it have been processed, [main] ends with that exception, in the
    world that pair left: the pairs after it are not processed, and what
    the pairs before it wrote stays. *)
Theorem main_stops_at_failure (w w0 w1 w2 : World) (stamp : string)
    (before after : list (string * string)) (pair : string * string)
    (e : exn) :
  (now_strftime w).1 = Ok stamp ->
  makedirs (PosixPath.join "parsed_videos" stamp) true w = (Ok tt, w0) ->
  (get_paired_data root_dir "mov" w0).1 = Ok (before ++ pair :: after) ->
  for_each (enumerate before)
    (process_pair (PosixPath.join "parsed_videos" stamp)) w0 = (Ok tt, w1) ->
  process_pair (PosixPath.join "parsed_videos" stamp) (length before, pair) w1 =
    (Raise e, w2) ->
  main w = (Raise e, w2).
Proof.
  intros Hstamp Hmk Hpairs Hbefore Hpair.
  assert (now_strftime w = (Ok stamp, w)) as Hnow
    by (rewrite <- Hstamp; reflexivity).
  assert (get_paired_data root_dir "mov" w0 = (Ok (before ++ pair :: after), w0))
    as Hdata.
  { pose proof (get_paired_data_world root_dir "mov" w0) as Hw0.
    destruct (get_paired_data root_dir "mov" w0) as [r w0']. simpl in *.
    congruence. }
  unfold main. unfold_M. rewrite Hnow, Hmk.
  rewrite Hdata, enumerate_app, for_each_app, Hbefore.
  cbn [length seq combine for_each Nat.add]. unfold_M. by rewrite Hpair.
Qed.

(** ** More on pairing *)

Lemma rfind_cons_none (c x : ascii) (s : string) :
  PyStr.rfind c (String x s) = None <->
  Ascii.eqb x c = false /\ PyStr.rfind c s = None.
Proof.
  simpl. destruct (PyStr.rfind c s); [by split; [|intros [_ ?]]|].
  destruct (Ascii.eqb x c); by split; [|intros [? _]].
Qed.

Lemma split_parts_no_sep (c : ascii) (s : string) :
  Forall (fun part => PyStr.rfind c part = None) (PyStr.split c s).
Proof.
  induction s as [|x s IH]; cbn [PyStr.split].
  - by repeat constructor.
  - destruct (Ascii.eqb x c) eqn:Hx; [by constructor|].
    destruct (PyStr.split c s) as [|part parts].
    + repeat constructor. by apply rfind_cons_none.
    + inversion IH as [|? ? Hpart Hparts]; subst. constructor; [|done].
      by apply rfind_cons_none.
Qed.

Lemma last_Forall {A} (P : A -> Prop) (l : list A) (d : A) :
  Forall P l -> P d -> P (List.last l d).
Proof.
  intros Hl Hd. induction Hl as [|x l Hx Hl IH]; [done|].
  simpl. by destruct l.
Qed.

Lemma name_no_slash (p : string) :
  PyStr.rfind "/"%char (PosixPath.name p) = None.
Proof.
  unfold PosixPath.name. apply (last_Forall (fun s => PyStr.rfind "/"%char s = None));
    [|done].
  apply List.Forall_forall. intros part [Hpart _]%filter_In.
  pose proof (split_parts_no_sep "/"%char p) as Hall.
  rewrite List.Forall_forall in Hall. by apply Hall.
Qed.

Lemma take_no_char (c : ascii) (n : nat) (s : string) :
  PyStr.rfind c s = None -> PyStr.rfind c (PyStr.take n s) = None.
Proof.
  revert n. induction s as [|x s IH]; intros n; [done|].
  intros [Hx Hs]%rfind_cons_none. destruct n; [done|].
  cbn [PyStr.take]. apply rfind_cons_none. split; [done | by apply IH].
Qed.

Lemma stem_no_slash (p : string) :
  PyStr.rfind "/"%char (PosixPath.stem p) = None.
Proof.
  unfold PosixPath.stem. pose proof (name_no_slash p) as Hname.
  destruct (PyStr.rfind "."%char (PosixPath.name p)); [|done].
  destruct (_ && _); [by apply take_no_char | done].
Qed.

Lemma replace_from_no_char (c : ascii) (old new : string) (k : nat) (s : string) :
  PyStr.rfind c new = None -> PyStr.rfind c s = None ->
  PyStr.rfind c (PyStr.replace_from old new k s) = None.
Proof.
  intros Hnew. revert k. induction s as [|x s IH]; intros k; [done|].
  intros [Hx Hs]%rfind_cons_none. cbn [PyStr.replace_from].
  destruct k; [|by apply IH].
  destruct (PyStr.startswith old (String x s)).
  - apply rfind_concat; [done | by apply IH].
  - apply rfind_cons_none. split; [done | by apply IH].
Qed.

(** A base name holds no slash. *)
Lemma base_name_no_slash (fp : string) :
  PyStr.rfind "/"%char (base_name fp) = None.
Proof.
  unfold base_name, PyStr.replace.
  apply replace_from_no_char; [done | apply stem_no_slash].
Qed.

Lemma in_pairs_base_name (root_dir video_ext : string) (tbl : gmap string entry)
    (name : string) :
  name ∈ elements (list_to_set (base_name <$> elements (dom tbl)) : gset string) ->
  PyStr.rfind "/"%char name = None.
Proof.
  intros (fp & _ & ->)%elem_of_elements%in_base_names. apply base_name_no_slash.
Qed.

(** X14: the pairs of a directory name pairwise different calibration
    files and pairwise different videos. *)
Theorem pairing_paths_distinct (root_dir video_ext : string) (w : World)
    (tbl : gmap string entry) :
  w_fs w !! abspath (w_cwd w) root_dir = Some tbl ->
  exists pairs,
    get_paired_data root_dir video_ext w = (Ok pairs, w) /\
    NoDup pairs.*1 /\ NoDup pairs.*2.
Proof.
  intros Hdir. eexists. split; [by apply get_paired_data_names|].
  change (map (pair_of root_dir video_ext) ?l) with (pair_of root_dir video_ext <$> l).
  rewrite <- !list_fmap_compose.
  split; (apply NoDup_fmap_2_strong; [|apply NoDup_elements]);
    intros x y Hx%(in_pairs_base_name root_dir video_ext)
               Hy%(in_pairs_base_name root_dir video_ext);
    unfold compose; rewrite !pair_of_paths; simpl; intros Heq.
  - apply join_inj in Heq; [|by apply json_name_no_slash..].
    by apply concat_inv_tail in Heq.
  - assert (forall n, PyStr.rfind "/"%char n = None ->
              PyStr.startswith "/" (PyStr.concat n (PyStr.concat "." video_ext)) = false)
      as Hrel.
    { intros [|c n]; [done|]. intros [Hc _]%rfind_cons_none. simpl. by rewrite Hc. }
    unfold PosixPath.join in Heq. rewrite !Hrel in Heq by done.
    destruct (_ || _).
    + by apply concat_inv_head, concat_inv_tail in Heq.
    + by apply concat_inv_head, (concat_inv_head "/"), concat_inv_tail in Heq.
Qed.

(** X15: both paths of a pair lie in the directory itself, whatever the
    entries were: each splits into the directory and a file name made of
    the base name of the pair. *)
Theorem pairing_paths_in_root (root_dir video_ext : string) (w : World)
    (tbl : gmap string entry) :
  w_fs w !! abspath (w_cwd w) root_dir = Some tbl ->
  PyStr.endswith "/"%char root_dir = false ->
  PyStr.rfind "/"%char video_ext = None ->
  exists pairs,
    get_paired_data root_dir video_ext w = (Ok pairs, w) /\
    forall calibration_fp video_fp, (calibration_fp, video_fp) ∈ pairs ->
      exists name,
        PosixPath.split calibration_fp = (root_dir, PyStr.concat name ".json") /\
        PosixPath.split video_fp =
          (root_dir, PyStr.concat name (PyStr.concat "." video_ext)).
Proof.
  intros Hdir Hroot Hext. eexists. split; [by apply get_paired_data_names|].
  intros calibration_fp video_fp (name & Hpair & Hname)%list_elem_of_fmap.
  apply (in_pairs_base_name root_dir video_ext) in Hname.
  rewrite pair_of_paths in Hpair. injection Hpair as -> ->.
  exists name. split; apply split_join; try done.
  - by apply json_name_no_slash.
  - apply rfind_concat; [done|]. by apply (rfind_concat _ ".").
Qed.

Lemma split_no_sep (c : ascii) (s : string) :
  PyStr.rfind c s = None -> PyStr.split c s = [s].
Proof.
  induction s as [|x s IH]; [done|].
  intros [Hx Hs]%rfind_cons_none. cbn [PyStr.split]. by rewrite Hx, IH.
Qed.

Lemma name_plain (s : string) :
  PyStr.rfind "/"%char s = None -> 1 < String.length s -> PosixPath.name s = s.
Proof.
  intros Hs Hlen. unfold PosixPath.name. rewrite split_no_sep by done.
  destruct s as [|x [|y s]]; simpl in Hlen; [lia..|]. cbn [List.filter].
  assert (String.eqb (String x (String y s)) "" = false) as ->
    by (by apply String.eqb_neq).
  assert (String.eqb (String x (String y s)) "." = false) as ->
    by (by apply String.eqb_neq).
  reflexivity.
Qed.

(** The stem of [n.e], for a suffix [e] without a dot. *)
Lemma stem_suffix (n e : string) :
  PyStr.rfind "/"%char n = None -> PyStr.rfind "/"%char e = None ->
  PyStr.rfind "."%char e = None -> n <> "" -> e <> "" ->
  PosixPath.stem (PyStr.concat n (String "."%char e)) = n.
Proof.
  intros Hn He Hdot Hn_ne He_ne. unfold PosixPath.stem.
  assert (String.length n <> 0) as Hn_len by (by destruct n).
  assert (String.length e <> 0) as He_len by (by destruct e).
  rewrite name_plain.
  - rewrite rfind_concat_sep by done. rewrite length_concat. simpl.
    destruct (Nat.ltb_spec 0 (String.length n)); [|lia].
    destruct (Nat.ltb_spec (String.length n)
                (String.length n + S (String.length e) - 1)); [|lia].
    simpl. apply take_concat.
  - apply rfind_concat; [done|]. by apply rfind_cons_none.
  - rewrite length_concat. simpl. lia.
Qed.

Lemma replace_no_underscore (new s t : string) :
  PyStr.rfind "_"%char s = None ->
  PyStr.replace_from "_calibration" new 0 (PyStr.concat s t) =
  PyStr.concat s (PyStr.replace_from "_calibration" new 0 t).
Proof.
  induction s as [|x s IH]; [done|].
  intros [Hx Hs]%rfind_cons_none. cbn [PyStr.concat PyStr.replace_from].
  assert (PyStr.startswith "_calibration" (String x (PyStr.concat s t)) = false) as ->
    by (cbn [PyStr.startswith]; by rewrite Hx).
  by rewrite IH.
Qed.

Lemma base_name_plain (name sfx e : string) :
  PyStr.rfind "/"%char name = None -> PyStr.rfind "_"%char name = None ->
  name <> "" ->
  PyStr.rfind "/"%char e = None -> PyStr.rfind "."%char e = None -> e <> "" ->
  sfx = "" \/ sfx = "_calibration" ->
  base_name (PyStr.concat name (PyStr.concat sfx (String "."%char e))) = name.
Proof.
  intros Hslash Hunder Hne He Hdot He_ne Hsfx. unfold base_name.
  rewrite <- concat_assoc. rewrite stem_suffix; try done.
  - unfold PyStr.replace. rewrite replace_no_underscore by done.
    destruct Hsfx as [-> | ->]; simpl; apply concat_empty_r.
  - apply rfind_concat; [done|]. by destruct Hsfx as [-> | ->].
  - intros H. apply (f_equal String.length) in H.
    rewrite length_concat in H. destruct name; simpl in H; [done | lia].
Qed.

(** X16: for every session name without an underscore and every video
    extension without a dot, a directory that holds the calibration file
    of the session, under either of its two names, and the video of the
    session gives exactly one pair: the [.json] path and the video path of
    the session. *)
Theorem pairing_plain_name (root_dir name video_ext sfx : string) (w : World)
    (c1 c2 : string) :
  PyStr.rfind "/"%char name = None -> PyStr.rfind "_"%char name = None ->
  name <> "" ->
  PyStr.rfind "/"%char video_ext = None -> PyStr.rfind "."%char video_ext = None ->
  video_ext <> "" ->
  sfx = "" \/ sfx = "_calibration" ->
  w_fs w !! abspath (w_cwd w) root_dir =
    Some (<[PyStr.concat name (PyStr.concat sfx ".json") := EFile c1]>
            {[PyStr.concat name (PyStr.concat "." video_ext) := EFile c2]}) ->
  get_paired_data root_dir video_ext w =
    (Ok [(PosixPath.join root_dir (PyStr.concat name ".json"),
          PosixPath.join root_dir (PyStr.concat name (PyStr.concat "." video_ext)))],
     w).
Proof.
  intros Hslash Hunder Hne Hext Hdot Hext_ne Hsfx Hdir.
  rewrite (get_paired_data_names _ _ _ _ Hdir).
  replace (list_to_set _ : gset string) with ({[name]} : gset string).
  - rewrite elements_singleton. simpl. by rewrite pair_of_paths.
  - assert (base_name (PyStr.concat name (PyStr.concat sfx ".json")) = name) as Hb1
      by (by apply (base_name_plain name sfx "json")).
    assert (base_name (PyStr.concat name (PyStr.concat "." video_ext)) = name) as Hb2
      by (apply (base_name_plain name "" video_ext); auto).
    apply set_eq. intros n. rewrite in_base_names, elem_of_singleton.
    rewrite dom_insert_L, dom_singleton_L. split.
    + intros ->. eexists. split; [|symmetry; apply Hb2].
      apply elem_of_union. right. by apply elem_of_singleton.
    + intros (fp & Hfp & ->).
      apply elem_of_union in Hfp as [->%elem_of_singleton | ->%elem_of_singleton];
        done.
Qed.

(** ** [main] on an input directory without entries *)

(** [os.makedirs] of a path two levels below a directory that exists,
    when the first of the two levels is new: both are made. *)
Lemma makedirs_fresh2 (d n1 n2 D : string) (w : World) (tbl : gmap string entry) :
  abspath (w_cwd w) d = D ->
  wf_fs (w_fs w) = true ->
  PyStr.endswith "/"%char D = false ->
  PyStr.rfind "/"%char n1 = None -> n1 <> "" ->
  PyStr.rfind "/"%char n2 = None -> 1 < String.length n2 ->
  w_fs w !! D = Some tbl ->
  tbl !! n1 = None ->
  makedirs (PosixPath.join (PosixPath.join d n1) n2) true w =
    (Ok tt,
     set_fs (<[PosixPath.join (PosixPath.join D n1) n2 := ∅]>
               (<[PosixPath.join D n1 := <[n2 := EDir]> ∅]>
                  (<[D := <[n1 := EDir]> tbl]> (w_fs w)))) w).
Proof.
  intros HD Hwf Hd Hn1 Hne1 Hn2 Hlen2 Hdir Hfresh.
  set (p1 := PosixPath.join d n1). set (p2 := PosixPath.join p1 n2).
  set (P1 := PosixPath.join D n1). set (P2 := PosixPath.join P1 n2).
  assert (n2 <> "") as Hne2 by (intros ->; simpl in Hlen2; lia).
  assert (String.eqb n2 "" = false) as Hnb2 by (by apply String.eqb_neq).
  assert (String.eqb n2 "." = false) as Hdot2.
  { apply String.eqb_neq. intros ->. simpl in Hlen2. lia. }
  assert (PyStr.endswith "/"%char p1 = false) as Hp1 by (by apply join_endswith).
  assert (PyStr.endswith "/"%char P1 = false) as HP1 by (by apply join_endswith).
  assert (abspath (w_cwd w) p1 = P1) as Hres1
    by (unfold p1, P1; rewrite abspath_join by done; by rewrite HD).
  assert (abspath (w_cwd w) p2 = P2) as Hres2
    by (unfold p2, P2; rewrite abspath_join by done; by rewrite Hres1).
  assert (w_fs w !! P1 = None) as HP1_new.
  { apply no_dir_below; try done. intros tbl' Htbl'.
    rewrite Hdir in Htbl'. injection Htbl' as <-. by rewrite Hfresh. }
  assert (w_fs w !! P2 = None) as HP2_new.
  { apply no_dir_below; try done. intros tbl' Htbl'. by rewrite HP1_new in Htbl'. }
  pose proof (join_longer D n1 Hn1 Hne1) as Hlen_P1. fold P1 in Hlen_P1.
  pose proof (join_longer P1 n2 Hn2 Hne2) as Hlen_P2. fold P2 in Hlen_P2.
  pose proof (join_longer p1 n2 Hn2 Hne2) as Hlen_p2. fold p2 in Hlen_p2.
  assert (String.eqb p1 "" = false) as Hp1b
    by (by apply String.eqb_neq, join_nonempty).
  unfold makedirs. cbn [makedirs_rec]. fold p2.
  unfold p2 at 1. rewrite split_join, Hnb2 by done.
  unfold_M. unfold path_exists at 1. rewrite Hres1.
  assert (lookup_entry (w_fs w) P1 = None) as Hentry1.
  { unfold lookup_entry, P1. rewrite split_join by done. rewrite Hdir. simpl.
    by rewrite Hfresh. }
  rewrite HP1_new, Hentry1.
  rewrite !bool_decide_eq_false_2 by (by intros [? ?]).
  rewrite Hp1b, Hnb2. cbn [orb negb andb]. unfold try_except at 1.
  destruct (String.length p2) as [|fuel] eqn:Hfuel; [lia|].
  unfold p1 at 1.
  rewrite (makedirs_rec_fresh fuel d n1 D w tbl) by done. fold P1.
  rewrite Hdot2. unfold try_except, mkdir. simpl w_fs. simpl w_cwd.
  rewrite Hres2. unfold P2 at 1. rewrite split_join by done. fold P2.
  assert (P2 <> P1) as Hneq21 by (intros Heq; rewrite Heq in Hlen_P2; lia).
  assert (P2 <> D) as Hneq2d by (intros Heq; rewrite Heq in Hlen_P2; lia).
  rewrite (lookup_insert_ne _ P1 P2) by done.
  rewrite (lookup_insert_ne _ D P2) by done.
  rewrite HP2_new.
  assert (lookup_entry (<[P1 := ∅]> (<[D := <[n1 := EDir]> tbl]> (w_fs w))) P2 = None)
    as ->.
  { unfold lookup_entry, P2. rewrite split_join by done.
    rewrite lookup_insert_eq. simpl. apply lookup_empty. }
  rewrite !bool_decide_eq_false_2 by (by intros [? ?]).
  rewrite lookup_insert_eq, Hnb2. simpl. by rewrite insert_insert_eq.
Qed.

Lemma of_nat_02_no_slash (n : nat) :
  PyStr.rfind "/"%char (PyStr.of_nat_02 n) = None.
Proof.
  unfold PyStr.of_nat_02. destruct (n <? 10); [|apply of_nat_no_slash].
  apply rfind_concat; [done | apply of_nat_no_slash].
Qed.

Lemma month_abbr_no_slash (m : nat) : PyStr.rfind "/"%char (month_abbr m) = None.
Proof.
  unfold month_abbr. destruct m as [|m]; [done|]. simpl. rewrite Nat.sub_0_r.
  do 12 (destruct m as [|m]; [done|]). by destruct m.
Qed.

(** The stamp of a run holds no slash and is longer than one character. *)
Lemma now_strftime_stamp (w : World) :
  exists stamp,
    now_strftime w = (Ok stamp, w) /\
    PyStr.rfind "/"%char stamp = None /\ 1 < String.length stamp.
Proof.
  eexists. split; [reflexivity|]. unfold PyStr.fstring. cbn [fold_right]. split.
  - repeat (apply rfind_concat;
            [first [apply of_nat_02_no_slash | apply month_abbr_no_slash
                   | apply of_nat_no_slash | done]|]).
    done.
  - rewrite !length_concat. simpl. lia.
Qed.

Lemma abspath_root_dir (cwd : string) : abspath cwd root_dir = root_dir.
Proof. by apply abspath_absolute. Qed.

(** X17: run from a directory that is not the input directory and has no
    entry [parsed_videos], on an input directory without entries, [main]
    ends without an exception: it makes [parsed_videos] and in it the
    directory of the run, both empty but for that, and changes nothing
    else. *)
Theorem main_empty_input (w : World) (cwd : gmap string entry) :
  wf_fs (w_fs w) = true ->
  PyStr.endswith "/"%char (w_cwd w) = false ->
  w_cwd w <> root_dir ->
  w_fs w !! w_cwd w = Some cwd ->
  cwd !! "parsed_videos" = None ->
  w_fs w !! root_dir = Some ∅ ->
  exists stamp,
    now_strftime w = (Ok stamp, w) /\
    main w =
      (Ok tt,
       set_fs (<[PosixPath.join (PosixPath.join (w_cwd w) "parsed_videos") stamp
                   := ∅]>
                 (<[PosixPath.join (w_cwd w) "parsed_videos"
                      := <[stamp := EDir]> ∅]>
                    (<[w_cwd w := <["parsed_videos" := EDir]> cwd]> (w_fs w)))) w).
Proof.
  intros Hwf Hclean Hneq Hcwd Hfresh Hroot.
  destruct (now_strftime_stamp w) as (stamp & Hstamp & Hslash & Hlen).
  exists stamp. split; [done|]. unfold main. unfold_M. rewrite Hstamp.
  change (PosixPath.join "parsed_videos" stamp)
    with (PosixPath.join (PosixPath.join "" "parsed_videos") stamp).
  rewrite (makedirs_fresh2 "" "parsed_videos" stamp (w_cwd w) w cwd) by done.
  set (P1 := PosixPath.join (w_cwd w) "parsed_videos").
  set (P2 := PosixPath.join P1 stamp).
  set (fs2 := <[P2 := ∅]> _).
  assert (w_fs w !! P1 = None) as HP1.
  { apply no_dir_below; try done. intros tbl' Htbl'.
    rewrite Hcwd in Htbl'. injection Htbl' as <-. by rewrite Hfresh. }
  assert (w_fs w !! P2 = None) as HP2.
  { apply no_dir_below; try done.
    - by apply join_endswith.
    - intros ->. simpl in Hlen. lia.
    - intros tbl' Htbl'. by rewrite HP1 in Htbl'. }
  assert (fs2 !! root_dir = Some ∅) as Hroot2.
  { unfold fs2. rewrite !lookup_insert_ne; [done|..].
    - done.
    - intros Heq. rewrite Heq, Hroot in HP1. done.
    - intros Heq. rewrite Heq, Hroot in HP2. done. }
  rewrite (get_paired_data_names root_dir "mov" (set_fs fs2 w) ∅)
    by (by rewrite abspath_root_dir).
  rewrite dom_empty_L, elements_empty. simpl.
  rewrite elements_empty. reflexivity.
Qed.

(** ** What [main] leaves alone *)

Lemma wb_pure {A} (m : M A) :
  (forall w, (m w).2 = w) -> writes_below_parsed_videos m.
Proof.
  intros Hm w r w' _ Hrun. specialize (Hm w). rewrite Hrun in Hm.
  simpl in Hm. by subst.
Qed.

Lemma wb_reads {A} (m : M A) :
  (forall w, w_fs (m w).2 = w_fs w /\ w_cwd (m w).2 = w_cwd w) ->
  writes_below_parsed_videos m.
Proof.
  intros Hm w r w' _ Hrun. destruct (Hm w) as [Hfs Hcwd]. rewrite Hrun in *.
  simpl in *. split; [done|]. intros dir _ _. by rewrite Hfs.
Qed.

Lemma wb_bind_post {A B} (Q : A -> Prop) (m : M A) (k : A -> M B) :
  writes_below_parsed_videos m ->
  (forall w a w', m w = (Ok a, w') -> Q a) ->
  (forall a, Q a -> writes_below_parsed_videos (k a)) ->
  writes_below_parsed_videos (m ≫= k).
Proof.
  intros Hm HQ Hk w r w' Hclean Hrun. unfold_M.
  destruct (m w) as [[a|e] w0] eqn:Hmw.
  - destruct (Hm w (Ok a) w0 Hclean Hmw) as [Hcwd0 Hfs0].
    rewrite <- Hcwd0 in Hclean.
    destruct (Hk a (HQ w a w0 Hmw) w0 r w' Hclean Hrun) as [Hcwd1 Hfs1].
    rewrite Hcwd0 in Hcwd1, Hfs1. split; [done|].
    intros dir Hdir Hbelow. rewrite Hfs1 by done. by apply Hfs0.
  - simplify_eq. by apply (Hm w (Raise e)).
Qed.

Lemma wb_bind {A B} (m : M A) (k : A -> M B) :
  writes_below_parsed_videos m ->
  (forall a, writes_below_parsed_videos (k a)) ->
  writes_below_parsed_videos (m ≫= k).
Proof.
  intros Hm Hk. apply (wb_bind_post (fun _ => True)); auto.
Qed.

Lemma wb_try {A} (m : M A) (h : exn -> M A) :
  writes_below_parsed_videos m ->
  (forall e, writes_below_parsed_videos (h e)) ->
  writes_below_parsed_videos (try_except m h).
Proof.
  intros Hm Hh w r w' Hclean Hrun. unfold try_except in Hrun.
  destruct (m w) as [[a|e] w0] eqn:Hmw.
  - simplify_eq. by apply (Hm w (Ok a)).
  - destruct (Hm w (Raise e) w0 Hclean Hmw) as [Hcwd0 Hfs0].
    rewrite <- Hcwd0 in Hclean.
    destruct (Hh e w0 r w' Hclean Hrun) as [Hcwd1 Hfs1].
    rewrite Hcwd0 in Hcwd1, Hfs1. split; [done|].
    intros dir Hdir Hbelow. rewrite Hfs1 by done. by apply Hfs0.
Qed.

Lemma wb_for_each {A} (l : list A) (body : A -> M unit) :
  (forall x, writes_below_parsed_videos (body x)) ->
  writes_below_parsed_videos (for_each l body).
Proof.
  intros Hbody. induction l as [|x l IH]; simpl.
  - by apply wb_pure.
  - apply wb_bind; [apply Hbody | by intros _].
Qed.

(** *** Paths that begin with a given path *)

Lemma startswith_concat (a s : string) : PyStr.startswith a (PyStr.concat a s) = true.
Proof. induction a as [|x a IH]; simpl; [done|]. by rewrite Ascii.eqb_refl. Qed.

Lemma startswith_inv (a s : string) :
  PyStr.startswith a s = true -> exists rest, s = PyStr.concat a rest.
Proof.
  revert s. induction a as [|x a IH]; intros s; simpl.
  - by exists s.
  - destruct s as [|y s]; [done|].
    intros [->%Ascii.eqb_eq Hs]%andb_true_iff.
    destruct (IH s Hs) as (rest & ->). by exists rest.
Qed.

Lemma rfind_concat_l (c : ascii) (a b : string) :
  PyStr.rfind c b = None ->
  PyStr.rfind c (PyStr.concat a b) = PyStr.rfind c a.
Proof.
  intros Hb. induction a as [|x a IH]; simpl; [done|]. by rewrite IH.
Qed.

Lemma rfind_concat_r (c : ascii) (a b : string) (k : nat) :
  PyStr.rfind c b = Some k ->
  PyStr.rfind c (PyStr.concat a b) = Some (String.length a + k).
Proof.
  intros Hb. induction a as [|x a IH]; simpl; [done|]. by rewrite IH.
Qed.

Lemma rfind_lt (c : ascii) (s : string) (k : nat) :
  PyStr.rfind c s = Some k -> k < String.length s.
Proof.
  revert k. induction s as [|x s IH]; intros k; simpl; [done|].
  destruct (PyStr.rfind c s) as [i|].
  - intros [= <-]. specialize (IH i eq_refl). lia.
  - destruct (Ascii.eqb x c); [|done]. intros [= <-]. lia.
Qed.

Lemma take_concat_le (n : nat) (a b : string) :
  n <= String.length a -> PyStr.take n (PyStr.concat a b) = PyStr.take n a.
Proof.
  revert n. induction a as [|x a IH]; intros n Hn; simpl in *.
  - assert (n = 0) as -> by lia. by destruct b.
  - destruct n; [done|]. rewrite IH by lia. done.
Qed.

Lemma take_concat_add (n : nat) (a b : string) :
  PyStr.take (String.length a + n) (PyStr.concat a b) =
  PyStr.concat a (PyStr.take n b).
Proof. induction a as [|x a IH]; simpl; [done | by rewrite IH]. Qed.

Lemma eqb_concat_nonempty_l (a b : string) :
  a <> "" -> String.eqb (PyStr.concat a b) "" = false.
Proof. intros Ha. by destruct a. Qed.

(** Taking off trailing slashes leaves a beginning that ends in none. *)
Lemma rstrip_concat_below (a s : string) :
  a <> "" -> PyStr.endswith "/"%char a = false ->
  PyStr.startswith a (PyStr.rstrip "/"%char (PyStr.concat a s)) = true.
Proof.
  induction a as [|x a IH]; [done|]. intros _ Hend.
  destruct a as [|y a].
  - cbn [PyStr.endswith] in Hend. cbn [PyStr.concat PyStr.rstrip].
    destruct (PyStr.rstrip "/"%char s); rewrite ?Hend; cbn [PyStr.startswith];
      by rewrite Ascii.eqb_refl.
  - assert (PyStr.endswith "/"%char (String y a) = false) as Hend' by done.
    specialize (IH ltac:(done) Hend').
    cbn [PyStr.concat PyStr.rstrip] in *.
    destruct (match PyStr.rstrip "/"%char (PyStr.concat a s) with
              | "" => if Ascii.eqb y "/"%char then "" else String y ""
              | String a0 s0 => String y (String a0 s0)
              end) as [|z r] eqn:Hr; [done|].
    cbn [PyStr.startswith]. by rewrite Ascii.eqb_refl.
Qed.

(** The head of a path that begins with [base] is the head of [base], or
    begins with [base]. *)
Lemma split_head_below (base rest : string) :
  base <> "" -> PyStr.endswith "/"%char base = false ->
  (PosixPath.split (PyStr.concat base rest)).1 = (PosixPath.split base).1 \/
  PyStr.startswith base (PosixPath.split (PyStr.concat base rest)).1 = true.
Proof.
  intros Hne Hend. unfold PosixPath.split. cbn [fst].
  destruct (PyStr.rfind "/"%char rest) as [k|] eqn:Hrest.
  - right. rewrite (rfind_concat_r _ _ _ _ Hrest).
    replace (S (String.length base + k)) with (String.length base + S k) by lia.
    rewrite take_concat_add.
    rewrite eqb_concat_nonempty_l by done.
    rewrite all_char_concat_false by done. cbn [negb andb].
    by apply rstrip_concat_below.
  - left. rewrite (rfind_concat_l _ _ _ Hrest).
    destruct (PyStr.rfind "/"%char base) as [i|] eqn:Hbase.
    + pose proof (rfind_lt _ _ _ Hbase) as Hi.
      by rewrite take_concat_le by lia.
    + by destruct (PyStr.concat base rest), base.
Qed.

Lemma startswith_concat_l (a s t : string) :
  PyStr.startswith a s = true -> PyStr.startswith a (PyStr.concat s t) = true.
Proof.
  intros (rest & ->)%startswith_inv. rewrite concat_assoc.
  apply startswith_concat.
Qed.

(** A name joined to a relative path that begins with [base] gives a
    path that begins with [base]. *)
Lemma join_below (base d n : string) :
  base <> "" -> PyStr.startswith base d = true ->
  PyStr.startswith "/" n = false ->
  PyStr.startswith base (PosixPath.join d n) = true.
Proof.
  intros Hbase Hd Hn. unfold PosixPath.join. rewrite Hn.
  destruct (_ || _); by apply startswith_concat_l.
Qed.

Lemma join_concat_r (a b rest : string) :
  b <> "" ->
  PosixPath.join a (PyStr.concat b rest) = PyStr.concat (PosixPath.join a b) rest.
Proof.
  intros Hb. unfold PosixPath.join.
  assert (PyStr.startswith "/" (PyStr.concat b rest) = PyStr.startswith "/" b)
    as -> by (by destruct b).
  destruct (PyStr.startswith "/" b); [done|].
  destruct (_ || _); by rewrite !concat_assoc.
Qed.

(** The absolute path of a relative path that begins with
    [parsed_videos] begins with that of [parsed_videos]. *)
Lemma abspath_below (cwd p : string) :
  PyStr.startswith "parsed_videos" p = true ->
  PyStr.startswith (PosixPath.join cwd "parsed_videos") (abspath cwd p) = true.
Proof.
  intros (rest & ->)%startswith_inv. unfold abspath.
  rewrite eqb_concat_nonempty_l by done.
  rewrite join_concat_r by done. apply startswith_concat.
Qed.

(** The directory in which a path below [parsed_videos] lies is the
    current directory or lies below [parsed_videos]. *)
Lemma split_abspath_below (cwd p : string) :
  PyStr.endswith "/"%char cwd = false ->
  PyStr.startswith "parsed_videos" p = true ->
  (PosixPath.split (abspath cwd p)).1 = cwd \/
  PyStr.startswith (PosixPath.join cwd "parsed_videos")
    (PosixPath.split (abspath cwd p)).1 = true.
Proof.
  intros Hclean Hp.
  destruct (startswith_inv _ _ (abspath_below cwd p Hp)) as (rest & ->).
  assert (PosixPath.join cwd "parsed_videos" <> "") as Hne
    by (by apply join_nonempty).
  assert (PyStr.endswith "/"%char (PosixPath.join cwd "parsed_videos") = false)
    as Hend by (by apply join_endswith).
  destruct (split_head_below _ rest Hne Hend) as [Hhead|Hhead]; [left|by right].
  rewrite Hhead. by rewrite split_join.
Qed.

(** The part before the last slash of a relative path that begins with
    [parsed_videos] is empty or begins with [parsed_videos]. *)
Lemma split_raw_below (p : string) :
  PyStr.startswith "parsed_videos" p = true ->
  (PosixPath.split p).1 = "" \/
  PyStr.startswith "parsed_videos" (PosixPath.split p).1 = true.
Proof.
  intros (rest & ->)%startswith_inv.
  by destruct (split_head_below "parsed_videos" rest) as [Hhead|Hhead];
    [| |left|right].
Qed.

Lemma below_neq (cwd p dir : string) :
  PyStr.startswith "parsed_videos" p = true ->
  PyStr.startswith (PosixPath.join cwd "parsed_videos") dir = false ->
  abspath cwd p <> dir.
Proof.
  intros Hp Hdir <-. rewrite abspath_below in Hdir by done. done.
Qed.

Lemma head_below_neq (cwd p dir : string) :
  PyStr.endswith "/"%char cwd = false ->
  PyStr.startswith "parsed_videos" p = true ->
  dir <> cwd ->
  PyStr.startswith (PosixPath.join cwd "parsed_videos") dir = false ->
  (PosixPath.split (abspath cwd p)).1 <> dir.
Proof.
  intros Hclean Hp Hneq Hdir Heq.
  destruct (split_abspath_below cwd p Hclean Hp) as [Hhead|Hhead].
  - congruence.
  - rewrite Heq in Hhead. congruence.
Qed.

Lemma mkdir_wb (p : string) :
  PyStr.startswith "parsed_videos" p = true ->
  writes_below_parsed_videos (mkdir p).
Proof.
  intros Hp w r w' Hclean Hrun. unfold mkdir in Hrun.
  pose proof (head_below_neq (w_cwd w) p) as Hhead.
  destruct (PosixPath.split (abspath (w_cwd w) p)) as [head tail].
  cbn [fst] in Hhead.
  destruct (_ || _); [by simplify_eq|].
  destruct (w_fs w !! head) as [tbl|]; [|by simplify_eq].
  destruct (String.eqb tail ""); simplify_eq; [done|].
  split; [done|]. intros dir Hneq Hdir. simpl.
  rewrite !lookup_insert_ne; [done|by apply Hhead|by apply below_neq].
Qed.

Lemma makedirs_rec_wb (fuel : nat) (name : string) (exist_ok : bool) :
  PyStr.startswith "parsed_videos" name = true ->
  writes_below_parsed_videos (makedirs_rec fuel name exist_ok).
Proof.
  revert name. induction fuel as [|fuel IH]; intros name Hname; cbn [makedirs_rec].
  - by apply wb_pure.
  - pose proof (split_raw_below name Hname) as Hhead.
    destruct (PosixPath.split name) as [head tail]. cbn [fst] in Hhead.
    assert ((if String.eqb tail "" then PosixPath.split head else (head, tail)).1
              = "" \/
            PyStr.startswith "parsed_videos"
              (if String.eqb tail "" then PosixPath.split head else (head, tail)).1
              = true) as Hhead'.
    { destruct (String.eqb tail ""); [|done].
      destruct Hhead as [->|Hhead]; [by left|]. by apply split_raw_below. }
    destruct (if String.eqb tail "" then PosixPath.split head else (head, tail))
      as [head' tail']. cbn [fst] in Hhead'.
    apply wb_bind; [by apply wb_pure|].
    intros head_exists. apply wb_bind.
    + destruct Hhead' as [->|Hhead']; [by apply wb_pure|].
      destruct (_ && _); [|by apply wb_pure].
      apply wb_bind; [|intros; by apply wb_pure].
      apply wb_try; [by apply IH|].
      intros e. destruct e; by apply wb_pure.
    + intros [|]; [by apply wb_pure|].
      apply wb_try; [by apply mkdir_wb|].
      intros e. apply wb_bind; [by apply wb_pure|].
      intros is_dir. destruct (_ || _); by apply wb_pure.
Qed.

Lemma writable_head (w : World) (p head tail : string)
    (tbl : gmap string entry) :
  writable w p = Ok (head, tail, tbl) ->
  head = (PosixPath.split (abspath (w_cwd w) p)).1.
Proof.
  unfold writable. destruct (PosixPath.split (abspath (w_cwd w) p)) as [h t].
  intros H. repeat case_match; by simplify_eq.
Qed.

Lemma write_file_wb (p content : string) :
  PyStr.startswith "parsed_videos" p = true ->
  writes_below_parsed_videos (write_file p content).
Proof.
  intros Hp w r w' Hclean Hrun. unfold write_file in Hrun.
  destruct (writable w p) as [[[head tail] tbl]|e] eqn:Hw;
    simplify_eq; [|done].
  apply writable_head in Hw as ->. split; [done|]. intros dir Hneq Hdir. simpl.
  by apply lookup_insert_ne, head_below_neq.
Qed.

Lemma imwrite_wb (p : string) (img : ndarray) :
  PyStr.startswith "parsed_videos" p = true ->
  writes_below_parsed_videos (imwrite p img).
Proof.
  intros Hp w r w' Hclean Hrun. unfold imwrite in Hrun.
  destruct (Cv.empty img); [by simplify_eq|].
  destruct (writable w p) as [[[head tail] tbl]|e] eqn:Hw;
    simplify_eq; [|done].
  apply writable_head in Hw as ->. split; [done|]. intros dir Hneq Hdir. simpl.
  by apply lookup_insert_ne, head_below_neq.
Qed.

Lemma load_video_none_reads (fp : string) (w : World) :
  w_fs (load_video fp VNone w).2 = w_fs w /\
  w_cwd (load_video fp VNone w).2 = w_cwd w.
Proof.
  rewrite load_video_none. pose proof (av_open_world fp w) as Hw.
  destruct (av_open fp w) as [[[s|]|e] w0]; cbn [snd] in *; subst;
    [|done..].
  split; [apply printed_shape_fs | apply printed_shape_cwd].
Qed.

Lemma process_pair_wb (outdir : string) (item : nat * (string * string)) :
  PyStr.startswith "parsed_videos" outdir = true ->
  writes_below_parsed_videos (process_pair outdir item).
Proof.
  intros Hout. destruct item as [idx [calibration_fp video_fp]].
  unfold process_pair.
  assert (PyStr.startswith "parsed_videos"
            (PosixPath.join outdir (PyStr.fstring ["video_"; PyStr.of_nat idx]))
          = true) as Hvd by (by apply join_below).
  apply wb_bind; [apply wb_pure, load_json_world|].
  intros calibration_json. apply wb_bind.
  { apply wb_reads, load_video_none_reads. }
  intros video_rgb.
  apply wb_bind; [by apply makedirs_rec_wb|]. intros _.
  apply wb_bind.
  { apply write_file_wb. by apply join_below. }
  intros _. apply wb_for_each. intros [i frame].
  unfold write_frame. apply wb_bind; [by apply wb_pure|].
  intros bgr. apply wb_bind; [|intros; by apply wb_pure].
  apply imwrite_wb, join_below; [done..|].
  apply startswith_slash.
  change (PyStr.fstring [PyStr.of_nat i; ".png"]) with (frame_file i).
  apply png_name_no_slash.
Qed.

(** Whatever its outcome, [main] changes no directory but the current one
    and those below [parsed_videos] in it. *)
Lemma main_wb : writes_below_parsed_videos main.
Proof.
  unfold main.
  apply (wb_bind_post (fun stamp => PyStr.rfind "/"%char stamp = None));
    [by apply wb_pure | |].
  - intros w0 stamp w1 Hstamp.
    destruct (now_strftime_stamp w0) as (stamp' & Hstamp' & Hslash & _).
    rewrite Hstamp in Hstamp'. by simplify_eq.
  - intros stamp Hslash%startswith_slash.
    assert (PyStr.startswith "parsed_videos" (PosixPath.join "parsed_videos" stamp)
            = true) as Hout by (by apply join_below).
    apply wb_bind; [by apply makedirs_rec_wb|].
    intros _. apply wb_bind.
    { apply wb_pure. intros w0. apply get_paired_data_world. }
    intros data_pairs. apply wb_for_each. intros item.
    by apply process_pair_wb.
Qed.

(** X18: run from a directory whose path ends in no slash, [main] leaves,
    whatever its outcome, every directory as it found it but the current
    directory and those whose absolute path begins with that of
    [parsed_videos] in the current directory; the input directory is of
    those left alone unless it is the current directory or lies below
    [parsed_videos]. *)
Theorem main_keeps_input (w : World) (r : Res unit) (w' : World) :
  PyStr.endswith "/"%char (w_cwd w) = false ->
  main w = (r, w') ->
  (forall dir,
     dir <> w_cwd w ->
     PyStr.startswith (PosixPath.join (w_cwd w) "parsed_videos") dir = false ->
     w_fs w' !! dir = w_fs w !! dir) /\
  (w_cwd w <> root_dir ->
   PyStr.startswith (PosixPath.join (w_cwd w) "parsed_videos") root_dir = false ->
   w_fs w' !! root_dir = w_fs w !! root_dir).
Proof.
  intros Hclean Hrun. destruct (main_wb w r w' Hclean Hrun) as [_ Hfs].
  split; [done|]. intros Hneq Hbelow. by apply Hfs.
Qed.

(** ** The checks in a run of [main] *)

(** C9: [main] hands no calibration data to [load_video].  Such a call
    makes none of the checks of lines 32-35: its outcome is the exception
    of [av.open], the [IndexError] of a container without a video stream,
    the error of the decoder, or the decoded frames.  So a pair whose
    record is off the timestamps of its video, a pair [load_video] refuses
    when it is given the record, is processed by the loop of [main]
    without an exception; and no run of [main] ends with the
    [AssertionError] of a failed check, or with a [NameError]. *)
Theorem main_never_checks_timestamps :
  (forall fp w,
     load_video fp VNone w =
       match av_open fp w with
       | (Ok (Some s), w') =>
           (if broken s then Raise InvalidDataError
            else Ok (map to_ndarray (decoded s)),
            printed_shape (decoded s) w')
       | (Ok None, w') => (Raise IndexError, w')
       | (Raise e, w') => (Raise e, w')
       end) /\
  (forall outdir idx calibration_fp video_fp w calibration_json frames tbl
          i frame,
     wf_fs (w_fs w) = true ->
     PyStr.endswith "/"%char (abspath (w_cwd w) outdir) = false ->
     w_fs w !! abspath (w_cwd w) outdir = Some tbl ->
     tbl !! PyStr.concat "video_" (PyStr.of_nat idx) = None ->
     (load_json calibration_fp w).1 = Ok calibration_json ->
     (av_open video_fp w).1 = Ok (video frames) ->
     frames !! i = Some frame ->
     deviates calibration_json i frame ->
     (exists e w', load_video video_fp calibration_json w = (Raise e, w')) /\
     (exists w',
        process_pair outdir (idx, (calibration_fp, video_fp)) w = (Ok tt, w'))) /\
  (forall w e w', main w = (Raise e, w') ->
     e <> AssertionError /\ forall name, e <> NameError name).
Proof.
  split; [|split].
  - apply load_video_none.
  - intros outdir idx calibration_fp video_fp w calibration_json frames tbl
      i frame Hwf Hout Hdir Hfresh Hjson Hopen Hi Hdev.
    split.
    + destruct (deviates_start_time _ _ _ Hdev) as (Hcal & _).
      destruct frames as [|frame0 frames]; [done|].
      apply av_open_ok in Hopen.
      destruct (load_video_checked video_fp calibration_json w _ frame0 frames
                  Hcal Hopen eq_refl) as (e & w' & Hload & _).
      by exists e, w'.
    + destruct (process_pair_fresh outdir idx calibration_fp video_fp w
                  calibration_json frames tbl Hwf Hout Hdir Hfresh Hjson Hopen)
        as (w' & out & Hrun & _).
      by exists w'.
  - intros w e w' Hrun. pose proof (main_raises w e w' Hrun) as He.
    split; [by intros ->|]. by intros name ->.
Qed.

End Script.

(** ** The script at work on a small world *)

Section Examples.
Import Py Np Av Cv Os.

Example base_name_calibration : base_name "a_calibration.json" = "a".
Proof. reflexivity. Qed.

Example base_name_video : base_name "a.mov" = "a".
Proof. reflexivity. Qed.

(** Only the first pass of [replace] is made, and only the last suffix is
    taken off by [stem]. *)
Example base_name_nested :
  base_name "x_calib_calibrationration.tar.gz" = "x_calibration.tar".
Proof. reflexivity. Qed.

(** A directory that holds the video alone still gives the pair, and its
    first path names no entry of the directory. *)
Example pairing_names_missing_file :
  let w := Sample.world {["a.mov" := EFile "clip"]} in
  get_paired_data "data" "mov" w = (Ok [("data/a.json", "data/a.mov")], w) /\
  lookup_entry (w_fs w) (abspath (w_cwd w) "data/a.json") = None.
Proof. split; vm_compute; reflexivity. Qed.

(** With the calibration file under its longer name, [main]'s loop looks
    for [a.json], which is not there. *)
Example process_pair_suffix_missing :
  (process_pair Sample.json_loads Sample.json_dumps Sample.av_decode
     Sample.png_encode "out" (0, ("data/a.json", "data/a.mov"))
     (Sample.world Sample.documents_suffix)).1 =
  Raise (FileNotFoundError "data/a.json").
Proof. vm_compute. reflexivity. Qed.

(** Turning a frame of two rows and three columns clockwise: the first
    row of the result is the first column of the source, bottom up. *)
Example rotate_clockwise_2x3 (a b c d e f : pixel) :
  rotate [[a; b; c]; [d; e; f]] ROTATE_90_CLOCKWISE = [[d; a]; [e; b]; [f; c]].
Proof. reflexivity. Qed.

Example rotate_counterclockwise_3x2 (a b c d e f : pixel) :
  rotate [[d; a]; [e; b]; [f; c]] ROTATE_90_COUNTERCLOCKWISE =
    [[a; b; c]; [d; e; f]].
Proof. reflexivity. Qed.

(** A first frame four seconds off its timestamp fails the assertion of
    line 33; a first frame on time reaches line 34. *)
Example load_video_first_frame_late :
  (load_video Sample.av_decode "data/a.mov"
     (VDict [("sessionStartTime", VInt 100);
             ("frames", VList [VDict [("timestamp", VInt 104)]])])
     (Sample.world Sample.documents)).1 = Raise AssertionError.
Proof. vm_compute. reflexivity. Qed.

Example load_video_first_frame_on_time :
  (load_video Sample.av_decode "data/a.mov" Sample.calibration_late
     (Sample.world Sample.documents)).1 = Raise (NameError "timestamps").
Proof. vm_compute. reflexivity. Qed.

(** Calibration data without the start of the session fails before any
    frame is decoded. *)
Example load_video_no_start_time :
  load_video Sample.av_decode "data/a.mov" (VDict [])
    (Sample.world Sample.documents) =
  (Raise (KeyError (VStr "sessionStartTime")), Sample.world Sample.documents).
Proof. vm_compute. reflexivity. Qed.

(** A file without a video stream is opened, and fails the loop of line
    21 before a frame is decoded; a stream that breaks after its first
    frame fails it after the shape of that frame has been printed. *)
Example load_video_no_stream :
  load_video sample_av_decode "data/x.mov" VNone
    (Sample.world {["x.mov" := EFile "audio"]}) =
  (Raise IndexError, Sample.world {["x.mov" := EFile "audio"]}).
Proof. vm_compute. reflexivity. Qed.

Example load_video_broken_stream :
  let r := load_video sample_av_decode "data/x.mov" VNone
             (Sample.world {["x.mov" := EFile "cut"]}) in
  r.1 = Raise InvalidDataError /\ w_stdout r.2 = ["(2, 3, 3)"].
Proof. split; vm_compute; reflexivity. Qed.

(** Run from the input directory itself, [main] finds its own output
    directory among the entries and looks for a calibration file of that
    name. *)
Example main_in_input_directory :
  let w := {| w_fs := w_fs sample_home; w_cwd := root_dir; w_stdout := [];
              w_now := Sample.clock |} in
  (main Sample.json_loads Sample.json_dumps Sample.av_decode Sample.png_encode
     w).1 =
  Raise (FileNotFoundError (PosixPath.join root_dir "parsed_videos.json")).
Proof. vm_compute. reflexivity. Qed.

Example json_dumps_calibration :
  Sample.json_dumps Sample.calibration = Sample.calibration_text.
Proof. vm_compute. reflexivity. Qed.

Lemma pairing_json_mov_witness :
  get_paired_data "data" "mov" (Sample.world Sample.documents) =
    (Ok [("data/a.json", "data/a.mov")], Sample.world Sample.documents).
Proof.
  apply (pairing_json_mov "data" (Sample.world Sample.documents)
           Sample.calibration_text "clip").
  vm_compute. reflexivity.
Defined.

Lemma pairing_calibration_suffix_witness :
  get_paired_data "data" "mov" (Sample.world Sample.documents_suffix) =
    (Ok [("data/a.json", "data/a.mov")], Sample.world Sample.documents_suffix).
Proof.
  apply (pairing_calibration_suffix "data" (Sample.world Sample.documents_suffix)
           Sample.calibration_text "clip").
  vm_compute. reflexivity.
Defined.

Lemma pairing_builds_paths_witness :
  exists pairs,
    get_paired_data "data" "mp4" (Sample.world Sample.documents_suffix) =
      (Ok pairs, Sample.world Sample.documents_suffix) /\
    length pairs =
      size (list_to_set (base_name <$> elements (dom Sample.documents_suffix))
            : gset string) /\
    forall p, p ∈ pairs <->
      exists fp, fp ∈ dom Sample.documents_suffix /\
        p = (PosixPath.join "data" (PyStr.concat (base_name fp) ".json"),
             PosixPath.join "data"
               (PyStr.concat (base_name fp) (PyStr.concat "." "mp4"))).
Proof.
  apply (pairing_builds_paths "data" "mp4" (Sample.world Sample.documents_suffix)
           Sample.documents_suffix).
  vm_compute. reflexivity.
Defined.

Lemma load_video_frames_witness :
  exists rgb w',
    load_video Sample.av_decode "data/a.mov" VNone (Sample.world Sample.documents) =
      (Ok rgb, w') /\
    length rgb = 2 /\
    forall i frame, Sample.clip !! i = Some frame ->
      rgb !! i = Some (to_ndarray frame) /\
      shape (to_ndarray frame) =
        (Pos.to_nat (height frame), Pos.to_nat (width frame), 3).
Proof.
  apply (load_video_frames Sample.av_decode "data/a.mov"
           (Sample.world Sample.documents) Sample.clip).
  vm_compute. reflexivity.
Defined.

(** The first frame of the clip is four seconds off the record of
    [off.json]: handed that record, [load_video] fails the assertion of
    line 33, and a loop body that hands it over leaves the small world
    without output for the pair. *)
Lemma deviating_frame_raises_witness :
  exists e w',
    load_video sample_av_decode "data/a.mov" sample_calibration_off
      (Sample.world sample_files_off) = (Raise e, w') /\
    (0 = 0 -> e = AssertionError) /\
    w_fs w' = w_fs (Sample.world sample_files_off) /\
    forall supplied,
      supplied sample_calibration_off = sample_calibration_off ->
      process_pair_with sample_json_loads Sample.json_dumps sample_av_decode
        Sample.png_encode supplied "out" (0, ("data/off.json", "data/a.mov"))
        (Sample.world sample_files_off) = (Raise e, w').
Proof.
  apply (deviating_frame_raises sample_json_loads Sample.json_dumps
           sample_av_decode Sample.png_encode
           "out" 0 "data/off.json" "data/a.mov" sample_calibration_off
           (Sample.world sample_files_off) Sample.clip 0
           {| height := 2; width := 3; time := Some 0%float;
              rgb24 := Sample.colour |}).
  - vm_compute. reflexivity.
  - vm_compute. reflexivity.
  - reflexivity.
  - exists (VFloat 4%float). split; vm_compute; reflexivity.
Defined.

Lemma load_video_with_calibration_raises_witness :
  exists w',
    load_video Sample.av_decode "data/a.mov" Sample.calibration
      (Sample.world Sample.documents) = (Raise (NameError "timestamps"), w').
Proof.
  refine (proj2 (load_video_with_calibration_raises Sample.av_decode
                   "data/a.mov" Sample.calibration
                   (Sample.world Sample.documents) Sample.clip _ _ _) _).
  - discriminate.
  - vm_compute. reflexivity.
  - discriminate.
  - intros [|[|idx]] frame Hframe; simpl in Hframe; [| |discriminate];
      injection Hframe as <-;
      exists (VFloat 0%float); split; vm_compute; reflexivity.
Defined.



(** The record of [off.json], four seconds off the first frame of the
    clip, does not stop the loop of [main], though [load_video] refuses
    the video when it is handed that record; and [main], on the input
    directory of three sessions, processes one of them, as what it has
    printed shows, before it fails on the file without a video stream:
    with [IndexError], which is no exception of a failed check. *)
Lemma main_never_checks_timestamps_witness :
  let w := Sample.world sample_files_off in
  let r :=
    main Sample.json_loads Sample.json_dumps sample_av_decode Sample.png_encode
      sample_home_mixed in
  ((exists e w', load_video sample_av_decode "data/a.mov" sample_calibration_off w
                 = (Raise e, w')) /\
   (exists w', process_pair sample_json_loads Sample.json_dumps sample_av_decode
                 Sample.png_encode "out" (0, ("data/off.json", "data/a.mov")) w
               = (Ok tt, w'))) /\
  r.1 = Raise IndexError /\
  w_stdout r.2 = ["(2, 3, 3)"] /\
  (IndexError <> AssertionError /\ forall name, IndexError <> NameError name).
Proof.
  intros w r.
  assert (r = (Raise IndexError, r.2)) as Hrun by (vm_compute; reflexivity).
  split; [|split; [vm_compute; reflexivity|split; [vm_compute; reflexivity|]]].
  - apply (proj1 (proj2 (main_never_checks_timestamps sample_json_loads
                           Sample.json_dumps sample_av_decode Sample.png_encode))
             "out" 0 "data/off.json" "data/a.mov" w sample_calibration_off
             Sample.clip ∅ 0
             {| height := 2; width := 3; time := Some 0%float;
                rgb24 := Sample.colour |});
      [vm_compute; reflexivity..|].
    exists (VFloat 4%float). split; vm_compute; reflexivity.
  - exact (proj2 (proj2 (main_never_checks_timestamps Sample.json_loads
                           Sample.json_dumps sample_av_decode
                           Sample.png_encode)) _ _ _ Hrun).
Defined.

Lemma load_video_missing_start_time_witness :
  load_video sample_av_decode "data/a.mov" (VDict [("frames", VList [])])
    (Sample.world sample_files) =
  (Raise (KeyError (VStr "sessionStartTime")), Sample.world sample_files).
Proof.
  apply (load_video_missing_start_time sample_av_decode "data/a.mov" _ _
           (video Sample.clip));
    vm_compute; reflexivity.
Defined.


Lemma load_video_first_frame_off_witness :
  load_video sample_av_decode "data/a.mov"
    (VDict [("sessionStartTime", VInt 100);
            ("frames", VList [VDict [("timestamp", VInt 104)]])])
    (Sample.world sample_files) =
  (Raise AssertionError,
   printed_shape
     [{| height := 2; width := 3; time := Some 0%float; rgb24 := Sample.colour |}]
     (Sample.world sample_files)).
Proof.
  apply (load_video_first_frame_off sample_av_decode "data/a.mov" _ _ _
           (drop 1 Sample.clip) (VFloat 4%float)).
  - discriminate.
  - vm_compute. reflexivity.
  - vm_compute. reflexivity.
  - vm_compute. reflexivity.
Defined.

Lemma load_video_first_frame_decides_witness :
  load_video sample_av_decode "data/a.mov" Sample.calibration
    (Sample.world sample_files) =
  load_video sample_av_decode "data/short.mov" Sample.calibration
    (Sample.world sample_files).
Proof.
  apply (load_video_first_frame_decides sample_av_decode "data/a.mov"
           "data/short.mov" Sample.calibration (Sample.world sample_files)
           {| height := 2; width := 3; time := Some 0%float; rgb24 := Sample.colour |}
           (drop 1 Sample.clip) []).
  - discriminate.
  - vm_compute. reflexivity.
  - vm_compute. reflexivity.
Defined.

Lemma process_pair_missing_calibration_witness :
  process_pair Sample.json_loads Sample.json_dumps Sample.av_decode
    Sample.png_encode "out" (0, pair_of "data" "mov" "a")
    (Sample.world Sample.documents_suffix) =
  (Raise (FileNotFoundError "data/a.json"), Sample.world Sample.documents_suffix).
Proof.
  apply (process_pair_missing_calibration Sample.json_loads Sample.json_dumps
           Sample.av_decode Sample.png_encode "out" "data" "mov" "a" 0
           (Sample.world Sample.documents_suffix) Sample.documents_suffix);
    vm_compute; reflexivity.
Defined.

Lemma process_pair_missing_video_witness :
  process_pair Sample.json_loads Sample.json_dumps sample_av_decode
    Sample.png_encode "out" (0, pair_of "data" "mov" "c")
    (Sample.world sample_files) =
  (Raise (FileNotFoundError "data/c.mov"), Sample.world sample_files).
Proof.
  apply (process_pair_missing_video Sample.json_loads Sample.json_dumps
           sample_av_decode Sample.png_encode "out" "data" "mov" "c" 0
           (Sample.world sample_files) sample_files Sample.calibration);
    vm_compute; reflexivity.
Defined.


Lemma write_frame_unwritable_witness :
  write_frame Sample.png_encode "out/video_0"
    (1, to_ndarray {| height := 2; width := 3; time := None; rgb24 := Sample.colour |})
    (Sample.world sample_files) =
  (Ok tt, Sample.world sample_files).
Proof.
  apply (write_frame_unwritable Sample.png_encode "out/video_0" 1).
  - reflexivity.
  - left. vm_compute. reflexivity.
Defined.

Lemma stamp_twelve_hours_apart_witness :
  (now_strftime sample_evening).1 = (now_strftime sample_morning).1 /\
  (now_strftime sample_morning).1 = Ok "19_Feb_2026_10.17".
Proof.
  split; [|vm_compute; reflexivity].
  apply (stamp_twelve_hours_apart sample_morning sample_evening); reflexivity.
Defined.

Lemma process_pair_overwrites_witness :
  let w1 :=
    (process_pair Sample.json_loads Sample.json_dumps sample_av_decode
       Sample.png_encode "out" (0, ("data/a.json", "data/a.mov"))
       (Sample.world sample_files)).2 in
  exists w' out,
    process_pair Sample.json_loads Sample.json_dumps sample_av_decode
      Sample.png_encode "out" (0, ("data/a.json", "data/short.mov")) w1 =
      (Ok tt, w') /\
    w_fs w' !! abspath (w_cwd w1) (video_dir "out" 0) = Some out /\
    out !! "calibration.json" = Some (EFile Sample.calibration_text) /\
    (forall i frame, take 1 Sample.clip !! i = Some frame ->
       exists img,
         written_image (to_ndarray frame) = Ok img /\
         out !! frame_file i = Some (EFile (Sample.png_encode img))) /\
    (forall name,
       name <> "calibration.json" ->
       (forall i, i < 1 -> name <> frame_file i) ->
       out !! name =
         (<["calibration.json" := EFile Sample.calibration_text]>
            (<["0.png" := EFile (Sample.png_encode (image_of
                 {| height := 2; width := 3; time := Some 0%float;
                    rgb24 := Sample.colour |}))]>
               {["1.png" := EFile (Sample.png_encode (image_of
                   {| height := 2; width := 3; time := Some 1%float;
                      rgb24 := Sample.colour |}))]}) : gmap string entry)
         !! name).
Proof.
  intros w1.
  apply (process_pair_overwrites Sample.json_loads Sample.json_dumps
           sample_av_decode Sample.png_encode "out" 0 "data/a.json"
           "data/short.mov" w1 Sample.calibration (take 1 Sample.clip)
           {["video_0" := EDir]}).
  - vm_compute. reflexivity.
  - reflexivity.
  - vm_compute. reflexivity.
  - vm_compute. reflexivity.
  - intros name.
    destruct (decide (name = "calibration.json")) as [->|H1]; [done|].
    rewrite lookup_insert_ne by done.
    destruct (decide (name = "0.png")) as [->|H2]; [done|].
    rewrite lookup_insert_ne by done.
    destruct (decide (name = "1.png")) as [->|H3]; [done|].
    by rewrite lookup_singleton_ne.
  - vm_compute. reflexivity.
  - vm_compute. reflexivity.
Defined.

(** On the input directory of three sessions, taken in the order [c],
    [a], [b]: the pair of [c] is processed, that of [a] fails, and [main]
    ends there, the pair of [b] not looked at. *)
Lemma main_stops_at_failure_witness :
  let run := main Sample.json_loads Sample.json_dumps sample_av_decode
               Sample.png_encode in
  let outdir := "parsed_videos/19_Feb_2026_10.17" in
  let w0 := (makedirs outdir true sample_home_mixed).2 in
  let w1 :=
    (process_pair Sample.json_loads Sample.json_dumps sample_av_decode
       Sample.png_encode outdir
       (0, (PosixPath.join root_dir "c.json", PosixPath.join root_dir "c.mov"))
       w0).2 in
  run sample_home_mixed = (Raise IndexError, w1) /\
  w_fs w1 !! abspath "/work" (video_dir outdir 1) = None.
Proof.
  intros run outdir w0 w1. split; [|vm_compute; reflexivity].
  apply (main_stops_at_failure Sample.json_loads Sample.json_dumps
           sample_av_decode Sample.png_encode sample_home_mixed w0 w1 w1
           "19_Feb_2026_10.17"
           [(PosixPath.join root_dir "c.json", PosixPath.join root_dir "c.mov")]
           [(PosixPath.join root_dir "b.json", PosixPath.join root_dir "b.mov")]
           (PosixPath.join root_dir "a.json", PosixPath.join root_dir "a.mov")
           IndexError);
    vm_compute; reflexivity.
Defined.

Lemma pairing_paths_distinct_witness :
  exists pairs,
    get_paired_data "data" "mov" (Sample.world sample_files) =
      (Ok pairs, Sample.world sample_files) /\
    NoDup pairs.*1 /\ NoDup pairs.*2.
Proof.
  apply (pairing_paths_distinct "data" "mov" (Sample.world sample_files) sample_files).
  vm_compute. reflexivity.
Defined.

Lemma pairing_paths_in_root_witness :
  exists pairs,
    get_paired_data "data" "mov" (Sample.world sample_files) =
      (Ok pairs, Sample.world sample_files) /\
    forall calibration_fp video_fp, (calibration_fp, video_fp) ∈ pairs ->
      exists name,
        PosixPath.split calibration_fp = ("data", PyStr.concat name ".json") /\
        PosixPath.split video_fp = ("data", PyStr.concat name (PyStr.concat "." "mov")).
Proof.
  apply (pairing_paths_in_root "data" "mov" (Sample.world sample_files) sample_files);
    vm_compute; reflexivity.
Defined.

Lemma pairing_plain_name_witness :
  get_paired_data "data" "mov" (Sample.world sample_session) =
    (Ok [("data/take7.json", "data/take7.mov")], Sample.world sample_session).
Proof.
  apply (pairing_plain_name "data" "take7" "mov" "_calibration"
           (Sample.world sample_session) Sample.calibration_text "clip");
    try (vm_compute; reflexivity); try discriminate.
  by right.
Defined.

Lemma main_empty_input_witness :
  exists stamp,
    now_strftime sample_home = (Ok stamp, sample_home) /\
    main Sample.json_loads Sample.json_dumps Sample.av_decode Sample.png_encode
      sample_home =
      (Ok tt,
       set_fs (<[PosixPath.join (PosixPath.join "/work" "parsed_videos") stamp
                   := ∅]>
                 (<[PosixPath.join "/work" "parsed_videos"
                      := <[stamp := EDir]> ∅]>
                    (<["/work" := <["parsed_videos" := EDir]> ∅]>
                       (w_fs sample_home))))
         sample_home).
Proof.
  apply (main_empty_input Sample.json_loads Sample.json_dumps Sample.av_decode
           Sample.png_encode sample_home ∅);
    [vm_compute; reflexivity.. | | | | ]; [|vm_compute; reflexivity..].
  discriminate.
Defined.

(** A run of [main] that writes the frames of a pair leaves the input
    directory, and the root directory, as it found them. *)
Lemma main_keeps_input_witness :
  let r := main Sample.json_loads Sample.json_dumps Sample.av_decode
             Sample.png_encode sample_home_files in
  r.1 = Ok tt /\
  w_fs r.2 !! root_dir = w_fs sample_home_files !! root_dir /\
  w_fs r.2 !! "/" = w_fs sample_home_files !! "/".
Proof.
  intros r. split; [vm_compute; reflexivity|].
  destruct (main_keeps_input Sample.json_loads Sample.json_dumps
              Sample.av_decode Sample.png_encode sample_home_files r.1 r.2)
    as [Hdirs Hroot].
  - reflexivity.
  - apply surjective_pairing.
  - split.
    + apply Hroot; [discriminate | vm_compute; reflexivity].
    + apply Hdirs; [discriminate | vm_compute; reflexivity].
Defined.

End Examples.
